(** * TemperatureDataLogger: the time-series engine of the two sketches

    The repository holds two Arduino sketches for the same appliance:
    - [ESP32_Temperature_Datalogger.ino] (TFT_eSPI user interface), embedded
      in module [Tft];
    - [ESP32_Temperature_Datalogger_Fixed.ino] (LVGL user interface), embedded
      in module [Lvgl].

    Conventions of the embedding.
    - A C [int], [time_t] or [unsigned long] is a [Z].  Every value the
      sketches compute on the paths below stays far inside 32 bits, so no
      wrap-around is written out.
    - The C operator [%] truncates towards zero: it is [Z.rem].
    - A C [float] is an exact rational ([Qc]); binary rounding is outside
      the model.
    - An Arduino [String] is a [list ascii].
    - A C array is a list, read with [!!!] and written with [<[i:=x]>]. *)

From Stdlib Require Import ZArith List Lia Ascii String QArith Qround Qcanon Sorted.
From stdpp Require Import base numbers list strings gmap.

Open Scope Z_scope.

(** ** Shared vocabulary *)

Definition float : Type := Qc.
Definition time_t : Type := Z.
Definition Str : Type := list ascii.

(** [DEVICE_DISCONNECTED_C] of DallasTemperature.h. *)
Definition DEVICE_DISCONNECTED_C : float := Q2Qc (-127 # 1).

(** C's [a % b]. *)
Definition c_rem (a b : Z) : Z := Z.rem a b.
Infix "%%" := c_rem (at level 40, left associativity) : Z_scope.

(** ** Arduino core: [String] and [Print]

    Models of the library routines the sketches call, written after the
    ESP32 Arduino core (WString.cpp, Print.cpp, Stream.cpp). *)

Module Arduino.

Definition lit (s : string) : Str := list_ascii_of_string s.

Definition len (s : Str) : Z := Z.of_nat (length s).

(** Conversion of an [int] argument to an [unsigned int] parameter. *)
Definition to_unsigned (z : Z) : Z := z `mod` 4294967296.

Definition ascii_eqb (a b : ascii) : bool := (N_of_ascii a =? N_of_ascii b)%N.

(** [isspace] of the C locale. *)
Definition isspace (c : ascii) : bool :=
  let n := N_of_ascii c in ((n =? 32) || ((9 <=? n) && (n <=? 13)))%N.

Definition isdigit (c : ascii) : bool :=
  let n := N_of_ascii c in ((48 <=? n) && (n <=? 57))%N.

Definition digitChar (d : Z) : ascii := ascii_of_N (48 + Z.to_N d).
Definition digitVal (c : ascii) : Z := Z.of_N (N_of_ascii c) - 48.

(** Position of the first [ch] in [s], counted from [pos]; [-1] when there
    is none ([strchr]). *)
Fixpoint find_from (ch : ascii) (s : Str) (pos : Z) : Z :=
  match s with
  | [] => -1
  | c :: s' => if ascii_eqb c ch then pos else find_from ch s' (pos + 1)
  end.

(** [String::indexOf(char ch, unsigned int fromIndex)]. *)
Definition indexOfFrom (ch : ascii) (fromIndex : Z) (s : Str) : Z :=
  let from := to_unsigned fromIndex in
  if len s <=? from then -1
  else find_from ch (drop (Z.to_nat from) s) from.

(** [String::indexOf(char ch)]. *)
Definition indexOf (ch : ascii) (s : Str) : Z := indexOfFrom ch 0 s.

(** [String::substring(unsigned int left, unsigned int right)]: the
    bounds are swapped when out of order and clipped to the length. *)
Definition substring (left right : Z) (s : Str) : Str :=
  let l0 := to_unsigned left in
  let r0 := to_unsigned right in
  let l := if r0 <? l0 then r0 else l0 in
  let r := if r0 <? l0 then l0 else r0 in
  if len s <=? l then []
  else let r := if len s <? r then len s else r in
       take (Z.to_nat (r - l)) (drop (Z.to_nat l) s).

Fixpoint skip_space (s : Str) : Str :=
  match s with
  | c :: s' => if isspace c then skip_space s' else s
  | [] => []
  end.

(** [String::trim()]. *)
Definition trim (s : Str) : Str :=
  reverse (skip_space (reverse (skip_space s))).

(** The digit loop of [Print::printNumber(unsigned long n, 10)]:
    [do { c = n % 10; n /= 10; *--str = c + '0'; } while (n);]. *)
Fixpoint printNumber_loop (fuel : nat) (n : Z) (acc : Str) : Str :=
  let acc' := digitChar (n `mod` 10) :: acc in
  match fuel with
  | O => acc'
  | S fuel' => if n / 10 =? 0 then acc' else printNumber_loop fuel' (n / 10) acc'
  end.

(** [Print::print(unsigned long)]; a number [n] has at most [log2 n + 1]
    decimal digits, which bounds the loop. *)
Definition printNumber (n : Z) : Str :=
  printNumber_loop (Z.to_nat (Z.log2 n)) n [].

(** [Print::print(int)] and [printf("%d")]. *)
Definition printInt (n : Z) : Str :=
  if n <? 0 then lit "-" ++ printNumber (- n) else printNumber n.

(** The loop [while (digits-- > 0)] of [Print::printFloat]. *)
Fixpoint printFraction (digits : nat) (remainder : Q) : Str :=
  match digits with
  | O => []
  | S d =>
      let r := (remainder * 10)%Q in
      let toPrint := Qfloor r in
      digitChar toPrint :: printFraction d (r - inject_Z toPrint)%Q
  end.

(** [Print::printFloat(double number, uint8_t digits)].  A rational is
    neither NaN nor infinite, so those two tests do not appear.  The sum
    [number + rounding] is the exact one.  The source forms it in binary
    floating point, where it can fall just below the exact sum: a number
    whose first dropped digit is an exact 5 followed by nothing (21.125
    with two digits) can then print with its last digit one lower.  What
    is proved of the text printed is proved of numbers that have no more
    than [digits] decimals, or does not depend on the digits printed. *)
Definition printFloat (number : float) (digits : nat) : Str :=
  let x : Q := this number in
  if Qlt_le_dec (4294967040 # 1) x then lit "ovf"
  else if Qlt_le_dec x (- 4294967040 # 1) then lit "ovf"
  else
    let neg := if Qlt_le_dec x 0 then true else false in
    let x := if neg then (- x)%Q else x in
    let rounding := ((1 # 2) / inject_Z (10 ^ Z.of_nat digits))%Q in
    let x := (x + rounding)%Q in
    let int_part := Qfloor x in
    let remainder := (x - inject_Z int_part)%Q in
    (if neg then lit "-" else []) ++ printNumber int_part ++
    (match digits with O => [] | S _ => lit "." end) ++
    printFraction digits remainder.

(** [Print::print(double)] prints two decimals. *)
Definition printDouble (number : float) : Str := printFloat number 2.

(** [Print::println()]. *)
Definition println : Str := [ascii_of_N 13; ascii_of_N 10].

(** Leading decimal digits of [s], accumulated into [acc]; the unread
    rest is returned with the value and the number of digits read. *)
Fixpoint scanDigits (s : Str) (acc : Z) (n : nat) : Z * nat * Str :=
  match s with
  | c :: s' => if isdigit c then scanDigits s' (10 * acc + digitVal c) (S n)
               else (acc, n, s)
  | [] => (acc, n, [])
  end.

(** [tolower] of the C locale. *)
Definition tolower (c : ascii) : ascii :=
  let n := N_of_ascii c in
  if ((65 <=? n) && (n <=? 90))%N then ascii_of_N (n + 32) else c.

Definition isxdigit (c : ascii) : bool :=
  let n := N_of_ascii (tolower c) in
  isdigit c || ((97 <=? n) && (n <=? 102))%N.

Definition xdigitVal (c : ascii) : Z :=
  if isdigit c then digitVal c else Z.of_N (N_of_ascii (tolower c)) - 87.

(** Leading hexadecimal digits of [s], as [scanDigits] reads decimal
    ones. *)
Fixpoint scanXDigits (s : Str) (acc : Z) (n : nat) : Z * nat * Str :=
  match s with
  | c :: s' => if isxdigit c then scanXDigits s' (16 * acc + xdigitVal c) (S n)
               else (acc, n, s)
  | [] => (acc, n, [])
  end.

(** An optional sign: whether it is a minus, and the text after it. *)
Definition scanSign (s : Str) : bool * Str :=
  match s with
  | c :: s' => if ascii_eqb c "-" then (true, s')
               else if ascii_eqb c "+" then (false, s') else (false, s)
  | [] => (false, [])
  end.

(** Digits, and a point with more digits, in base [base]: the value and
    the unread rest, or [None] when there is no digit at all. *)
Definition scanMantissa (scan : Str -> Z -> nat -> Z * nat * Str) (base : Z) (s : Str)
  : option (Q * Str) :=
  let '(ip, ni, s) := scan s 0 O in
  let '(fp, nf, s) :=
    match s with
    | c :: s' => if ascii_eqb c "." then scan s' 0 O else (0, O, s)
    | [] => (0, O, [])
    end in
  match ni, nf with
  | O, O => None
  | _, _ => Some ((inject_Z ip + inject_Z fp / inject_Z (base ^ Z.of_nat nf))%Q, s)
  end.

(** An exponent part: the letter [mark] in either case, an optional sign
    and at least one decimal digit.  The exponent is 0 when the text does
    not go on like that. *)
Definition scanExponent (mark : ascii) (s : Str) : Z :=
  match s with
  | c :: s' =>
      if ascii_eqb (tolower c) mark then
        let '(neg, s') := scanSign s' in
        let '(e, n, _) := scanDigits s' 0 O in
        match n with O => 0 | S _ => if neg then - e else e end
      else 0
  | [] => 0
  end.

(** The text after the prefix [0x] or [0X] of a hexadecimal number. *)
Definition hexPrefix (s : Str) : option Str :=
  match s with
  | z :: x :: s' => if ascii_eqb z "0" && ascii_eqb (tolower x) "x" then Some s' else None
  | _ => None
  end.

(** [String::toFloat()], which returns [float(atof(buffer))].  [atof] is
    [strtod]: blanks, a sign, and then either a decimal number (digits, a
    point, digits, and an exponent [e]) or a hexadecimal one ([0x], hex
    digits, a point, hex digits, and a binary exponent [p]); the number
    ends at the first character that does not continue it, and a text
    that starts with no number reads as zero.

    The value here is the rational the text denotes, where the source
    gets the nearest [float].  The spellings [inf], [infinity] and [nan],
    which [strtod] reads as an infinity or a NaN, and the numbers beyond
    the largest [float] denote no value of the model: [readsFinite] below
    tells them apart, and what is proved of the value of an arbitrary
    text is proved of the texts that pass it. *)
Definition toFloat (s : Str) : float :=
  let '(neg, s) := scanSign (skip_space s) in
  let hex := match hexPrefix s with
             | Some s' => scanMantissa scanXDigits 16 s'
             | None => None
             end in
  let v := match hex with
           | Some (m, rest) => (m * Qpower (2 # 1) (scanExponent "p" rest))%Q
           | None =>
               match scanMantissa scanDigits 10 s with
               | Some (m, rest) => (m * Qpower (10 # 1) (scanExponent "e" rest))%Q
               | None => 0%Q
               end
           end in
  Q2Qc (if neg then - v else v).

(** Whether [strtod] reads [s] as an infinity or a NaN: after the blanks
    and the sign the text starts with [inf] or [nan], in any case of the
    letters. *)
Definition infOrNan (s : Str) : bool :=
  let '(_, s) := scanSign (skip_space s) in
  match map tolower (take 3 s) with
  | [a; b; c] =>
      (ascii_eqb a "i" && ascii_eqb b "n" && ascii_eqb c "f") ||
      (ascii_eqb a "n" && ascii_eqb b "a" && ascii_eqb c "n")
  | _ => false
  end.

(** [FLT_MAX] of float.h. *)
Definition FLT_MAX : Q := 340282346638528859811704183484516925440 # 1.

(** The texts [toFloat] reads as a finite [float]: no spelling of an
    infinity or a NaN, and a magnitude of at most [FLT_MAX]. *)
Definition readsFinite (s : Str) : bool :=
  negb (infOrNan s) &&
  Qle_bool (- FLT_MAX) (this (toFloat s)) && Qle_bool (this (toFloat s)) FLT_MAX.

(** The lines that successive calls of [Stream::readStringUntil('\n')]
    return while [available()] holds: each call returns the characters up
    to the next line feed, which it consumes, or up to the end of the file. *)
Fixpoint readLines (file : Str) (line : Str) : list Str :=
  match file with
  | [] => match line with [] => [] | _ => [reverse line] end
  | c :: file' =>
      if ascii_eqb c (ascii_of_N 10) then reverse line :: readLines file' []
      else readLines file' (c :: line)
  end.

End Arduino.

(** ** C library: calendar time

    [struct tm] and the four routines the TFT sketch uses on it.  The
    sketch configures a zero offset ([configTime(0, 0, ...)]), so
    [localtime] is [gmtime] and [mktime] reads its argument as UTC.  The
    day arithmetic is the one of newlib's [gmtime_r]. *)

Module Libc.
Import Arduino.

Record tm := mkTm {
  tm_year : Z; tm_mon : Z; tm_mday : Z;
  tm_hour : Z; tm_min : Z; tm_sec : Z
}.

(** [struct tm tmstruct = {0};]. *)
Definition tm_zero : tm := mkTm 0 0 0 0 0 0.

(** Year, month (1..12) and day of the month of day number [days], day 0
    being 1970-01-01. *)
Definition civil_from_days (days : Z) : Z * Z * Z :=
  let days := days + 719468 in
  let era := days / 146097 in
  let eraday := days - era * 146097 in
  let erayear := (eraday - eraday / 1460 + eraday / 36524 - eraday / 146096) / 365 in
  let yearday := eraday - (365 * erayear + erayear / 4 - erayear / 100) in
  let month := (5 * yearday + 2) / 153 in
  let day := yearday - (153 * month + 2) / 5 + 1 in
  let month := if month <? 10 then month + 3 else month - 9 in
  let year := erayear + era * 400 + (if month <=? 2 then 1 else 0) in
  (year, month, day).

(** Day number of a date; [m] is 1..12, [d] may lie outside the month. *)
Definition days_from_civil (y m d : Z) : Z :=
  let y := if m <=? 2 then y - 1 else y in
  let era := y / 400 in
  let yoe := y - era * 400 in
  let doy := (153 * (if 2 <? m then m - 3 else m + 9) + 2) / 5 + d - 1 in
  let doe := yoe * 365 + yoe / 4 - yoe / 100 + doy in
  era * 146097 + doe - 719468.

(** [localtime], at offset zero. *)
Definition localtime (t : time_t) : tm :=
  let days := t / 86400 in
  let rem := t `mod` 86400 in
  let '(y, m, d) := civil_from_days days in
  {| tm_year := y - 1900; tm_mon := m - 1; tm_mday := d;
     tm_hour := rem / 3600; tm_min := rem `mod` 3600 / 60; tm_sec := rem `mod` 60 |}.

(** [mktime], at offset zero: months outside 0..11 carry into the year,
    the other fields add up linearly. *)
Definition mktime (t : tm) : time_t :=
  let y := tm_year t + 1900 + tm_mon t / 12 in
  let m := tm_mon t `mod` 12 + 1 in
  days_from_civil y m (tm_mday t) * 86400
  + tm_hour t * 3600 + tm_min t * 60 + tm_sec t.

(** A two-digit, zero-padded field ([%m], [%d], [%H], [%M], [%S]). *)
Definition pad2 (n : Z) : Str := [digitChar (n / 10); digitChar (n `mod` 10)].

(** [strftime(buf, 21, "%Y-%m-%d %H:%M:%S", &t)].  The result fits the
    21-byte buffer for the years up to 99999. *)
Definition strftime_ymd_hms (t : tm) : Str :=
  printInt (tm_year t + 1900) ++ lit "-" ++ pad2 (tm_mon t + 1) ++ lit "-" ++
  pad2 (tm_mday t) ++ lit " " ++ pad2 (tm_hour t) ++ lit ":" ++
  pad2 (tm_min t) ++ lit ":" ++ pad2 (tm_sec t).

(** The conversion [%d] of [sscanf]: blanks, a sign, at least one digit. *)
Definition scanInt (s : Str) : option (Z * Str) :=
  let s := skip_space s in
  let '(neg, s) :=
    match s with
    | c :: s' => if ascii_eqb c "-" then (true, s')
                 else if ascii_eqb c "+" then (false, s') else (false, s)
    | [] => (false, [])
    end in
  let '(v, n, rest) := scanDigits s 0 O in
  match n with
  | O => None
  | S _ => Some (if neg then - v else v, rest)
  end.

(** An ordinary character of a [sscanf] format. *)
Definition scanChar (ch : ascii) (s : Str) : option Str :=
  match s with
  | c :: s' => if ascii_eqb c ch then Some s' else None
  | [] => None
  end.

(** [sscanf(s, "%d-%d-%d %d:%d:%d", &t.tm_year, &t.tm_mon, &t.tm_mday,
    &t.tm_hour, &t.tm_min, &t.tm_sec)] on [t = {0}]: the fields are
    assigned from left to right until the input stops matching. *)
Definition sscanf_ymd_hms (s : Str) : tm :=
  let t := tm_zero in
  match scanInt s with None => t | Some (v, s) =>
  let t := mkTm v 0 0 0 0 0 in
  match scanChar "-" s with None => t | Some s =>
  match scanInt s with None => t | Some (v, s) =>
  let t := mkTm (tm_year t) v 0 0 0 0 in
  match scanChar "-" s with None => t | Some s =>
  match scanInt s with None => t | Some (v, s) =>
  let t := mkTm (tm_year t) (tm_mon t) v 0 0 0 in
  (* a blank in the format matches any run of blanks; [%d] skips them too *)
  match scanInt s with None => t | Some (v, s) =>
  let t := mkTm (tm_year t) (tm_mon t) (tm_mday t) v 0 0 in
  match scanChar ":" s with None => t | Some s =>
  match scanInt s with None => t | Some (v, s) =>
  let t := mkTm (tm_year t) (tm_mon t) (tm_mday t) (tm_hour t) v 0 in
  match scanChar ":" s with None => t | Some s =>
  match scanInt s with None => t | Some (v, s) =>
  mkTm (tm_year t) (tm_mon t) (tm_mday t) (tm_hour t) (tm_min t) v
  end end end end end end end end end end.

End Libc.

(** * The TFT sketch *)

Module Tft.

Definition DATA_BUFFER_SIZE : Z := 1000.

(** [struct TempData].  [temperatures] lists the entries of the
    ten-element array that the code has written (indices [0 .. n-1]); the
    remaining entries of a stack-allocated [TempData] are indeterminate in
    C++ and are not represented. *)
Record TempData := mkTempData {
  timestamp : time_t;
  temperatures : list float
}.

(** A slot of the zero-initialised global array. *)
Definition zeroData : TempData :=
  {| timestamp := 0; temperatures := replicate 10 (Q2Qc 0) |}.

#[global] Instance TempData_inhabited : Inhabited TempData := populate zeroData.

(** The globals [dataBuffer], [dataBufferIndex], [dataBufferCount]. *)
Record Ring := mkRing {
  dataBuffer : list TempData;
  dataBufferIndex : Z;
  dataBufferCount : Z
}.

(** State of the globals at program start. *)
Definition ring0 : Ring :=
  {| dataBuffer := replicate (Z.to_nat DATA_BUFFER_SIZE) zeroData;
     dataBufferIndex := 0;
     dataBufferCount := 0 |}.

(** [dataBuffer[i]]. *)
Definition slot (buf : list TempData) (i : Z) : TempData := buf !!! Z.to_nat i.

(** The block "Add to circular buffer" of [readSensors] (and of
    [loadData]'s "Add to buffer", which increments the count without the
    test because its loop condition has made it). *)
Definition addToBuffer (newData : TempData) (r : Ring) : Ring :=
  {| dataBuffer := <[Z.to_nat (dataBufferIndex r) := newData]> (dataBuffer r);
     dataBufferIndex := (dataBufferIndex r + 1) %% DATA_BUFFER_SIZE;
     dataBufferCount :=
       if dataBufferCount r <? DATA_BUFFER_SIZE
       then dataBufferCount r + 1 else dataBufferCount r |}.

(** The index expression shared by [saveData], [drawMainScreen],
    [drawChartScreen] and [drawTableScreen]:
    [(dataBufferIndex - i - 1 + DATA_BUFFER_SIZE) % DATA_BUFFER_SIZE]. *)
Definition backIndex (r : Ring) (i : Z) : Z :=
  (dataBufferIndex r - i - 1 + DATA_BUFFER_SIZE) %% DATA_BUFFER_SIZE.

(** The sample read by [drawMainScreen] and [saveData]: the slot at
    [(dataBufferIndex - 1 + DATA_BUFFER_SIZE) % DATA_BUFFER_SIZE]. *)
Definition latest (r : Ring) : TempData := slot (dataBuffer r) (backIndex r 0).

(** The samples in the order in which the loops
    [for (int i = 0; i < dataBufferCount; i++)] of the drawing code visit
    them. *)
Definition visitOrder (r : Ring) : list TempData :=
  map (fun i => slot (dataBuffer r) (backIndex r i)) (seqZ 0 (dataBufferCount r)).

(** [newData] as [readSensors] fills it: the time of the call and one
    reading per sensor, at most ten. *)
Definition newData (sensorCount : Z) (now : time_t) (getTempCByIndex : Z -> float)
  : TempData :=
  {| timestamp := now;
     temperatures := map getTempCByIndex (seqZ 0 (Z.min sensorCount 10)) |}.

(** *** Persistence: [saveData] and [loadData] *)

(** The SPIFFS volume: whether it is mounted, and the contents of
    [/temp_data.txt] when the file exists. *)
Record Spiffs := mkSpiffs {
  mounted : bool;
  temp_data_txt : option Str
}.

(** The globals the acquisition path works on. *)
Record Sketch := mkSketch {
  sensorCount : Z;
  ring : Ring;
  spiffs : Spiffs
}.

(** [dataBuffer[..].temperatures[i]]; an index past the written entries
    reads an indeterminate float, rendered here as zero. *)
Definition temperatureAt (d : TempData) (i : Z) : float :=
  default (Q2Qc 0) (temperatures d !! Z.to_nat i).

(** The text [saveData] prints for one entry: the timestamp, a comma,
    the readings separated by commas, and the line end. *)
Definition saveLine (sensorCount : Z) (d : TempData) : Str :=
  Libc.strftime_ymd_hms (Libc.localtime (timestamp d)) ++ Arduino.lit "," ++
  concat (map (fun i => Arduino.printDouble (temperatureAt d i) ++
                        (if i <? sensorCount - 1 then Arduino.lit "," else []))
              (seqZ 0 sensorCount)) ++
  Arduino.println.

(** [saveData]: appends the latest entry to [/temp_data.txt]; returns at
    once when the file cannot be opened. *)
Definition saveData (st : Sketch) : Sketch :=
  if mounted (spiffs st) then
    let old := default [] (temp_data_txt (spiffs st)) in
    {| sensorCount := sensorCount st;
       ring := ring st;
       spiffs := {| mounted := true;
                    temp_data_txt :=
                      Some (old ++ saveLine (sensorCount st) (latest (ring st))) |} |}
  else st.

(** [readSensors], given the time and the readings the sensor library
    returns. *)
Definition readSensors (now : time_t) (getTempCByIndex : Z -> float) (st : Sketch)
  : Sketch :=
  saveData {| sensorCount := sensorCount st;
              ring := addToBuffer (newData (sensorCount st) now getTempCByIndex) (ring st);
              spiffs := spiffs st |}.

(** The inner loop of [loadData]:
    [while (start < line.length() && tempIndex < 10)]; [fuel] is
    [10 - tempIndex]. *)
Fixpoint parseTemps (fuel : nat) (start : Z) (line : Str) : list float :=
  match fuel with
  | O => []
  | S fuel' =>
      if start <? Arduino.len line then
        let e := Arduino.indexOfFrom "," start line in
        let e := if e =? -1 then Arduino.len line else e in
        let tempStr := Arduino.substring start e line in
        Arduino.toFloat tempStr :: parseTemps fuel' (e + 1) line
      else []
  end.

(** The body of [loadData]'s loop for one trimmed, non-empty line. *)
Definition parseLine (line : Str) : TempData :=
  let commaIndex := Arduino.indexOf "," line in
  let timeStr := Arduino.substring 0 commaIndex line in
  let t := Libc.sscanf_ymd_hms timeStr in
  let t := Libc.mkTm (Libc.tm_year t - 1900) (Libc.tm_mon t - 1) (Libc.tm_mday t)
                     (Libc.tm_hour t) (Libc.tm_min t) (Libc.tm_sec t) in
  {| timestamp := Libc.mktime t;
     temperatures := parseTemps 10 (commaIndex + 1) line |}.

(** "Add to buffer" at the end of [loadData]'s loop body. *)
Definition loadAdd (data : TempData) (r : Ring) : Ring :=
  {| dataBuffer := <[Z.to_nat (dataBufferIndex r) := data]> (dataBuffer r);
     dataBufferIndex := (dataBufferIndex r + 1) %% DATA_BUFFER_SIZE;
     dataBufferCount := dataBufferCount r + 1 |}.

(** [loadData]'s loop
    [while (file.available() && dataBufferCount < DATA_BUFFER_SIZE)], over
    the lines that remain to be read. *)
Fixpoint loadLoop (lines : list Str) (r : Ring) : Ring :=
  match lines with
  | [] => r
  | line :: lines' =>
      if dataBufferCount r <? DATA_BUFFER_SIZE then
        let line := Arduino.trim line in
        if Arduino.len line =? 0 then loadLoop lines' r
        else loadLoop lines' (loadAdd (parseLine line) r)
      else r
  end.

(** [loadData]. *)
Definition loadData (st : Sketch) : Sketch :=
  match (if mounted (spiffs st) then temp_data_txt (spiffs st) else None) with
  | None => st
  | Some file =>
      {| sensorCount := sensorCount st;
         ring := loadLoop (Arduino.readLines file [])
                   {| dataBuffer := dataBuffer (ring st);
                      dataBufferIndex := 0;
                      dataBufferCount := 0 |};
         spiffs := spiffs st |}
  end.

(** *** Chart *)

(** The test [timestamp >= startTime && timestamp <= now] of
    [drawChartScreen]. *)
Definition inRange (startTime now : time_t) (d : TempData) : bool :=
  (startTime <=? timestamp d) && (timestamp d <=? now).

(** The entries that pass the test, in the order in which both loops of
    [drawChartScreen] reach them. *)
Definition chartWindow (r : Ring) (startTime now : time_t) : list TempData :=
  List.filter (inRange startTime now) (visitOrder r).

(** One reading in the min/max loop. *)
Definition scanReading (mm : float * float) (t : float) : float * float :=
  if bool_decide (t <> DEVICE_DISCONNECTED_C) then
    (if bool_decide (t < fst mm)%Qc then t else fst mm,
     if bool_decide (snd mm < t)%Qc then t else snd mm)
  else mm.

(** The readings [temperatures[0 .. sensorCount-1]] of an entry. *)
Definition readings (sensorCount : Z) (d : TempData) : list float :=
  map (temperatureAt d) (seqZ 0 sensorCount).

(** "Find min/max temperatures in the time range for scaling". *)
Definition chartMinMax (sensorCount : Z) (r : Ring) (startTime now : time_t)
  : float * float :=
  foldl (fun mm d => foldl scanReading mm (readings sensorCount d))
        (Q2Qc (1000 # 1), Q2Qc (-1000 # 1))
        (chartWindow r startTime now).

(** "Add some padding to temperature range", with its default range.
    The two ends are the exact values; the source gets the nearest
    [float]s, so a width that is 0.02 here can come out as 0.0199999996
    there.  What is proved of the axis is the order of its ends and what
    lies between them, which rounding keeps. *)
Definition chartAxis (mm : float * float) : float * float :=
  let '(minTemp, maxTemp) := mm in
  if bool_decide (minTemp <> Q2Qc (1000 # 1)) && bool_decide (maxTemp <> Q2Qc (-1000 # 1))
  then
    let tempRange := (maxTemp - minTemp)%Qc in
    let tempRange := if bool_decide (tempRange < Q2Qc (1 # 10))%Qc
                     then Q2Qc (1 # 10) else tempRange in
    ((minTemp - tempRange * Q2Qc (1 # 10))%Qc, (maxTemp + tempRange * Q2Qc (1 # 10))%Qc)
  else (Q2Qc 0, Q2Qc (50 # 1)).

(** *** Table *)

(** The globals [tableScrollOffset] and [maxTableScroll]. *)
Record TableUi := mkTableUi {
  tableScrollOffset : Z;
  maxTableScroll : Z
}.

(** What [drawTableScreen] puts on the screen: the entries of the rows,
    top to bottom, and the two scroll indicators. *)
Record TableView := mkTableView {
  rows : list TempData;
  scrollUp : bool;
  scrollDown : bool
}.

(** [drawTableScreen]: it recomputes [maxTableScroll] and draws ten rows. *)
Definition drawTableScreen (r : Ring) (ui : TableUi) : TableUi * TableView :=
  let maxScroll := Z.max 0 (dataBufferCount r - 10) in
  let row_entry (row : Z) : list TempData :=
    let dataIndex := tableScrollOffset ui + row in
    if dataIndex <? dataBufferCount r
    then [slot (dataBuffer r) (backIndex r dataIndex)] else [] in
  ({| tableScrollOffset := tableScrollOffset ui; maxTableScroll := maxScroll |},
   {| rows := concat (map row_entry (seqZ 0 10));
      scrollUp := 0 <? tableScrollOffset ui;
      scrollDown := tableScrollOffset ui <? maxScroll |}).

(** [handleTableScroll]. *)
Definition handleTableScroll (direction : Z) (ui : TableUi) : TableUi :=
  let o := tableScrollOffset ui + direction in
  let o := if o <? 0 then 0 else o in
  let o := if maxTableScroll ui <? o then maxTableScroll ui else o in
  {| tableScrollOffset := o; maxTableScroll := maxTableScroll ui |}.

(** A cell of the table: [String(t, 1)] for a reading, three dashes for
    the disconnected mark.  [fmt1] stands for the library's
    [String(float, 1)]. *)
Definition tableCell (fmt1 : float -> Str) (t : float) : Str :=
  if bool_decide (t <> DEVICE_DISCONNECTED_C) then fmt1 t else Arduino.lit "---".

(** *** The sensor task *)

(** Where the task [sensorTask] stands. *)
Inductive TaskState :=
| Ready                (* about to execute the loop body *)
| Delayed (wake : Z)   (* inside [delay], until [millis()] reaches [wake] *)
| Asleep.              (* [esp_deep_sleep_start()] has been called *)

(** The globals the task reads, and [acquired]: the values of [millis()]
    at which [readSensors] has run, latest first. *)
Record Scheduler := mkScheduler {
  task : TaskState;
  sampleInterval : Z;
  deepSleepEnabled : bool;
  lastTouchTime : Z;
  acquired : list Z
}.

(** The loop body up to and including the call
    [delay(sampleInterval * 1000)]: C evaluates the argument when it
    makes the call, which fixes the end of the wait. *)
Definition beginCycle (now : Z) (s : Scheduler) : Scheduler :=
  {| task := Delayed (now + sampleInterval s * 1000);
     sampleInterval := sampleInterval s;
     deepSleepEnabled := deepSleepEnabled s;
     lastTouchTime := lastTouchTime s;
     acquired := now :: acquired s |}.

(** The rest of the loop body, once [delay] has returned, and the next
    turn of [while (true)]. *)
Definition afterDelay (now : Z) (s : Scheduler) : Scheduler :=
  if deepSleepEnabled s && (60000 <? now - lastTouchTime s) then
    {| task := Asleep;
       sampleInterval := sampleInterval s;
       deepSleepEnabled := deepSleepEnabled s;
       lastTouchTime := lastTouchTime s;
       acquired := acquired s |}
  else beginCycle now s.

(** What [sensorTask] does when the clock shows [now]. *)
Definition sensorTask (now : Z) (s : Scheduler) : Scheduler :=
  match task s with
  | Ready => beginCycle now s
  | Delayed wake => if wake <=? now then afterDelay now s else s
  | Asleep => s
  end.

(** A touch at [now] on the "-" or "+" of the sample interval:
    [handleTouch] records the time and calls [changeSetting(2, value)]. *)
Definition changeInterval (now value : Z) (s : Scheduler) : Scheduler :=
  let i := sampleInterval s + value in
  let i := if i <? 10 then 10 else i in
  let i := if 600 <? i then 600 else i in
  {| task := task s;
     sampleInterval := i;
     deepSleepEnabled := deepSleepEnabled s;
     lastTouchTime := now;
     acquired := acquired s |}.

(** *** Settings in [Preferences] *)

(** A value stored under a key of the [Preferences] namespace. *)
Inductive PrefValue :=
| PBool (b : bool)
| PInt (z : Z)
| PString (s : Str).

(** The configuration globals. *)
Record Settings := mkSettings {
  wifiEnabled : bool;
  bluetoothEnabled : bool;
  ssid : Str;
  password : Str;
  nSensors : Z;                (* [sensorCount] *)
  sensorNames : list Str;      (* [String sensorNames[10]] *)
  interval : Z;                (* [sampleInterval] *)
  deepSleep : bool;            (* [deepSleepEnabled] *)
  touchCalMinX : Z; touchCalMinY : Z; touchCalMaxX : Z; touchCalMaxY : Z
}.

Definition getBool (k : string) (d : bool) (p : gmap string PrefValue) : bool :=
  match p !! k with Some (PBool b) => b | _ => d end.
Definition getInt (k : string) (d : Z) (p : gmap string PrefValue) : Z :=
  match p !! k with Some (PInt z) => z | _ => d end.
Definition getString (k : string) (d : Str) (p : gmap string PrefValue) : Str :=
  match p !! k with Some (PString s) => s | _ => d end.

(** ["sensor_" + String(i)]. *)
Definition sensorKey (i : Z) : string :=
  string_of_list_ascii (Arduino.lit "sensor_" ++ Arduino.printInt i).

(** [saveSettings]. *)
Definition saveSettings (s : Settings) (p : gmap string PrefValue)
  : gmap string PrefValue :=
  let p := <["wifi_enabled"%string := PBool (wifiEnabled s)]> p in
  let p := <["ssid"%string := PString (ssid s)]> p in
  let p := <["password"%string := PString (password s)]> p in
  let p := <["sensor_count"%string := PInt (nSensors s)]> p in
  let p := foldl (fun p i =>
                    <[sensorKey i := PString (default [] (sensorNames s !! Z.to_nat i))]> p)
                 p (seqZ 0 (nSensors s)) in
  let p := <["sample_interval"%string := PInt (interval s)]> p in
  let p := <["deep_sleep"%string := PBool (deepSleep s)]> p in
  let p := <["touch_cal_min_x"%string := PInt (touchCalMinX s)]> p in
  let p := <["touch_cal_min_y"%string := PInt (touchCalMinY s)]> p in
  let p := <["touch_cal_max_x"%string := PInt (touchCalMaxX s)]> p in
  <["touch_cal_max_y"%string := PInt (touchCalMaxY s)]> p.

(** [loadSettings]; the globals it does not assign keep the value [cur]
    has. *)
Definition loadSettings (p : gmap string PrefValue) (cur : Settings) : Settings :=
  let n := getInt "sensor_count" 0 p in
  {| wifiEnabled := getBool "wifi_enabled" true p;
     bluetoothEnabled := bluetoothEnabled cur;
     ssid := getString "ssid" [] p;
     password := getString "password" [] p;
     nSensors := n;
     sensorNames :=
       foldl (fun names i =>
                <[Z.to_nat i := getString (sensorKey i)
                                  (Arduino.lit "Sensor " ++ Arduino.printInt (i + 1)) p]> names)
             (sensorNames cur) (seqZ 0 n);
     interval := getInt "sample_interval" 60 p;
     deepSleep := getBool "deep_sleep" true p;
     touchCalMinX := getInt "touch_cal_min_x" 380 p;
     touchCalMinY := getInt "touch_cal_min_y" 240 p;
     touchCalMaxX := getInt "touch_cal_max_x" 3800 p;
     touchCalMaxY := getInt "touch_cal_max_y" 3800 p |}.

(** The initialisers of the configuration globals. *)
Definition settings0 : Settings :=
  {| wifiEnabled := true; bluetoothEnabled := true; ssid := []; password := [];
     nSensors := 0; sensorNames := replicate 10 []; interval := 60; deepSleep := true;
     touchCalMinX := 380; touchCalMinY := 240; touchCalMaxX := 3800; touchCalMaxY := 3800 |}.

End Tft.

(** * The LVGL sketch *)

Module Lvgl.

Definition MAX_SENSORS : Z := 10.
Definition MAX_DATA_POINTS : Z := 1000.
Definition DEFAULT_SAMPLE_INTERVAL : Z := 60.

(** [struct SensorData]. *)
Record SensorData := mkSensorData {
  temperature : float;
  timestamp : time_t
}.

Definition zeroSensorData : SensorData := {| temperature := Q2Qc 0; timestamp := 0 |}.

#[global] Instance SensorData_inhabited : Inhabited SensorData := populate zeroSensorData.

(** [struct TempData], without the bus addresses and the names. *)
Record TempData := mkTempData {
  sensorCount : Z;
  data : list (list SensorData);     (* [data[MAX_SENSORS][MAX_DATA_POINTS]] *)
  dataCount : list Z;
  currentDataIndex : list Z;
  dataOverflow : list bool
}.

(** The zero-initialised global [tempData], with the sensor count that
    [initializeSensors] stores. *)
Definition tempData0 (n : Z) : TempData :=
  {| sensorCount := n;
     data := replicate (Z.to_nat MAX_SENSORS)
               (replicate (Z.to_nat MAX_DATA_POINTS) zeroSensorData);
     dataCount := replicate (Z.to_nat MAX_SENSORS) 0;
     currentDataIndex := replicate (Z.to_nat MAX_SENSORS) 0;
     dataOverflow := replicate (Z.to_nat MAX_SENSORS) false |}.

(** The block guarded by [if (temp != DEVICE_DISCONNECTED_C)] in
    [sensorTask], for sensor [i]. *)
Definition storeReading (i : Z) (temp : float) (now : time_t) (td : TempData)
  : TempData :=
  let n := Z.to_nat i in
  let index := currentDataIndex td !!! n in
  let row := <[Z.to_nat index := {| temperature := temp; timestamp := now |}]> (data td !!! n) in
  let next := index + 1 in
  let wrapped := MAX_DATA_POINTS <=? next in
  {| sensorCount := sensorCount td;
     data := <[n := row]> (data td);
     dataCount :=
       if dataCount td !!! n <? MAX_DATA_POINTS
       then <[n := dataCount td !!! n + 1]> (dataCount td) else dataCount td;
     currentDataIndex := <[n := if wrapped then 0 else next]> (currentDataIndex td);
     dataOverflow :=
       if wrapped then <[n := true]> (dataOverflow td) else dataOverflow td |}.

(** One turn of the [for] loop of [sensorTask]. *)
Definition readSensor (getTempC : Z -> float) (now : Z -> time_t) (td : TempData) (i : Z)
  : TempData :=
  let temp := getTempC i in
  if bool_decide (temp <> DEVICE_DISCONNECTED_C) then storeReading i temp (now i) td
  else td.

(** The acquisition part of one turn of [sensorTask]'s [while (1)]:
    [getTempC i] is the reading of sensor [i], [now i] the clock when it
    is stored. *)
Definition acquire (getTempC : Z -> float) (now : Z -> time_t) (td : TempData) : TempData :=
  foldl (readSensor getTempC now) td (seqZ 0 (sensorCount td)).

(** The callback of the "Clear Data" button. *)
Definition clearData (td : TempData) : TempData :=
  foldl (fun td i =>
           let n := Z.to_nat i in
           {| sensorCount := sensorCount td;
              data := data td;
              dataCount := <[n := 0]> (dataCount td);
              currentDataIndex := <[n := 0]> (currentDataIndex td);
              dataOverflow := <[n := false]> (dataOverflow td) |})
        td (seqZ 0 MAX_SENSORS).

(** The slot [update_chart] reads for its last point ([j = dataCount - 1]):
    [(currentDataIndex - 1 + MAX_DATA_POINTS) % MAX_DATA_POINTS]. *)
Definition latest (td : TempData) (i : Z) : SensorData :=
  (data td !!! Z.to_nat i) !!!
    Z.to_nat ((currentDataIndex td !!! Z.to_nat i - 1 + MAX_DATA_POINTS) %% MAX_DATA_POINTS).

(** *** The sensor task *)

Inductive TaskState :=
| Ready
| Delayed (wake : Z).

(** [settings.sampleInterval], and the values of [millis()] at which the
    sensors were read, latest first. *)
Record Scheduler := mkScheduler {
  task : TaskState;
  sampleInterval : Z;
  acquired : list Z
}.

(** What [sensorTask] does when the clock shows [now]: a turn of the loop
    ends in [delay(settings.sampleInterval * 1000)], whose argument is
    evaluated at the call. *)
Definition sensorTask (now : Z) (s : Scheduler) : Scheduler :=
  let begin :=
    {| task := Delayed (now + sampleInterval s * 1000);
       sampleInterval := sampleInterval s;
       acquired := now :: acquired s |} in
  match task s with
  | Ready => begin
  | Delayed wake => if wake <=? now then begin else s
  end.

(** The callback of the interval slider. *)
Definition setInterval (value : Z) (s : Scheduler) : Scheduler :=
  {| task := task s; sampleInterval := value; acquired := acquired s |}.

(** *** Settings in [/settings.json] *)

Record Settings := mkSettings {
  sInterval : Z;                   (* [sampleInterval] *)
  deepSleepEnabled : bool;
  touchCalibration : list Z;       (* [int touchCalibration[5]] *)
  batteryCalibration : list float; (* [float batteryCalibration[2]] *)
  wifiSSID : Str;
  wifiPassword : Str;
  hotspotSSID : Str;
  hotspotPassword : Str;
  hotspotEnabled : bool;
  sensorNames : list Str;          (* [String sensorNames[MAX_SENSORS]] *)
  sSensorCount : Z                 (* [sensorCount] *)
}.

(** The SPIFFS volume: whether [SPIFFS.begin(true)] succeeds, and the
    contents of [/settings.json] when the file exists. *)
Record Spiffs := mkSpiffs {
  mountable : bool;
  settings_json : option Str
}.

Definition printBool (b : bool) : Str :=
  if b then Arduino.lit "true" else Arduino.lit "false".

(** The double-quote character, and a text between two of them. *)
Definition dquote : Str := [ascii_of_N 34].
Definition quoted (s : Str) : Str := dquote ++ s ++ dquote.

(** A member name as the format strings spell it: quoted, then a colon
    and a blank. *)
Definition member (name : string) : Str := quoted (Arduino.lit name) ++ Arduino.lit ": ".

(** The elements of an array, separated by [", "]. *)
Fixpoint commaSep (l : list Str) : Str :=
  match l with
  | [] => []
  | [x] => x
  | x :: l' => x ++ Arduino.lit ", " ++ commaSep l'
  end.

(** The text [save_settings] writes. *)
Definition settingsJson (s : Settings) : Str :=
  Arduino.lit "{" ++
  member "sampleInterval" ++ Arduino.printInt (sInterval s) ++ Arduino.lit ", " ++
  member "deepSleepEnabled" ++ printBool (deepSleepEnabled s) ++ Arduino.lit ", " ++
  member "wifiSSID" ++ quoted (wifiSSID s) ++ Arduino.lit ", " ++
  member "wifiPassword" ++ quoted (wifiPassword s) ++ Arduino.lit ", " ++
  member "hotspotSSID" ++ quoted (hotspotSSID s) ++ Arduino.lit ", " ++
  member "hotspotPassword" ++ quoted (hotspotPassword s) ++ Arduino.lit ", " ++
  member "hotspotEnabled" ++ printBool (hotspotEnabled s) ++ Arduino.lit ", " ++
  member "sensorCount" ++ Arduino.printInt (sSensorCount s) ++ Arduino.lit ", " ++
  member "sensorNames" ++ Arduino.lit "[" ++
  commaSep (map quoted (take (Z.to_nat MAX_SENSORS) (sensorNames s))) ++
  Arduino.lit "], " ++
  member "touchCalibration" ++ Arduino.lit "[" ++
  commaSep (map Arduino.printInt (take 5 (touchCalibration s))) ++
  Arduino.lit "], " ++
  member "batteryCalibration" ++ Arduino.lit "[" ++
  commaSep (map (fun x => Arduino.printFloat x 2) (take 2 (batteryCalibration s))) ++
  Arduino.lit "]" ++
  Arduino.lit "}".

(** [save_settings]: the file is opened with mode ["w"] and rewritten. *)
Definition save_settings (s : Settings) (fs : Spiffs) : Spiffs :=
  if mountable fs then {| mountable := true; settings_json := Some (settingsJson s) |}
  else fs.

(** The values [load_settings] assigns when the file opens. *)
Definition defaultSettings : Settings :=
  {| sInterval := DEFAULT_SAMPLE_INTERVAL;
     deepSleepEnabled := true;
     touchCalibration := replicate 5 0;
     batteryCalibration := [Q2Qc (3 # 1); Q2Qc (42 # 10)];
     wifiSSID := [];
     wifiPassword := [];
     hotspotSSID := Arduino.lit "ESP32_TempLogger";
     hotspotPassword := Arduino.lit "12345678";
     hotspotEnabled := false;
     sensorNames := replicate (Z.to_nat MAX_SENSORS) [];
     sSensorCount := 1 |}.

(** [load_settings]: [cur] is the global [settings] before the call. *)
Definition load_settings (fs : Spiffs) (cur : Settings) : Settings :=
  if mountable fs then
    match settings_json fs with
    | Some _ => defaultSettings
    | None => cur
    end
  else cur.

End Lvgl.

(** * Theorems *)

Section RingFacts.
Import Tft.

(** [tracks r l]: the ring [r] holds what remains of the samples [l]
    (oldest first) that were appended since the ring was empty. *)
Definition tracks (r : Ring) (l : list TempData) : Prop :=
  length (dataBuffer r) = Z.to_nat DATA_BUFFER_SIZE /\
  dataBufferCount r = Z.min (Z.of_nat (length l)) DATA_BUFFER_SIZE /\
  dataBufferIndex r = Z.of_nat (length l) `mod` DATA_BUFFER_SIZE /\
  forall k : nat, (Z.of_nat k < dataBufferCount r) ->
    reverse l !! k = Some (slot (dataBuffer r) (backIndex r (Z.of_nat k))).

Lemma tracks_ring0 : tracks ring0 [].
Proof.
  split; [apply length_replicate|].
  repeat split. intros k Hk. simpl in Hk. lia.
Qed.

Lemma backIndex_mod (r : Ring) (n i : Z) :
  dataBufferIndex r = n `mod` DATA_BUFFER_SIZE ->
  0 <= i < DATA_BUFFER_SIZE ->
  backIndex r i = (n - i - 1) `mod` DATA_BUFFER_SIZE.
Proof.
  intros Hidx Hi. unfold backIndex, c_rem. rewrite Hidx.
  unfold DATA_BUFFER_SIZE in *.
  pose proof (Z.mod_pos_bound n 1000 ltac:(lia)).
  rewrite Z.rem_mod_nonneg by lia.
  replace (n `mod` 1000 - i - 1 + 1000) with ((n `mod` 1000 - (i + 1)) + 1 * 1000) by lia.
  rewrite Z_mod_plus_full, Zminus_mod_idemp_l. f_equal. lia.
Qed.

Lemma tracks_addToBuffer (r : Ring) (l : list TempData) (x : TempData) :
  tracks r l -> tracks (addToBuffer x r) (l ++ [x]).
Proof.
  intros (Hlen & Hcnt & Hidx & Hslots).
  assert (Hn : length (l ++ [x]) = S (length l)) by (rewrite length_app; simpl; lia).
  pose proof (Z.mod_pos_bound (Z.of_nat (length l)) DATA_BUFFER_SIZE ltac:(reflexivity)) as Hb.
  assert (Hidx' : dataBufferIndex (addToBuffer x r)
                  = Z.of_nat (length (l ++ [x])) `mod` DATA_BUFFER_SIZE).
  { simpl. unfold c_rem. rewrite Hidx, Hn, Z.rem_mod_nonneg by (unfold DATA_BUFFER_SIZE in *; lia).
    rewrite Nat2Z.inj_succ, <- Z.add_1_r, Zplus_mod_idemp_l. reflexivity. }
  assert (Hcnt' : dataBufferCount (addToBuffer x r)
                  = Z.min (Z.of_nat (length (l ++ [x]))) DATA_BUFFER_SIZE).
  { simpl. rewrite Hcnt, Hn. unfold DATA_BUFFER_SIZE.
    destruct (Z.ltb_spec (Z.min (Z.of_nat (length l)) 1000) 1000); lia. }
  split; [simpl; now rewrite length_insert|].
  split; [exact Hcnt'|]. split; [exact Hidx'|].
  intros k Hk. rewrite Hcnt' in Hk.
  rewrite (backIndex_mod _ (Z.of_nat (length (l ++ [x]))) _ Hidx')
    by (unfold DATA_BUFFER_SIZE in *; lia).
  rewrite reverse_snoc. unfold slot. simpl dataBuffer.
  rewrite Hidx, Hn, Nat2Z.inj_succ.
  destruct k as [|k].
  - simpl. f_equal.
    match goal with |- context [?a `mod` _] =>
      replace a with (Z.of_nat (length l)) by lia end.
    rewrite list_lookup_total_insert_eq; [reflexivity|].
    rewrite Hlen. unfold DATA_BUFFER_SIZE in *. lia.
  - simpl. rewrite Hn in Hk.
    rewrite list_lookup_total_insert_ne.
    + rewrite (Hslots k) by (rewrite Hcnt; unfold DATA_BUFFER_SIZE in *; lia).
      f_equal. unfold slot. f_equal. f_equal.
      rewrite (backIndex_mod _ (Z.of_nat (length l)) _ Hidx)
        by (unfold DATA_BUFFER_SIZE in *; lia).
      f_equal. lia.
    + intros Heq. apply Z2Nat.inj in Heq; try (apply Z.mod_pos_bound; reflexivity).
      unfold DATA_BUFFER_SIZE in *.
      set (n := Z.of_nat (length l)) in *.
      assert (Hd : (n - (Z.succ n - Z.of_nat (S k) - 1)) `mod` 1000 = 0).
      { rewrite Zminus_mod, Heq, Z.sub_diag. reflexivity. }
      replace (n - (Z.succ n - Z.of_nat (S k) - 1)) with (Z.of_nat (S k)) in Hd by lia.
      rewrite Z.mod_small in Hd by lia. lia.
Qed.

End RingFacts.

Section TftRing.
Import Tft.

(** The state after a series of calls of [readSensors]; an input is the
    clock and the readings of one call. *)
Definition runSensors (inputs : list (time_t * (Z -> float))) (st : Sketch) : Sketch :=
  foldl (fun st inp => readSensors (fst inp) (snd inp) st) st inputs.

(** The entries these calls append. *)
Definition samplesOf (sensorCount : Z) (inputs : list (time_t * (Z -> float)))
  : list TempData :=
  map (fun inp => newData sensorCount (fst inp) (snd inp)) inputs.

Lemma readSensors_ring now g st :
  ring (readSensors now g st) = addToBuffer (newData (sensorCount st) now g) (ring st).
Proof. unfold readSensors, saveData. simpl. now destruct (mounted (spiffs st)). Qed.

Lemma readSensors_sensorCount now g st :
  sensorCount (readSensors now g st) = sensorCount st.
Proof. unfold readSensors, saveData. simpl. now destruct (mounted (spiffs st)). Qed.

Lemma runSensors_sensorCount inputs st :
  sensorCount (runSensors inputs st) = sensorCount st.
Proof.
  revert st. induction inputs as [|inp inputs IH]; intros st; [reflexivity|].
  change (runSensors (inp :: inputs) st)
    with (runSensors inputs (readSensors inp.1 inp.2 st)).
  rewrite IH. apply readSensors_sensorCount.
Qed.

Lemma runSensors_tracks inputs st l :
  tracks (ring st) l ->
  tracks (ring (runSensors inputs st)) (l ++ samplesOf (sensorCount st) inputs).
Proof.
  revert st l. induction inputs as [|inp inputs IH]; intros st l Hl.
  - simpl. now rewrite app_nil_r.
  - change (runSensors (inp :: inputs) st)
      with (runSensors inputs (readSensors inp.1 inp.2 st)).
    simpl samplesOf.
    replace (l ++ newData (sensorCount st) inp.1 inp.2 :: samplesOf (sensorCount st) inputs)
      with ((l ++ [newData (sensorCount st) inp.1 inp.2]) ++
            samplesOf (sensorCount (readSensors inp.1 inp.2 st)) inputs)
      by (rewrite readSensors_sensorCount, <- app_assoc; reflexivity).
    apply IH. rewrite readSensors_ring. now apply tracks_addToBuffer.
Qed.

Lemma tracks_visitOrder r l :
  tracks r l -> visitOrder r = take (Z.to_nat (dataBufferCount r)) (reverse l).
Proof.
  intros (Hlen & Hcnt & Hidx & Hslots).
  apply list_eq. intros k. unfold visitOrder.
  rewrite list_lookup_fmap.
  destruct (decide (Z.of_nat k < dataBufferCount r)) as [Hk|Hk].
  - rewrite lookup_seqZ_lt by lia. simpl.
    rewrite lookup_take_lt by lia. now rewrite Hslots by lia.
  - rewrite lookup_seqZ_ge by lia. simpl.
    rewrite lookup_take_ge; [reflexivity|lia].
Qed.

Lemma tracks_latest r l x :
  tracks r (l ++ [x]) -> latest r = x.
Proof.
  intros (Hlen & Hcnt & Hidx & Hslots).
  specialize (Hslots O). rewrite reverse_snoc in Hslots. simpl in Hslots.
  rewrite length_app in Hcnt. simpl in Hcnt. unfold DATA_BUFFER_SIZE in Hcnt.
  specialize (Hslots ltac:(lia)). now injection Hslots.
Qed.

End TftRing.

Section LvglRing.
Import Lvgl.

Ltac lv_proj := cbn [data dataCount currentDataIndex dataOverflow sensorCount].

(** The arrays of [tempData] have their declared sizes. *)
Definition shaped (td : TempData) : Prop :=
  length (data td) = Z.to_nat MAX_SENSORS /\
  length (dataCount td) = Z.to_nat MAX_SENSORS /\
  length (currentDataIndex td) = Z.to_nat MAX_SENSORS /\
  length (dataOverflow td) = Z.to_nat MAX_SENSORS /\
  forall i : nat, (i < Z.to_nat MAX_SENSORS)%nat ->
    length (data td !!! i) = Z.to_nat MAX_DATA_POINTS.

(** [tracksCh td i l]: the ring of sensor [i] holds what remains of the
    readings [l] (oldest first) stored since it was empty. *)
Definition tracksCh (td : TempData) (i : nat) (l : list SensorData) : Prop :=
  dataCount td !!! i = Z.min (Z.of_nat (length l)) MAX_DATA_POINTS /\
  currentDataIndex td !!! i = Z.of_nat (length l) `mod` MAX_DATA_POINTS /\
  dataOverflow td !!! i = bool_decide (MAX_DATA_POINTS <= Z.of_nat (length l)) /\
  forall k : nat, Z.of_nat k < dataCount td !!! i ->
    reverse l !! k =
    Some ((data td !!! i) !!!
            Z.to_nat ((Z.of_nat (length l) - 1 - Z.of_nat k) `mod` MAX_DATA_POINTS)).

Lemma shaped_tempData0 n : shaped (tempData0 n).
Proof.
  unfold shaped, tempData0; lv_proj.
  rewrite !length_replicate. repeat split.
  intros i Hi. rewrite lookup_total_replicate_2 by exact Hi.
  apply length_replicate.
Qed.

Lemma tracksCh_tempData0 n i :
  (i < Z.to_nat MAX_SENSORS)%nat -> tracksCh (tempData0 n) i [].
Proof.
  intros Hi. unfold tracksCh, tempData0; lv_proj.
  rewrite !lookup_total_replicate_2 by exact Hi.
  repeat split. intros k Hk. simpl in Hk. lia.
Qed.

Lemma shaped_storeReading i t now td :
  shaped td -> shaped (storeReading i t now td).
Proof.
  intros (H1 & H2 & H3 & H4 & H5). unfold shaped, storeReading.
  lv_proj.
  repeat split.
  - now rewrite length_insert.
  - destruct (_ <? _); [now rewrite length_insert|assumption].
  - now rewrite length_insert.
  - destruct (_ <=? _); [now rewrite length_insert|assumption].
  - intros j Hj. rewrite list_lookup_total_insert.
    case_decide as Hd; [|now apply H5].
    rewrite length_insert. apply H5. destruct Hd as [-> _]. exact Hj.
Qed.

Lemma tracksCh_storeReading_other i t now td j l :
  j <> Z.to_nat i -> tracksCh td j l -> tracksCh (storeReading i t now td) j l.
Proof.
  intros Hne (H1 & H2 & H3 & H4).
  assert (Hc : dataCount (storeReading i t now td) !!! j = dataCount td !!! j).
  { unfold storeReading; lv_proj.
    destruct (_ <? _); [now rewrite list_lookup_total_insert_ne|reflexivity]. }
  unfold tracksCh. rewrite Hc.
  unfold storeReading; lv_proj.
  rewrite !list_lookup_total_insert_ne by congruence.
  repeat split; try assumption.
  destruct (_ <=? _); [now rewrite list_lookup_total_insert_ne|assumption].
Qed.

Lemma tracksCh_storeReading_same i t now td l :
  shaped td -> 0 <= i < MAX_SENSORS ->
  tracksCh td (Z.to_nat i) l ->
  tracksCh (storeReading i t now td) (Z.to_nat i)
           (l ++ [{| temperature := t; timestamp := now |}]).
Proof.
  intros (S1 & S2 & S3 & S4 & S5) Hi (H1 & H2 & H3 & H4).
  set (n := Z.of_nat (length l)) in *.
  assert (Hn : Z.of_nat (length (l ++ [{| temperature := t; timestamp := now |}])) = n + 1)
    by (rewrite length_app; simpl; lia).
  assert (Hin : (Z.to_nat i < Z.to_nat MAX_SENSORS)%nat) by lia.
  pose proof (Z.mod_pos_bound n MAX_DATA_POINTS ltac:(reflexivity)) as Hb.
  assert (Hmod : (n + 1) `mod` MAX_DATA_POINTS =
                 if MAX_DATA_POINTS <=? n `mod` MAX_DATA_POINTS + 1 then 0
                 else n `mod` MAX_DATA_POINTS + 1).
  { rewrite <- Zplus_mod_idemp_l. unfold MAX_DATA_POINTS in *.
    destruct (Z.leb_spec 1000 (n `mod` 1000 + 1)).
    - replace (n `mod` 1000 + 1) with 1000 by lia. reflexivity.
    - apply Z.mod_small. lia. }
  assert (Hc : dataCount (storeReading i t now td) !!! Z.to_nat i
               = Z.min (n + 1) MAX_DATA_POINTS).
  { unfold storeReading; lv_proj. rewrite H1. unfold MAX_DATA_POINTS in *.
    destruct (Z.ltb_spec (Z.min n 1000) 1000).
    - rewrite list_lookup_total_insert_eq by lia. lia.
    - rewrite H1. lia. }
  unfold tracksCh. rewrite Hc, Hn.
  unfold storeReading; lv_proj.
  rewrite !list_lookup_total_insert_eq by lia. rewrite H2.
  split; [reflexivity|]. split; [symmetry; exact Hmod|]. split.
  - unfold MAX_DATA_POINTS in *.
    destruct (Z.leb_spec 1000 (n `mod` 1000 + 1)) as [Hw|Hw].
    + rewrite list_lookup_total_insert_eq by lia.
      symmetry. apply bool_decide_eq_true_2.
      pose proof (Z.mod_le n 1000 ltac:(unfold n; lia) ltac:(lia)). lia.
    + rewrite H3. apply bool_decide_ext.
      split; [lia|]. intros Hge.
      destruct (decide (n = 999)) as [->|]; [|lia].
      change (999 `mod` 1000) with 999 in Hw. lia.
  - intros k Hk. rewrite reverse_snoc.
    destruct k as [|k].
    + simpl. f_equal.
      match goal with |- context [Z.to_nat (?a `mod` _)] =>
        replace a with n by lia end.
      rewrite list_lookup_total_insert_eq;
        [reflexivity|rewrite S5 by exact Hin; unfold MAX_DATA_POINTS in *; lia].
    + simpl. rewrite (H4 k) by (rewrite H1; unfold MAX_DATA_POINTS in *; lia).
      f_equal.
      match goal with |- context [<[_:=_]> _ !!! Z.to_nat (?a `mod` _)] =>
        replace a with (n - 1 - Z.of_nat k) by lia end.
      rewrite list_lookup_total_insert_ne; [reflexivity|].
      intros Heq. apply Z2Nat.inj in Heq; try (apply Z.mod_pos_bound; reflexivity).
      unfold MAX_DATA_POINTS in *.
      assert (Hd : (n - (n - 1 - Z.of_nat k)) `mod` 1000 = 0).
      { rewrite Zminus_mod, Heq, Z.sub_diag. reflexivity. }
      replace (n - (n - 1 - Z.of_nat k)) with (Z.of_nat (S k)) in Hd by lia.
      rewrite Z.mod_small in Hd by lia. lia.
Qed.

(** What one turn of [sensorTask] stores for sensor [j] when [n] sensors
    are polled. *)
Definition storedBy (n j : Z) (c : (Z -> float) * (Z -> time_t)) : list SensorData :=
  if bool_decide (0 <= j < n) && bool_decide (c.1 j <> DEVICE_DISCONNECTED_C)
  then [{| temperature := c.1 j; timestamp := c.2 j |}] else [].

(** The state after a series of turns of [sensorTask]; a turn is given by
    the readings and the clock values it obtains. *)
Definition runCycles (cycles : list ((Z -> float) * (Z -> time_t))) (td : TempData)
  : TempData :=
  foldl (fun td c => acquire c.1 c.2 td) td cycles.

(** The readings of sensor [j] these turns store. *)
Definition accepted (n j : Z) (cycles : list ((Z -> float) * (Z -> time_t)))
  : list SensorData :=
  concat (map (storedBy n j) cycles).

Lemma storeReading_sensorCount i t now td :
  sensorCount (storeReading i t now td) = sensorCount td.
Proof. reflexivity. Qed.

Lemma readSensor_step g now td i j l :
  0 <= i < MAX_SENSORS -> shaped td -> tracksCh td (Z.to_nat j) l -> 0 <= j ->
  sensorCount (readSensor g now td i) = sensorCount td /\
  shaped (readSensor g now td i) /\
  tracksCh (readSensor g now td i) (Z.to_nat j)
    (l ++ if bool_decide (j = i) && bool_decide (g j <> DEVICE_DISCONNECTED_C)
          then [{| temperature := g j; timestamp := now j |}] else []).
Proof.
  intros Hi Hsh Htr Hj. unfold readSensor.
  destruct (decide (j = i)) as [->|Hne].
  - rewrite (bool_decide_eq_true_2 (i = i)) by reflexivity. simpl andb.
    case_bool_decide as Hc.
    + split; [reflexivity|]. split; [now apply shaped_storeReading|].
      now apply tracksCh_storeReading_same.
    + rewrite app_nil_r. auto.
  - rewrite (bool_decide_eq_false_2 (j = i)) by assumption. simpl andb.
    rewrite app_nil_r. case_bool_decide as Hc.
    + split; [reflexivity|]. split; [now apply shaped_storeReading|].
      apply tracksCh_storeReading_other; [lia|assumption].
    + auto.
Qed.

Lemma foldl_readSensor g now (idx : list Z) td j l :
  NoDup idx -> Forall (fun i => 0 <= i < MAX_SENSORS) idx ->
  shaped td -> tracksCh td (Z.to_nat j) l -> 0 <= j ->
  let td' := foldl (readSensor g now) td idx in
  sensorCount td' = sensorCount td /\ shaped td' /\
  tracksCh td' (Z.to_nat j)
    (l ++ if bool_decide (j ∈ idx) && bool_decide (g j <> DEVICE_DISCONNECTED_C)
          then [{| temperature := g j; timestamp := now j |}] else []).
Proof.
  intros Hnd Hall. revert td l.
  induction idx as [|i idx IH]; intros td l Hsh Htr Hj; cbn zeta.
  - simpl. rewrite app_nil_r. auto.
  - apply NoDup_cons in Hnd as [Hni Hnd]. apply Forall_cons in Hall as [Hi Hall].
    simpl foldl.
    destruct (readSensor_step g now td i j l Hi Hsh Htr Hj) as (Hsc & Hsh' & Htr').
    specialize (IH Hnd Hall _ _ Hsh' Htr' Hj). cbn zeta in IH.
    destruct IH as (IH1 & IH2 & IH3).
    split; [congruence|]. split; [assumption|].
    rewrite <- app_assoc in IH3.
    replace (if bool_decide (j ∈ i :: idx) && bool_decide (g j <> DEVICE_DISCONNECTED_C)
             then [{| temperature := g j; timestamp := now j |}] else [])
      with ((if bool_decide (j = i) && bool_decide (g j <> DEVICE_DISCONNECTED_C)
             then [{| temperature := g j; timestamp := now j |}] else []) ++
            (if bool_decide (j ∈ idx) && bool_decide (g j <> DEVICE_DISCONNECTED_C)
             then [{| temperature := g j; timestamp := now j |}] else [])); [exact IH3|].
    destruct (decide (j = i)) as [->|Hne].
    + rewrite (bool_decide_eq_true_2 (i = i)) by reflexivity.
      rewrite (bool_decide_eq_false_2 (i ∈ idx)) by assumption.
      rewrite (bool_decide_eq_true_2 (i ∈ i :: idx)) by apply list_elem_of_here.
      simpl. now rewrite app_nil_r.
    + rewrite (bool_decide_eq_false_2 (j = i)) by assumption. simpl.
      rewrite (bool_decide_ext (j ∈ idx) (j ∈ i :: idx)); [reflexivity|].
      rewrite elem_of_cons. tauto.
Qed.

Lemma acquire_tracks g now td j l :
  0 <= sensorCount td <= MAX_SENSORS -> 0 <= j ->
  shaped td -> tracksCh td (Z.to_nat j) l ->
  sensorCount (acquire g now td) = sensorCount td /\ shaped (acquire g now td) /\
  tracksCh (acquire g now td) (Z.to_nat j) (l ++ storedBy (sensorCount td) j (g, now)).
Proof.
  intros Hn Hj Hsh Htr. unfold acquire, storedBy.
  pose proof (foldl_readSensor g now (seqZ 0 (sensorCount td)) td j l) as H.
  cbn zeta in H.
  replace (bool_decide (0 <= j < sensorCount td))
    with (bool_decide (j ∈ seqZ 0 (sensorCount td)))
    by (apply bool_decide_ext; rewrite elem_of_seqZ; lia).
  apply H; try assumption.
  - apply NoDup_seqZ.
  - apply Forall_forall. intros i Hi. apply elem_of_seqZ in Hi. lia.
Qed.

Lemma runCycles_tracks cycles td j l :
  0 <= sensorCount td <= MAX_SENSORS -> 0 <= j ->
  shaped td -> tracksCh td (Z.to_nat j) l ->
  tracksCh (runCycles cycles td) (Z.to_nat j) (l ++ accepted (sensorCount td) j cycles).
Proof.
  revert td l. induction cycles as [|c cycles IH]; intros td l Hn Hj Hsh Htr.
  - simpl. now rewrite app_nil_r.
  - change (runCycles (c :: cycles) td) with (runCycles cycles (acquire c.1 c.2 td)).
    destruct (acquire_tracks c.1 c.2 td j l Hn Hj Hsh Htr) as (Hsc & Hsh' & Htr').
    unfold accepted. simpl concat. rewrite app_assoc.
    rewrite <- Hsc at 2. destruct c as [g now]. apply IH; try assumption.
    now rewrite Hsc.
Qed.

Lemma tracksCh_latest td j l :
  0 <= j -> tracksCh td (Z.to_nat j) l ->
  match last l with Some x => latest td j = x | None => True end.
Proof.
  intros Hj (H1 & H2 & H3 & H4).
  destruct l as [|y l] using rev_ind; [exact I|].
  rewrite last_snoc. specialize (H4 O). rewrite reverse_snoc in H4. simpl in H4.
  rewrite length_app in *. simpl length in *.
  unfold latest. rewrite H2.
  assert (Hlt : Z.of_nat 0 < dataCount td !!! Z.to_nat j)
    by (rewrite H1; unfold MAX_DATA_POINTS; lia).
  specialize (H4 Hlt). injection H4 as ->. f_equal. f_equal.
  unfold c_rem. unfold MAX_DATA_POINTS.
  pose proof (Z.mod_pos_bound (Z.of_nat (length l + 1)) 1000 ltac:(lia)).
  rewrite Z.rem_mod_nonneg by lia.
  replace (Z.of_nat (length l + 1) `mod` 1000 - 1 + 1000)
    with ((Z.of_nat (length l + 1) `mod` 1000 - 1) + 1 * 1000) by lia.
  rewrite Z_mod_plus_full, Zminus_mod_idemp_l. f_equal. lia.
Qed.

End LvglRing.

(** ** Ring store: count, overflow flag and latest entry *)

(** C1.  After a series of N appends the count of valid entries is
    min(N, C), the overflow flag is set once N >= C, and the slot at
    cursor - 1 (mod C) holds the N-th appended sample.  TFT sketch: N
    calls of [readSensors] from the initial globals ([dataBuffer] has no
    overflow flag).  LVGL sketch: for sensor [j] of [n] polled sensors, N
    is the number of readings [sensorTask] stores for it, from the
    zero-initialised [tempData]. *)
Theorem ring_append_count_overflow_latest
  (sc : Z) (fs : Tft.Spiffs) (inputs : list (time_t * (Z -> float)))
  (n j : Z) (cycles : list ((Z -> float) * (Z -> time_t)))
  (Hj : 0 <= j < n) (Hn : n <= Lvgl.MAX_SENSORS) :
  let st := runSensors inputs (Tft.mkSketch sc Tft.ring0 fs) in
  let td := runCycles cycles (Lvgl.tempData0 n) in
  let stored := accepted n j cycles in
  (Tft.dataBufferCount (Tft.ring st)
     = Z.min (Z.of_nat (length inputs)) Tft.DATA_BUFFER_SIZE /\
   match last (samplesOf sc inputs) with
   | Some x => Tft.latest (Tft.ring st) = x
   | None => True
   end) /\
  (Lvgl.dataCount td !!! Z.to_nat j
     = Z.min (Z.of_nat (length stored)) Lvgl.MAX_DATA_POINTS /\
   Lvgl.dataOverflow td !!! Z.to_nat j
     = bool_decide (Lvgl.MAX_DATA_POINTS <= Z.of_nat (length stored)) /\
   match last stored with
   | Some x => Lvgl.latest td j = x
   | None => True
   end).
Proof.
  intros st td stored. split.
  - pose proof (runSensors_tracks inputs (Tft.mkSketch sc Tft.ring0 fs) [] tracks_ring0)
      as Htr.
    rewrite app_nil_l in Htr. fold st in Htr. cbn [Tft.sensorCount] in Htr. split.
    + destruct Htr as (_ & Hcnt & _). rewrite Hcnt. unfold samplesOf.
      now rewrite length_map.
    + destruct (samplesOf sc inputs) as [|y l] using rev_ind; [exact I|].
      rewrite last_snoc. eapply tracks_latest. exact Htr.
  - assert (Htr : tracksCh td (Z.to_nat j) stored).
    { pose proof (runCycles_tracks cycles (Lvgl.tempData0 n) j []) as H.
      rewrite app_nil_l in H. apply H.
      - cbn [Lvgl.sensorCount Lvgl.tempData0]. lia.
      - lia.
      - apply shaped_tempData0.
      - apply tracksCh_tempData0. unfold Lvgl.MAX_SENSORS in *. lia. }
    split; [apply Htr|]. split; [apply Htr|].
    apply tracksCh_latest; [lia|exact Htr].
Qed.

(** Two calls of [readSensors], and two turns of [sensorTask] of which
    the second finds sensor 0 disconnected. *)
Definition demoInputs : list (time_t * (Z -> float)) :=
  [(1730600000, fun _ : Z => Q2Qc (43 # 2)); (1730600060, fun _ : Z => Q2Qc (87 # 4))].
Definition demoCycles : list ((Z -> float) * (Z -> time_t)) :=
  [(fun _ : Z => Q2Qc (43 # 2), fun _ : Z => 1730600000);
   (fun _ : Z => DEVICE_DISCONNECTED_C, fun _ : Z => 1730600060)].

Lemma ring_append_count_overflow_latest_witness :
  (0 <= 0 < 1) /\ (1 <= Lvgl.MAX_SENSORS) /\
  let st := runSensors demoInputs (Tft.mkSketch 1 Tft.ring0 (Tft.mkSpiffs true None)) in
  let td := runCycles demoCycles (Lvgl.tempData0 1) in
  let stored := accepted 1 0 demoCycles in
  (Tft.dataBufferCount (Tft.ring st)
     = Z.min (Z.of_nat (length demoInputs)) Tft.DATA_BUFFER_SIZE /\
   match last (samplesOf 1 demoInputs) with
   | Some x => Tft.latest (Tft.ring st) = x
   | None => True
   end) /\
  (Lvgl.dataCount td !!! Z.to_nat 0
     = Z.min (Z.of_nat (length stored)) Lvgl.MAX_DATA_POINTS /\
   Lvgl.dataOverflow td !!! Z.to_nat 0
     = bool_decide (Lvgl.MAX_DATA_POINTS <= Z.of_nat (length stored)) /\
   match last stored with
   | Some x => Lvgl.latest td 0 = x
   | None => True
   end).
Proof.
  split; [lia|]. split; [unfold Lvgl.MAX_SENSORS; lia|].
  apply (ring_append_count_overflow_latest 1 (Tft.mkSpiffs true None) demoInputs
           1 0 demoCycles); [lia|unfold Lvgl.MAX_SENSORS; lia].
Defined.

(** ** Ring store: cursor and count stay inside the buffer *)

(** The bounds on the cursor and the count of the TFT sketch. *)
Definition ringBounds (r : Tft.Ring) : bool :=
  (0 <=? Tft.dataBufferIndex r) && (Tft.dataBufferIndex r <? Tft.DATA_BUFFER_SIZE) &&
  (0 <=? Tft.dataBufferCount r) && (Tft.dataBufferCount r <=? Tft.DATA_BUFFER_SIZE).

(** The same bounds for sensor [i] of the LVGL sketch, and for all of
    them. *)
Definition sensorBounds (td : Lvgl.TempData) (i : Z) : bool :=
  let n := Z.to_nat i in
  (0 <=? Lvgl.currentDataIndex td !!! n) &&
  (Lvgl.currentDataIndex td !!! n <? Lvgl.MAX_DATA_POINTS) &&
  (0 <=? Lvgl.dataCount td !!! n) &&
  (Lvgl.dataCount td !!! n <=? Lvgl.MAX_DATA_POINTS).

Definition allSensorBounds (td : Lvgl.TempData) : bool :=
  forallb (sensorBounds td) (seqZ 0 Lvgl.MAX_SENSORS).

(** The declared array sizes of [tempData], as a test. *)
Definition shapedb (td : Lvgl.TempData) : bool :=
  (length (Lvgl.data td) =? 10)%nat && (length (Lvgl.dataCount td) =? 10)%nat &&
  (length (Lvgl.currentDataIndex td) =? 10)%nat &&
  (length (Lvgl.dataOverflow td) =? 10)%nat &&
  forallb (fun row => (length row =? 1000)%nat) (Lvgl.data td).

Lemma ringBounds_spec r :
  ringBounds r = true <->
  0 <= Tft.dataBufferIndex r < Tft.DATA_BUFFER_SIZE /\
  0 <= Tft.dataBufferCount r <= Tft.DATA_BUFFER_SIZE.
Proof. unfold ringBounds. rewrite !andb_true_iff. lia. Qed.

Lemma sensorBounds_spec td i :
  sensorBounds td i = true <->
  0 <= Lvgl.currentDataIndex td !!! Z.to_nat i < Lvgl.MAX_DATA_POINTS /\
  0 <= Lvgl.dataCount td !!! Z.to_nat i <= Lvgl.MAX_DATA_POINTS.
Proof. unfold sensorBounds. cbv zeta. rewrite !andb_true_iff. lia. Qed.

Lemma allSensorBounds_spec td :
  allSensorBounds td = true <->
  forall i, 0 <= i < Lvgl.MAX_SENSORS -> sensorBounds td i = true.
Proof.
  unfold allSensorBounds. rewrite forallb_forall. split.
  - intros H i Hi. apply H. apply list_elem_of_In, elem_of_seqZ. lia.
  - intros H i Hi. apply H. apply list_elem_of_In, elem_of_seqZ in Hi. lia.
Qed.

Lemma shapedb_spec td : shapedb td = true -> shaped td.
Proof.
  unfold shapedb, shaped. rewrite !andb_true_iff, !Nat.eqb_eq, forallb_forall.
  intros ((((H1 & H2) & H3) & H4) & H5).
  change (Z.to_nat Lvgl.MAX_SENSORS) with 10%nat.
  change (Z.to_nat Lvgl.MAX_DATA_POINTS) with 1000%nat.
  repeat split; try assumption.
  intros i Hi.
  destruct (lookup_lt_is_Some_2 (Lvgl.data td) i ltac:(lia)) as [row Hrow].
  rewrite (list_lookup_total_correct _ _ _ Hrow).
  apply Nat.eqb_eq, H5, list_elem_of_In, list_elem_of_lookup. eauto.
Qed.

Lemma ringBounds_addToBuffer x r :
  ringBounds r = true -> ringBounds (Tft.addToBuffer x r) = true.
Proof.
  rewrite !ringBounds_spec. unfold Tft.addToBuffer, c_rem, Tft.DATA_BUFFER_SIZE.
  cbn [Tft.dataBufferIndex Tft.dataBufferCount]. intros [Hi Hc].
  rewrite Z.rem_mod_nonneg by lia.
  pose proof (Z.mod_pos_bound (Tft.dataBufferIndex r + 1) 1000 ltac:(lia)).
  destruct (Z.ltb_spec (Tft.dataBufferCount r) 1000); lia.
Qed.

Lemma ringBounds_loadLoop lines r :
  ringBounds r = true -> ringBounds (Tft.loadLoop lines r) = true.
Proof.
  revert r. induction lines as [|line lines IH]; intros r Hr; [exact Hr|].
  simpl. destruct (Z.ltb_spec (Tft.dataBufferCount r) Tft.DATA_BUFFER_SIZE); [|exact Hr].
  destruct (_ =? 0); [now apply IH|]. apply IH.
  apply ringBounds_spec in Hr. apply ringBounds_spec.
  unfold Tft.loadAdd, c_rem, Tft.DATA_BUFFER_SIZE in *.
  cbn [Tft.dataBufferIndex Tft.dataBufferCount].
  rewrite Z.rem_mod_nonneg by lia.
  pose proof (Z.mod_pos_bound (Tft.dataBufferIndex r + 1) 1000 ltac:(lia)). lia.
Qed.

Lemma ringBounds_loadData st :
  ringBounds (Tft.ring st) = true -> ringBounds (Tft.ring (Tft.loadData st)) = true.
Proof.
  intros Hr. unfold Tft.loadData.
  destruct (if Tft.mounted (Tft.spiffs st) then _ else _); [|exact Hr].
  cbn [Tft.ring]. now apply ringBounds_loadLoop.
Qed.

Lemma sensorBounds_storeReading i t now td j :
  sensorBounds td j = true -> sensorBounds (Lvgl.storeReading i t now td) j = true.
Proof.
  rewrite !sensorBounds_spec. unfold Lvgl.storeReading, Lvgl.MAX_DATA_POINTS.
  cbn [Lvgl.currentDataIndex Lvgl.dataCount]. intros [Hc Hn]. split.
  - rewrite list_lookup_total_insert. case_decide as Hd; [|exact Hc].
    destruct Hd as [Hd _]. rewrite Hd.
    destruct (Z.leb_spec 1000 (Lvgl.currentDataIndex td !!! Z.to_nat j + 1)); lia.
  - destruct (Z.ltb_spec (Lvgl.dataCount td !!! Z.to_nat i) 1000) as [Hlt|]; [|exact Hn].
    rewrite list_lookup_total_insert. case_decide as Hd; [|exact Hn].
    destruct Hd as [Hd _]. rewrite Hd in Hlt. rewrite Hd. lia.
Qed.

Lemma allSensorBounds_acquire g now td :
  allSensorBounds td = true -> allSensorBounds (Lvgl.acquire g now td) = true.
Proof.
  unfold Lvgl.acquire. generalize (seqZ 0 (Lvgl.sensorCount td)) as idx.
  intros idx. revert td. induction idx as [|i idx IH]; intros td Htd; [exact Htd|].
  simpl. apply IH. unfold Lvgl.readSensor.
  case_bool_decide; [|exact Htd].
  apply allSensorBounds_spec. intros j Hj. apply sensorBounds_storeReading.
  revert j Hj. now apply allSensorBounds_spec.
Qed.

Lemma allSensorBounds_clearData td :
  shaped td -> allSensorBounds (Lvgl.clearData td) = true.
Proof.
  intros (_ & S2 & S3 & _).
  assert (H : forall idx td0 j,
             length (Lvgl.dataCount td0) = Z.to_nat Lvgl.MAX_SENSORS ->
             length (Lvgl.currentDataIndex td0) = Z.to_nat Lvgl.MAX_SENSORS ->
             0 <= j < Lvgl.MAX_SENSORS ->
             (j ∈ idx \/ sensorBounds td0 j = true) ->
             sensorBounds
               (foldl (fun td i =>
                  let n := Z.to_nat i in
                  {| Lvgl.sensorCount := Lvgl.sensorCount td;
                     Lvgl.data := Lvgl.data td;
                     Lvgl.dataCount := <[n := 0]> (Lvgl.dataCount td);
                     Lvgl.currentDataIndex := <[n := 0]> (Lvgl.currentDataIndex td);
                     Lvgl.dataOverflow := <[n := false]> (Lvgl.dataOverflow td) |})
                  td0 idx) j = true).
  { unfold Lvgl.MAX_SENSORS.
    induction idx as [|i idx IH]; intros td0 j L1 L2 Hj Hin.
    - destruct Hin as [Hin|Hin]; [inversion Hin|exact Hin].
    - simpl foldl. apply IH; cbn [Lvgl.dataCount Lvgl.currentDataIndex];
        rewrite ?length_insert; try assumption.
      destruct (decide (j = i)) as [->|Hne].
      + right. apply sensorBounds_spec. cbn [Lvgl.dataCount Lvgl.currentDataIndex].
        rewrite !list_lookup_total_insert_eq by lia. unfold Lvgl.MAX_DATA_POINTS. lia.
      + destruct Hin as [Hin|Hin].
        * left. apply elem_of_cons in Hin. tauto.
        * right. apply sensorBounds_spec in Hin. apply sensorBounds_spec.
          cbn [Lvgl.dataCount Lvgl.currentDataIndex].
          rewrite !list_lookup_total_insert.
          unfold Lvgl.MAX_DATA_POINTS in *. repeat case_decide; lia. }
  apply allSensorBounds_spec. intros j Hj. unfold Lvgl.clearData.
  apply H; try assumption. left. apply elem_of_seqZ. lia.
Qed.

Lemma backIndex_bounds r i :
  ringBounds r = true -> 0 <= i < Tft.dataBufferCount r ->
  0 <= Tft.backIndex r i < Tft.DATA_BUFFER_SIZE.
Proof.
  rewrite ringBounds_spec. unfold Tft.backIndex, c_rem, Tft.DATA_BUFFER_SIZE.
  intros [Hi Hc] Hk. rewrite Z.rem_mod_nonneg by lia.
  apply Z.mod_pos_bound. lia.
Qed.

(** C10.  Every operation that changes the ring buffers keeps the write
    cursor in [0, C) and the count in [0, C], with C = 1000: the append
    of the TFT sketch ([readSensors] and its buffer block), its bootstrap
    load ([loadData]), the acquisition of the LVGL sketch for every
    sensor (the sensor count being at most [MAX_SENSORS], as the arrays
    require), and the "Clear Data" action.  Under these bounds the index
    expressions (cursor - k + C) % C read inside the buffer. *)
Theorem buffer_bounds_preserved
  (st : Tft.Sketch) (x : Tft.TempData) (now : time_t) (g : Z -> float)
  (td : Lvgl.TempData) (gl : Z -> float) (nowl : Z -> time_t)
  (Hst : ringBounds (Tft.ring st) = true)
  (Htd : allSensorBounds td = true)
  (Hsh : shapedb td = true)
  (Hsc : 0 <= Lvgl.sensorCount td <= Lvgl.MAX_SENSORS) :
  ringBounds (Tft.addToBuffer x (Tft.ring st)) = true /\
  ringBounds (Tft.ring (Tft.readSensors now g st)) = true /\
  ringBounds (Tft.ring (Tft.loadData st)) = true /\
  allSensorBounds (Lvgl.acquire gl nowl td) = true /\
  allSensorBounds (Lvgl.clearData td) = true /\
  (forall i, 0 <= i < Tft.dataBufferCount (Tft.ring st) ->
     0 <= Tft.backIndex (Tft.ring st) i < Tft.DATA_BUFFER_SIZE) /\
  (forall j k, 0 <= j < Lvgl.MAX_SENSORS ->
     0 <= k <= Lvgl.dataCount td !!! Z.to_nat j ->
     0 <= (Lvgl.currentDataIndex td !!! Z.to_nat j - k + Lvgl.MAX_DATA_POINTS)
            %% Lvgl.MAX_DATA_POINTS < Lvgl.MAX_DATA_POINTS).
Proof.
  split; [now apply ringBounds_addToBuffer|].
  split; [rewrite readSensors_ring; now apply ringBounds_addToBuffer|].
  split; [now apply ringBounds_loadData|].
  split; [now apply allSensorBounds_acquire|].
  split; [now apply allSensorBounds_clearData, shapedb_spec|].
  split; [intros i Hi; now apply backIndex_bounds|].
  intros j k Hj Hk.
  pose proof (proj1 (allSensorBounds_spec td) Htd j Hj) as Hb.
  apply sensorBounds_spec in Hb. unfold c_rem, Lvgl.MAX_DATA_POINTS in *.
  rewrite Z.rem_mod_nonneg by lia. apply Z.mod_pos_bound. lia.
Qed.

Lemma buffer_bounds_preserved_witness :
  let st := Tft.mkSketch 1 Tft.ring0 (Tft.mkSpiffs true None) in
  let td := Lvgl.tempData0 1 in
  ringBounds (Tft.ring st) = true /\ allSensorBounds td = true /\ shapedb td = true /\
  0 <= Lvgl.sensorCount td <= Lvgl.MAX_SENSORS /\
  ringBounds (Tft.ring (Tft.readSensors 1730600000 (fun _ => Q2Qc (43 # 2)) st)) = true /\
  allSensorBounds (Lvgl.acquire (fun _ => Q2Qc (43 # 2)) (fun _ => 1730600000) td) = true.
Proof.
  intros st td.
  assert (H1 : ringBounds (Tft.ring st) = true) by reflexivity.
  assert (H2 : allSensorBounds td = true) by reflexivity.
  assert (H3 : shapedb td = true) by (vm_compute; reflexivity).
  assert (H4 : 0 <= Lvgl.sensorCount td <= Lvgl.MAX_SENSORS)
    by (unfold Lvgl.MAX_SENSORS; simpl; lia).
  pose proof (buffer_bounds_preserved st Tft.zeroData 1730600000 (fun _ => Q2Qc (43 # 2))
                td (fun _ => Q2Qc (43 # 2)) (fun _ => 1730600000) H1 H2 H3 H4) as H.
  split; [exact H1|]. split; [exact H2|]. split; [exact H3|]. split; [exact H4|].
  split; apply H.
Defined.

(** ** Chart window and table page *)

Section TftViews.
Import Tft.

(** The entries the ring retains after the appends [l], latest first. *)
Definition newestFirst (l : list TempData) : list TempData :=
  take (Z.to_nat DATA_BUFFER_SIZE) (reverse l).

Lemma tracks_visitOrder_newestFirst r l :
  tracks r l -> visitOrder r = newestFirst l.
Proof.
  intros Htr. rewrite (tracks_visitOrder r l Htr). unfold newestFirst.
  destruct Htr as (_ & Hcnt & _). rewrite Hcnt. unfold DATA_BUFFER_SIZE.
  destruct (Z.le_ge_cases (Z.of_nat (length l)) 1000).
  - rewrite Z.min_l by lia. rewrite !take_ge; rewrite ?length_reverse; trivial; lia.
  - rewrite Z.min_r by lia. reflexivity.
Qed.

Lemma tracks_slot r l k :
  tracks r l -> (Z.of_nat k < dataBufferCount r) ->
  newestFirst l !! k = Some (slot (dataBuffer r) (backIndex r (Z.of_nat k))).
Proof.
  intros Htr Hk. rewrite <- (tracks_visitOrder_newestFirst r l Htr).
  unfold visitOrder. rewrite list_lookup_fmap, lookup_seqZ_lt by lia.
  simpl. rewrite Z.add_0_l. reflexivity.
Qed.

Lemma tracks_count_length r l :
  tracks r l -> dataBufferCount r = Z.of_nat (length (newestFirst l)).
Proof.
  intros Htr. rewrite <- (tracks_visitOrder_newestFirst r l Htr).
  unfold visitOrder. rewrite length_map, length_seqZ.
  destruct Htr as (_ & Hcnt & _). unfold DATA_BUFFER_SIZE in Hcnt. lia.
Qed.

(** The ten rows of [drawTableScreen], as a slice of the retained
    entries. *)
Lemma tracks_rows r l (off : Z) (n : nat) (start : Z) :
  tracks r l -> 0 <= off -> 0 <= start ->
  concat (map (fun row : Z =>
                 if off + row <? dataBufferCount r
                 then [slot (dataBuffer r) (backIndex r (off + row))] else [])
              (seqZ start (Z.of_nat n)))
  = take n (drop (Z.to_nat (off + start)) (newestFirst l)).
Proof.
  intros Htr Hoff. revert start. induction n as [|n IH]; intros start Hs.
  - reflexivity.
  - rewrite seqZ_cons by lia. simpl map. simpl concat.
    replace (Z.pred (Z.of_nat (S n))) with (Z.of_nat n) by lia.
    rewrite IH by lia.
    replace (Z.to_nat (off + Z.succ start)) with (S (Z.to_nat (off + start))) by lia.
    destruct (Z.ltb_spec (off + start) (dataBufferCount r)) as [Hlt|Hge].
    + pose proof (tracks_slot r l (Z.to_nat (off + start)) Htr ltac:(lia)) as Hsl.
      rewrite Z2Nat.id in Hsl by lia.
      rewrite (drop_S _ _ _ Hsl). reflexivity.
    + rewrite (tracks_count_length r l Htr) in Hge.
      rewrite !drop_ge by lia. now rewrite !take_nil.
Qed.

End TftViews.

(** C2 (as the code has it).  For every run of [readSensors], also one
    longer than the buffer, and all bounds, the loops of [drawChartScreen]
    reach exactly the retained entries whose timestamp lies in
    [startTime, now], each once, from the latest to the oldest. *)
Theorem chart_window_newest_first
  (sc : Z) (fs : Tft.Spiffs) (inputs : list (time_t * (Z -> float)))
  (startTime now : time_t) :
  Tft.chartWindow (Tft.ring (runSensors inputs (Tft.mkSketch sc Tft.ring0 fs)))
                  startTime now
  = List.filter (Tft.inRange startTime now) (newestFirst (samplesOf sc inputs)).
Proof.
  unfold Tft.chartWindow. f_equal.
  apply tracks_visitOrder_newestFirst.
  apply (runSensors_tracks inputs (Tft.mkSketch sc Tft.ring0 fs) [] tracks_ring0).
Qed.

(** C2, refuted as stated: after two samples taken at times 1 and 2, the
    window [0, 10] is visited in the order 2, 1, which is not ascending. *)
Lemma chart_window_not_ascending :
  let st := runSensors [(1, fun _ => Q2Qc 0); (2, fun _ => Q2Qc 0)]
                       (Tft.mkSketch 1 Tft.ring0 (Tft.mkSpiffs true None)) in
  map Tft.timestamp (Tft.chartWindow (Tft.ring st) 0 10) = [2; 1] /\
  ~ Sorted Z.le (map Tft.timestamp (Tft.chartWindow (Tft.ring st) 0 10)).
Proof.
  intros st.
  assert (H : map Tft.timestamp (Tft.chartWindow (Tft.ring st) 0 10) = [2; 1])
    by (vm_compute; reflexivity).
  split; [exact H|]. rewrite H. intros Hs.
  inversion Hs as [|? ? _ Hd]. inversion Hd. lia.
Qed.

(** C8.  For every run of [readSensors] and every scroll request, after
    [handleTableScroll] the offset is the requested one clamped to
    [0, max(0, count - 10)]; [drawTableScreen] then shows the ten entries
    that follow the [offset] latest ones, latest first, the scroll-up
    indicator exactly when offset > 0 and the scroll-down indicator
    exactly when offset < max(0, count - 10). *)
Theorem table_page_and_indicators
  (sc : Z) (fs : Tft.Spiffs) (inputs : list (time_t * (Z -> float)))
  (ui : Tft.TableUi) (direction : Z) :
  let r := Tft.ring (runSensors inputs (Tft.mkSketch sc Tft.ring0 fs)) in
  let maxOffset := Z.max 0 (Tft.dataBufferCount r - 10) in
  let ui' := Tft.handleTableScroll direction (Tft.drawTableScreen r ui).1 in
  let offset := Tft.tableScrollOffset ui' in
  let view := (Tft.drawTableScreen r ui').2 in
  offset = Z.max 0 (Z.min maxOffset (Tft.tableScrollOffset ui + direction)) /\
  0 <= offset <= maxOffset /\
  Tft.rows view = take 10 (drop (Z.to_nat offset) (newestFirst (samplesOf sc inputs))) /\
  Tft.scrollUp view = bool_decide (0 < offset) /\
  Tft.scrollDown view = bool_decide (offset < maxOffset).
Proof.
  intros r maxOffset ui' offset view.
  assert (Htr : tracks r (samplesOf sc inputs))
    by apply (runSensors_tracks inputs (Tft.mkSketch sc Tft.ring0 fs) [] tracks_ring0).
  assert (Hoff : offset = Z.max 0 (Z.min maxOffset (Tft.tableScrollOffset ui + direction))).
  { unfold offset, ui', Tft.handleTableScroll, Tft.drawTableScreen.
    cbn [fst Tft.tableScrollOffset Tft.maxTableScroll]. fold maxOffset.
    destruct (Z.ltb_spec (Tft.tableScrollOffset ui + direction) 0);
      destruct (Z.ltb_spec maxOffset 0);
      destruct (Z.ltb_spec maxOffset (Tft.tableScrollOffset ui + direction)); lia. }
  split; [exact Hoff|]. split; [lia|].
  unfold view, Tft.drawTableScreen. cbn [snd Tft.rows Tft.scrollUp Tft.scrollDown].
  fold offset. fold maxOffset. split; [|split].
  - pose proof (tracks_rows r _ offset 10 0 Htr ltac:(lia) ltac:(lia)) as Hrows.
    change (Z.of_nat 10) with 10 in Hrows. rewrite Z.add_0_r in Hrows.
    exact Hrows.
  - destruct (Z.ltb_spec 0 offset); [now rewrite bool_decide_eq_true_2|
                                      now rewrite bool_decide_eq_false_2 by lia].
  - destruct (Z.ltb_spec offset maxOffset); [now rewrite bool_decide_eq_true_2|
                                              now rewrite bool_decide_eq_false_2 by lia].
Qed.

(** ** Disconnected readings in the chart scale and the table *)

Lemma foldl_concat {A B} (f : A -> B -> A) (a : A) (ls : list (list B)) :
  foldl f a (concat ls) = foldl (fun a l => foldl f a l) a ls.
Proof.
  revert a. induction ls as [|l ls IH]; intros a; [reflexivity|].
  simpl. rewrite foldl_app. apply IH.
Qed.

Lemma scanReading_disconnected mm :
  Tft.scanReading mm DEVICE_DISCONNECTED_C = mm.
Proof. unfold Tft.scanReading. now rewrite bool_decide_eq_false_2 by auto. Qed.

Lemma foldl_scanReading_connected mm l :
  foldl Tft.scanReading mm l
  = foldl Tft.scanReading mm
      (List.filter (fun t => bool_decide (t <> DEVICE_DISCONNECTED_C)) l).
Proof.
  revert mm. induction l as [|t l IH]; intros mm; [reflexivity|].
  simpl. case_bool_decide as Hc.
  - simpl. apply IH.
  - subst t. rewrite scanReading_disconnected. apply IH.
Qed.

(** C6.  A reading that carries the disconnected mark contributes nothing
    to the min/max scan of [drawChartScreen]: the scan of a window equals
    the scan of its connected readings alone.  [drawTableScreen] renders
    such a reading as three dashes, whatever the numeric formatting
    [String(float, 1)] returns. *)
Theorem disconnected_never_numeric
  (sc : Z) (r : Tft.Ring) (startTime now : time_t)
  (mm : float * float) (fmt1 : float -> Str) :
  Tft.scanReading mm DEVICE_DISCONNECTED_C = mm /\
  Tft.chartMinMax sc r startTime now
  = foldl Tft.scanReading (Q2Qc (1000 # 1), Q2Qc (-1000 # 1))
      (List.filter (fun t => bool_decide (t <> DEVICE_DISCONNECTED_C))
         (concat (map (Tft.readings sc) (Tft.chartWindow r startTime now)))) /\
  Tft.tableCell fmt1 DEVICE_DISCONNECTED_C = Arduino.lit "---".
Proof.
  split; [apply scanReading_disconnected|]. split.
  - rewrite <- foldl_scanReading_connected, foldl_concat.
    unfold Tft.chartMinMax. generalize (Tft.chartWindow r startTime now) as w.
    generalize (Q2Qc (1000 # 1), Q2Qc (-1000 # 1)) as a.
    intros a w. revert a. induction w as [|d w IH]; intros a; [reflexivity|].
    simpl. apply IH.
  - unfold Tft.tableCell. now rewrite bool_decide_eq_false_2 by auto.
Qed.

(** ** The sampling interval and the pending wait *)

(** C7 (as the code has it).  [delay] receives the interval that is
    current when the wait begins.  A change made during the wait leaves
    the task blocked until the deadline already fixed: nothing happens
    before one old interval has passed since the previous acquisition.
    When the wait ends the LVGL sketch acquires, and the wait that
    follows lasts the new interval.  The TFT sketch first makes its
    deep-sleep test: with deep sleep disabled, or at most 60 s after the
    touch that made the change, it acquires as well and then waits the new
    interval; with deep sleep enabled and more than 60 s after that
    touch it goes to deep sleep without acquiring.  (The touch precedes
    the end of the wait, so the unsigned difference
    [millis() - lastTouchTime] is the plain one.) *)
Theorem interval_change_applies_after_pending_wait
  (s : Tft.Scheduler) (sl : Lvgl.Scheduler)
  (wake touch value v t1 t2 : Z)
  (Hs : Tft.task s = Tft.Delayed wake)
  (Hsl : Lvgl.task sl = Lvgl.Delayed wake)
  (Htouch : 0 <= touch < wake)
  (H1 : t1 < wake) (H2 : wake <= t2) :
  let s' := Tft.changeInterval touch value s in
  let sl' := Lvgl.setInterval v sl in
  Tft.sensorTask t1 s' = s' /\
  (Tft.deepSleepEnabled s = false \/ t2 - touch <= 60000 ->
   Tft.acquired (Tft.sensorTask t2 s') = t2 :: Tft.acquired s /\
   Tft.task (Tft.sensorTask t2 s') = Tft.Delayed (t2 + Tft.sampleInterval s' * 1000)) /\
  (Tft.deepSleepEnabled s = true -> 60000 < t2 - touch ->
   Tft.acquired (Tft.sensorTask t2 s') = Tft.acquired s /\
   Tft.task (Tft.sensorTask t2 s') = Tft.Asleep) /\
  Lvgl.sensorTask t1 sl' = sl' /\
  Lvgl.acquired (Lvgl.sensorTask t2 sl') = t2 :: Lvgl.acquired sl /\
  Lvgl.task (Lvgl.sensorTask t2 sl') = Lvgl.Delayed (t2 + v * 1000).
Proof.
  intros s' sl'. subst s' sl'.
  unfold Tft.sensorTask, Lvgl.sensorTask, Tft.afterDelay, Tft.beginCycle,
    Tft.changeInterval, Lvgl.setInterval.
  cbn [Tft.task Tft.sampleInterval Tft.deepSleepEnabled Tft.lastTouchTime Tft.acquired
       Lvgl.task Lvgl.sampleInterval Lvgl.acquired].
  rewrite Hs, Hsl.
  destruct (Z.leb_spec wake t1); [lia|].
  destruct (Z.leb_spec wake t2); [|lia].
  split; [reflexivity|]. split; [|split; [|repeat split]].
  - intros [Hoff|Hrecent].
    + rewrite Hoff. cbn [andb]. split; reflexivity.
    + destruct (Z.ltb_spec 60000 (t2 - touch)); [lia|].
      rewrite andb_false_r. split; reflexivity.
  - intros Hon Hlate. rewrite Hon.
    destruct (Z.ltb_spec 60000 (t2 - touch)); [|lia].
    cbn [andb Tft.acquired Tft.task]. split; reflexivity.
Qed.

(** The task of either sketch after a first acquisition at time 0 with an
    interval of 60 s, and with one of 120 s. *)
Definition tftAfterFirst : Tft.Scheduler :=
  Tft.sensorTask 0 (Tft.mkScheduler Tft.Ready 60 true 0 []).
Definition lvglAfterFirst : Lvgl.Scheduler :=
  Lvgl.sensorTask 0 (Lvgl.mkScheduler Lvgl.Ready 60 []).
Definition tftAfterFirstSlow : Tft.Scheduler :=
  Tft.sensorTask 0 (Tft.mkScheduler Tft.Ready 120 true 0 []).
Definition lvglAfterFirstSlow : Lvgl.Scheduler :=
  Lvgl.sensorTask 0 (Lvgl.mkScheduler Lvgl.Ready 120 []).

Lemma interval_change_applies_after_pending_wait_witness :
  (Tft.task tftAfterFirst = Tft.Delayed 60000 /\
   Lvgl.task lvglAfterFirst = Lvgl.Delayed 60000 /\
   0 <= 5000 < 60000 /\ 15000 < 60000 /\ 60000 <= 60000) /\
  (let s' := Tft.changeInterval 5000 (-10) tftAfterFirst in
   let sl' := Lvgl.setInterval 10 lvglAfterFirst in
   Tft.sensorTask 15000 s' = s' /\
   Tft.acquired (Tft.sensorTask 60000 s') = [60000; 0] /\
   Tft.task (Tft.sensorTask 60000 s') = Tft.Delayed (60000 + 50 * 1000) /\
   Lvgl.sensorTask 15000 sl' = sl' /\
   Lvgl.acquired (Lvgl.sensorTask 60000 sl') = [60000; 0] /\
   Lvgl.task (Lvgl.sensorTask 60000 sl') = Lvgl.Delayed (60000 + 10 * 1000)) /\
  (Tft.task tftAfterFirstSlow = Tft.Delayed 120000 /\
   Lvgl.task lvglAfterFirstSlow = Lvgl.Delayed 120000 /\
   0 <= 5000 < 120000 /\ 15000 < 120000 /\ 120000 <= 120000) /\
  (let s' := Tft.changeInterval 5000 (-10) tftAfterFirstSlow in
   Tft.acquired (Tft.sensorTask 120000 s') = [0] /\
   Tft.task (Tft.sensorTask 120000 s') = Tft.Asleep).
Proof.
  assert (A1 : Tft.task tftAfterFirst = Tft.Delayed 60000) by reflexivity.
  assert (A2 : Lvgl.task lvglAfterFirst = Lvgl.Delayed 60000) by reflexivity.
  assert (A3 : 0 <= 5000 < 60000) by lia.
  assert (A4 : 15000 < 60000) by lia.
  assert (A5 : 60000 <= 60000) by lia.
  assert (B1 : Tft.task tftAfterFirstSlow = Tft.Delayed 120000) by reflexivity.
  assert (B2 : Lvgl.task lvglAfterFirstSlow = Lvgl.Delayed 120000) by reflexivity.
  assert (B3 : 0 <= 5000 < 120000) by lia.
  assert (B4 : 15000 < 120000) by lia.
  assert (B5 : 120000 <= 120000) by lia.
  assert (R : 60000 - 5000 <= 60000) by lia.
  assert (L : 60000 < 120000 - 5000) by lia.
  pose proof (interval_change_applies_after_pending_wait tftAfterFirst lvglAfterFirst
                60000 5000 (-10) 10 15000 60000 A1 A2 A3 A4 A5) as Ha.
  pose proof (interval_change_applies_after_pending_wait tftAfterFirstSlow lvglAfterFirstSlow
                120000 5000 (-10) 10 15000 120000 B1 B2 B3 B4 B5) as Hb.
  cbv zeta in Ha, Hb.
  destruct Ha as (Ha1 & Ha2 & _ & Ha4 & Ha5 & Ha6).
  destruct Hb as (_ & _ & Hb3 & _).
  split; [repeat split; assumption || lia|].
  split.
  - cbv zeta. destruct (Ha2 (or_intror R)) as [Ha2a Ha2b].
    split; [exact Ha1|]. split; [exact Ha2a|]. split; [exact Ha2b|].
    split; [exact Ha4|]. split; [exact Ha5|exact Ha6].
  - split; [repeat split; assumption || lia|].
    cbv zeta. exact (Hb3 eq_refl L).
Defined.

(** C7, refuted as stated.  The interval is 60 s and an acquisition
    happens at time 0.  At 5 s, during the wait, the slider sets the
    interval to 10 s.  Ten seconds later, and up to 59.999 s, no
    acquisition has happened; the next one happens at 60 s. *)
Lemma interval_change_does_not_shorten_wait :
  let s := Lvgl.setInterval 10 lvglAfterFirst in
  Lvgl.sampleInterval s = 10 /\
  Lvgl.acquired (Lvgl.sensorTask 15000 s) = [0] /\
  Lvgl.acquired (Lvgl.sensorTask 59999 (Lvgl.sensorTask 15000 s)) = [0] /\
  Lvgl.acquired (Lvgl.sensorTask 60000 (Lvgl.sensorTask 59999 (Lvgl.sensorTask 15000 s)))
  = [60000; 0].
Proof. repeat split. Qed.

(** ** Bootstrap load of the log *)

Section TftLoad.
Import Tft.

(** The trimmed, non-empty lines of a file, in file order: the lines
    [loadData] parses. *)
Definition records (file : Str) : list Str :=
  List.filter (fun line => negb (Arduino.len line =? 0))
              (map Arduino.trim (Arduino.readLines file [])).

Lemma loadAdd_addToBuffer x r :
  dataBufferCount r < DATA_BUFFER_SIZE -> loadAdd x r = addToBuffer x r.
Proof.
  intros H. unfold loadAdd, addToBuffer.
  destruct (Z.ltb_spec (dataBufferCount r) DATA_BUFFER_SIZE); [reflexivity|lia].
Qed.

Lemma loadLoop_tracks lines r l :
  tracks r l -> Z.of_nat (length l) <= DATA_BUFFER_SIZE ->
  tracks (loadLoop lines r)
    (l ++ take (Z.to_nat DATA_BUFFER_SIZE - length l)
            (map parseLine
               (List.filter (fun line => negb (Arduino.len line =? 0))
                            (map Arduino.trim lines)))).
Proof.
  revert r l. induction lines as [|line lines IH]; intros r l Htr Hl.
  - simpl. rewrite take_nil, app_nil_r. exact Htr.
  - simpl loadLoop. pose proof Htr as (_ & Hcnt & _).
    unfold DATA_BUFFER_SIZE in *.
    destruct (Z.ltb_spec (dataBufferCount r) 1000) as [Hlt|Hge].
    + simpl map. simpl List.filter.
      destruct (Arduino.len (Arduino.trim line) =? 0); simpl negb; cbv iota.
      * now apply IH.
      * rewrite loadAdd_addToBuffer by exact Hlt.
        simpl map.
        match goal with |- tracks _ (l ++ take _ (?x :: ?rest)) =>
          assert (E : take (Z.to_nat 1000 - length l) (x :: rest)
                      = x :: take (Z.to_nat 1000 - length (l ++ [x])) rest)
        end.
        { rewrite length_app. simpl length.
          replace (Z.to_nat 1000 - length l)%nat
            with (S (Z.to_nat 1000 - (length l + 1))) by lia.
          reflexivity. }
        rewrite E, cons_middle, app_assoc.
        apply IH; [now apply tracks_addToBuffer|].
        rewrite length_app. simpl. lia.
    + replace (Z.to_nat 1000 - length l)%nat with O by lia.
      simpl take. rewrite app_nil_r. exact Htr.
Qed.

Lemma loadData_tracks sc file :
  tracks (ring (loadData (mkSketch sc ring0 (mkSpiffs true (Some file)))))
         (take (Z.to_nat DATA_BUFFER_SIZE) (map parseLine (records file))).
Proof.
  unfold loadData. cbn [spiffs mounted temp_data_txt ring].
  pose proof (loadLoop_tracks (Arduino.readLines file [])
                {| dataBuffer := dataBuffer ring0; dataBufferIndex := 0;
                   dataBufferCount := 0 |} [] tracks_ring0) as H.
  rewrite app_nil_l, Nat.sub_0_r in H. apply H. unfold DATA_BUFFER_SIZE. simpl. lia.
Qed.

End TftLoad.

(** What [loadData] leaves in an empty ring: the first C parsed records
    of the log, oldest first. *)
Lemma loadData_retained (sc : Z) (file : Str) :
  let st := Tft.loadData (Tft.mkSketch sc Tft.ring0 (Tft.mkSpiffs true (Some file))) in
  let parsed := map Tft.parseLine (records file) in
  Tft.dataBufferCount (Tft.ring st)
    = Z.min (Z.of_nat (length parsed)) Tft.DATA_BUFFER_SIZE /\
  reverse (Tft.visitOrder (Tft.ring st)) = take (Z.to_nat Tft.DATA_BUFFER_SIZE) parsed.
Proof.
  intros st parsed. pose proof (loadData_tracks sc file) as Htr. fold st parsed in Htr.
  split.
  - destruct Htr as (_ & Hcnt & _). rewrite Hcnt, length_take.
    unfold Tft.DATA_BUFFER_SIZE. lia.
  - rewrite (tracks_visitOrder_newestFirst _ _ Htr). unfold newestFirst.
    rewrite take_ge by (rewrite length_reverse, length_take; lia).
    apply reverse_involutive.
Qed.

(** C4 (as the code has it).  [loadData] replays the log in file order
    and stops once the buffer holds C entries: the ring retains the first
    C parsed records, the oldest ones, and its count is the smaller of C
    and the number of records. *)
Theorem bootstrap_keeps_oldest
  (sc : Z) (file : Str) :
  let st := Tft.loadData (Tft.mkSketch sc Tft.ring0 (Tft.mkSpiffs true (Some file))) in
  let parsed := map Tft.parseLine (records file) in
  Tft.dataBufferCount (Tft.ring st)
    = Z.min (Z.of_nat (length parsed)) Tft.DATA_BUFFER_SIZE /\
  reverse (Tft.visitOrder (Tft.ring st)) = take (Z.to_nat Tft.DATA_BUFFER_SIZE) parsed.
Proof. exact (loadData_retained sc file). Qed.

(** A log of 1001 records, one per second from 00:00:01 on 1970-01-01,
    as [saveData] writes them for one sensor. *)
Definition longLog : Str :=
  concat (map (fun k => Tft.saveLine 1 {| Tft.timestamp := k;
                                          Tft.temperatures := [Q2Qc 0] |})
              (seqZ 1 1001)).

(** C4, refuted as stated: from a log of 1001 records [loadData] retains
    1000, the latest of which is record 1000; record 1001, the newest,
    is not in the ring, and record 1, the oldest, is. *)
Lemma bootstrap_drops_newest :
  let st := Tft.loadData (Tft.mkSketch 1 Tft.ring0 (Tft.mkSpiffs true (Some longLog))) in
  let kept := map Tft.timestamp (Tft.visitOrder (Tft.ring st)) in
  length (records longLog) = 1001%nat /\
  Tft.dataBufferCount (Tft.ring st) = 1000 /\
  Tft.timestamp (Tft.latest (Tft.ring st)) = 1000 /\
  ~ In 1001 kept /\ In 1 kept.
Proof.
  intros st kept.
  assert (H4 : forallb (fun t => negb (t =? 1001)) kept = true)
    by (vm_compute; reflexivity).
  assert (H5 : existsb (fun t => t =? 1) kept = true)
    by (vm_compute; reflexivity).
  split; [vm_compute; reflexivity|].
  split; [vm_compute; reflexivity|].
  split; [vm_compute; reflexivity|].
  split.
  - intros Hin. rewrite forallb_forall in H4. specialize (H4 _ Hin).
    rewrite Z.eqb_refl in H4. discriminate H4.
  - apply existsb_exists in H5 as (t & Hin & Ht). apply Z.eqb_eq in Ht.
    rewrite <- Ht. exact Hin.
Qed.

(** ** Replay of a log with malformed lines *)

(** The texts that the inner loop of [loadData] cuts out of a line and
    hands to [toFloat], in order: the loop of [Tft.parseTemps] before the
    conversion. *)
Fixpoint tempStrs (fuel : nat) (start : Z) (line : Str) : list Str :=
  match fuel with
  | O => []
  | S fuel' =>
      if start <? Arduino.len line then
        let e := Arduino.indexOfFrom "," start line in
        let e := if e =? -1 then Arduino.len line else e in
        Arduino.substring start e line :: tempStrs fuel' (e + 1) line
      else []
  end.

(** The reading texts of a trimmed line: what follows its first comma,
    cut at the commas, ten texts at most. *)
Definition readingTexts (line : Str) : list Str :=
  tempStrs 10 (Arduino.indexOf "," line + 1) line.

Lemma parseTemps_tempStrs fuel start line :
  Tft.parseTemps fuel start line = map Arduino.toFloat (tempStrs fuel start line).
Proof.
  revert start. induction fuel as [|fuel IH]; intros start; [reflexivity|].
  cbn [Tft.parseTemps tempStrs]. cbv zeta.
  destruct (start <? Arduino.len line); [|reflexivity].
  cbn [map]. f_equal. apply IH.
Qed.

(** [atof] on texts that are no plain decimal numbers. *)
Lemma toFloat_forms :
  map (fun t => this (Arduino.toFloat (Arduino.lit t)))
      ["1e2"; "0x1A"; "2.5e-1"; "-1.5E+1"; "0x.8p1"; "7up"; "xyz"; ""]%string
  = [100 # 1; 26 # 1; 1 # 4; -15 # 1; 1 # 1; 7 # 1; 0 # 1; 0 # 1]%Q /\
  map (fun t => Arduino.readsFinite (Arduino.lit t))
      ["1e2"; "xyz"; "nan"; "-Infinity"; "1e39"]%string
  = [true; true; false; false; false].
Proof. split; vm_compute; reflexivity. Qed.

(** C9 (as the code has it).  [loadData] does not stop at a malformed
    line and does not skip it either: every non-empty line, whatever it
    contains, becomes one entry, in file order, until the buffer is full.
    The timestamp of the entry is what [sscanf] and [mktime] make of the
    text before the first comma, and its readings are what [atof] makes
    of the texts after that comma, cut at the commas, one reading per
    text (a line without a comma is taken whole, as the time and as one
    reading); the value is stated for the texts that [atof] reads as a
    finite float.
    Only empty lines are passed over.  The call changes the ring alone:
    no count of skipped records exists. *)
Theorem replay_keeps_every_nonblank_line
  (sc : Z) (file : Str) :
  let st0 := Tft.mkSketch sc Tft.ring0 (Tft.mkSpiffs true (Some file)) in
  let st := Tft.loadData st0 in
  let stored := reverse (Tft.visitOrder (Tft.ring st)) in
  Tft.dataBufferCount (Tft.ring st)
    = Z.min (Z.of_nat (length (records file))) Tft.DATA_BUFFER_SIZE /\
  (forall (k : nat) (line : Str),
     (k < Z.to_nat Tft.DATA_BUFFER_SIZE)%nat ->
     records file !! k = Some line ->
     exists d : Tft.TempData,
       stored !! k = Some d /\
       Tft.timestamp d = Tft.timestamp (Tft.parseLine line) /\
       length (Tft.temperatures d) = length (readingTexts line) /\
       forall (j : nat) (f : Str),
         readingTexts line !! j = Some f -> Arduino.readsFinite f = true ->
         Tft.temperatures d !! j = Some (Arduino.toFloat f)) /\
  Tft.spiffs st = Tft.spiffs st0 /\ Tft.sensorCount st = Tft.sensorCount st0.
Proof.
  intros st0 st stored. subst stored.
  destruct (loadData_retained sc file) as [Hc Hv]. fold st0 st in Hc, Hv.
  split; [now rewrite Hc, length_map|]. split; [|split; reflexivity].
  intros k line Hk Hline. exists (Tft.parseLine line).
  split; [|split; [reflexivity|split]].
  - rewrite Hv, lookup_take_lt by exact Hk.
    now rewrite list_lookup_fmap, Hline.
  - unfold Tft.parseLine, readingTexts. cbn [Tft.temperatures].
    now rewrite parseTemps_tempStrs, length_map.
  - intros j f Hf _. unfold Tft.parseLine. cbn [Tft.temperatures].
    rewrite parseTemps_tempStrs. fold (readingTexts line).
    now rewrite list_lookup_fmap, Hf.
Qed.

(** A log whose first line is not a record and whose second line is one. *)
Definition corruptLog : Str :=
  Arduino.lit "xyz" ++ Arduino.println ++
  Tft.saveLine 1 {| Tft.timestamp := 1730600000; Tft.temperatures := [Q2Qc (43 # 2)] |}.

(** C9, refuted as stated: the line [xyz], which [saveData] never writes,
    is not skipped.  It is stored as an entry with a meaningless
    timestamp and the reading 0, before the entry of the valid line, and
    the count is 2. *)
Lemma replay_stores_corrupt_line :
  let st := Tft.loadData (Tft.mkSketch 1 Tft.ring0 (Tft.mkSpiffs true (Some corruptLog))) in
  (forall sc d, Tft.saveLine sc d <> Arduino.lit "xyz" ++ Arduino.println) /\
  Tft.dataBufferCount (Tft.ring st) = 2 /\
  map Tft.timestamp (reverse (Tft.visitOrder (Tft.ring st)))
  = [-62169984000; 1730600000] /\
  map (fun d => map this (Tft.temperatures d)) (reverse (Tft.visitOrder (Tft.ring st)))
  = [[0 # 1]; [43 # 2]]%Q.
Proof.
  intros st. split; [|split; [|split]; vm_compute; reflexivity].
  intros sc d Heq.
  assert (Hin : ","%char ∈ Tft.saveLine sc d).
  { unfold Tft.saveLine. rewrite !elem_of_app. right. left. apply list_elem_of_here. }
  rewrite Heq in Hin. vm_compute in Hin.
  repeat (apply elem_of_cons in Hin as [Hin|Hin]; [discriminate Hin|]).
  inversion Hin.
Qed.

(** A record whose readings are written with an exponent and in
    hexadecimal is stored with the values [atof] gives them. *)
Lemma replay_reads_exponent_and_hex :
  let line := Arduino.lit "2024-11-03 02:13:20,1e2,0x1A,2.5e-1" in
  let st := Tft.loadData (Tft.mkSketch 3 Tft.ring0 (Tft.mkSpiffs true (Some line))) in
  forallb Arduino.readsFinite (readingTexts line) = true /\
  map (fun d => (Tft.timestamp d, map this (Tft.temperatures d)))
      (reverse (Tft.visitOrder (Tft.ring st)))
  = [(1730600000, [100 # 1; 26 # 1; 1 # 4]%Q)].
Proof. split; vm_compute; reflexivity. Qed.

(** ** Settings *)

Section SettingsFacts.

Lemma lvgl_load_after_save s fs cur :
  Lvgl.mountable fs = true ->
  Lvgl.load_settings (Lvgl.save_settings s fs) cur = Lvgl.defaultSettings.
Proof.
  intros Hm. unfold Lvgl.save_settings, Lvgl.load_settings. now rewrite Hm.
Qed.

Lemma lvgl_load_any_content content cur :
  Lvgl.load_settings (Lvgl.mkSpiffs true (Some content)) cur = Lvgl.defaultSettings.
Proof. reflexivity. Qed.

Lemma tft_load_empty cur :
  let s := Tft.loadSettings ∅ cur in
  Tft.wifiEnabled s = true /\ Tft.ssid s = [] /\ Tft.password s = [] /\
  Tft.nSensors s = 0 /\ Tft.sensorNames s = Tft.sensorNames cur /\
  Tft.interval s = 60 /\ Tft.deepSleep s = true /\
  Tft.touchCalMinX s = 380 /\ Tft.touchCalMinY s = 240 /\
  Tft.touchCalMaxX s = 3800 /\ Tft.touchCalMaxY s = 3800.
Proof. repeat split. Qed.

End SettingsFacts.

Section TftSettingsFacts.
Import Tft.

(** The bindings [saveSettings] writes, in the order of the calls. *)
Definition settingsPairs (s : Settings) : list (string * PrefValue) :=
  [("wifi_enabled"%string, PBool (wifiEnabled s));
   ("ssid"%string, PString (ssid s));
   ("password"%string, PString (password s));
   ("sensor_count"%string, PInt (nSensors s))] ++
  map (fun i => (sensorKey i, PString (default [] (sensorNames s !! Z.to_nat i))))
      (seqZ 0 (nSensors s)) ++
  [("sample_interval"%string, PInt (interval s));
   ("deep_sleep"%string, PBool (deepSleep s));
   ("touch_cal_min_x"%string, PInt (touchCalMinX s));
   ("touch_cal_min_y"%string, PInt (touchCalMinY s));
   ("touch_cal_max_x"%string, PInt (touchCalMaxX s));
   ("touch_cal_max_y"%string, PInt (touchCalMaxY s))].

(** The value a key has after a series of writes: the last one wins. *)
Fixpoint assocLast (k : string) (kvs : list (string * PrefValue)) : option PrefValue :=
  match kvs with
  | [] => None
  | kv :: rest =>
      match assocLast k rest with
      | Some v => Some v
      | None => if String.eqb kv.1 k then Some kv.2 else None
      end
  end.

Lemma saveSettings_pairs s p :
  saveSettings s p = foldl (fun p kv => <[kv.1 := kv.2]> p) p (settingsPairs s).
Proof.
  unfold saveSettings, settingsPairs. rewrite !foldl_app. simpl.
  repeat f_equal. generalize (seqZ 0 (nSensors s)) as idx.
  generalize (<["sensor_count"%string:=PInt (nSensors s)]>
       (<["password"%string:=PString (password s)]>
          (<["ssid"%string:=PString (ssid s)]>
             (<["wifi_enabled"%string:=PBool (wifiEnabled s)]> p)))) as q.
  intros q idx. revert q. induction idx as [|i idx IH]; intros q; [reflexivity|].
  simpl. apply IH.
Qed.

Lemma lookup_foldl_insert (p : gmap string PrefValue) kvs k :
  foldl (fun p kv => <[kv.1 := kv.2]> p) p kvs !! k
  = match assocLast k kvs with Some v => Some v | None => p !! k end.
Proof.
  revert p. induction kvs as [|kv kvs IH]; intros p; [reflexivity|].
  simpl. rewrite IH. destruct (assocLast k kvs); [reflexivity|].
  destruct (String.eqb_spec kv.1 k) as [->|Hne].
  - apply lookup_insert_eq.
  - now apply lookup_insert_ne.
Qed.

Ltac eval_assoc :=
  repeat match goal with
  | |- context [assocLast ?k ?l] =>
      let v := eval vm_compute in (assocLast k l) in change (assocLast k l) with v
  end.

Lemma tft_load_after_save s p cur :
  0 <= nSensors s <= 10 ->
  length (sensorNames s) = 10%nat -> length (sensorNames cur) = 10%nat ->
  let s' := loadSettings (saveSettings s p) cur in
  wifiEnabled s' = wifiEnabled s /\ ssid s' = ssid s /\ password s' = password s /\
  nSensors s' = nSensors s /\ interval s' = interval s /\ deepSleep s' = deepSleep s /\
  touchCalMinX s' = touchCalMinX s /\ touchCalMinY s' = touchCalMinY s /\
  touchCalMaxX s' = touchCalMaxX s /\ touchCalMaxY s' = touchCalMaxY s /\
  take (Z.to_nat (nSensors s)) (sensorNames s')
  = take (Z.to_nat (nSensors s)) (sensorNames s).
Proof.
  rewrite saveSettings_pairs.
  destruct s as [w b ss pw n names iv ds x1 y1 x2 y2].
  destruct cur as [w' b' ss' pw' n' names' iv' ds' x1' y1' x2' y2'].
  cbn [nSensors sensorNames]. intros Hn Hl Hl'.
  do 10 (destruct names as [|? names]; [discriminate Hl|]).
  destruct names; [|discriminate Hl].
  do 10 (destruct names' as [|? names']; [discriminate Hl'|]).
  destruct names'; [|discriminate Hl'].
  clear Hl Hl'.
  assert (Hc : In n [0; 1; 2; 3; 4; 5; 6; 7; 8; 9; 10]) by (cbn [In]; lia).
  clear Hn. cbn [In] in Hc. cbv zeta.
  unfold loadSettings, getInt, getBool, getString.
  cbn [wifiEnabled ssid password nSensors sensorNames interval deepSleep
       touchCalMinX touchCalMinY touchCalMaxX touchCalMaxY].
  rewrite !lookup_foldl_insert.
  repeat (destruct Hc as [E|Hc]; [subst n|]); [..|destruct Hc];
    (eval_assoc; cbv beta iota; repeat (split; [reflexivity|]);
     match goal with |- context [seqZ 0 ?k] =>
       let l := eval vm_compute in (seqZ 0 k) in change (seqZ 0 k) with l end;
     cbn [foldl]; rewrite ?lookup_foldl_insert; eval_assoc; cbv beta iota;
     reflexivity).
Qed.
End TftSettingsFacts.

(** C5 (as the code has it).  LVGL sketch: whenever [/settings.json]
    exists, so right after [save_settings] and also when its contents are
    corrupted, [load_settings] returns the hard-coded defaults in every
    field, whatever was saved.  TFT sketch: [loadSettings] after
    [saveSettings] returns the saved WiFi flag, SSID, password, sensor
    count, the names of the sensors counted, interval, deep-sleep flag and
    touch calibration; on an empty [Preferences] namespace each of these
    fields gets its hard-coded default.  Neither function can fail. *)
Theorem settings_load_after_save
  (s cur : Lvgl.Settings) (fs : Lvgl.Spiffs) (content : Str)
  (ts tcur : Tft.Settings) (p : gmap string Tft.PrefValue)
  (Hm : Lvgl.mountable fs = true)
  (Hn : 0 <= Tft.nSensors ts <= 10)
  (Hl : length (Tft.sensorNames ts) = 10%nat)
  (Hl' : length (Tft.sensorNames tcur) = 10%nat) :
  Lvgl.load_settings (Lvgl.save_settings s fs) cur = Lvgl.defaultSettings /\
  Lvgl.load_settings (Lvgl.mkSpiffs true (Some content)) cur = Lvgl.defaultSettings /\
  (let s' := Tft.loadSettings (Tft.saveSettings ts p) tcur in
   Tft.wifiEnabled s' = Tft.wifiEnabled ts /\ Tft.ssid s' = Tft.ssid ts /\
   Tft.password s' = Tft.password ts /\ Tft.nSensors s' = Tft.nSensors ts /\
   Tft.interval s' = Tft.interval ts /\ Tft.deepSleep s' = Tft.deepSleep ts /\
   Tft.touchCalMinX s' = Tft.touchCalMinX ts /\ Tft.touchCalMinY s' = Tft.touchCalMinY ts /\
   Tft.touchCalMaxX s' = Tft.touchCalMaxX ts /\ Tft.touchCalMaxY s' = Tft.touchCalMaxY ts /\
   take (Z.to_nat (Tft.nSensors ts)) (Tft.sensorNames s')
   = take (Z.to_nat (Tft.nSensors ts)) (Tft.sensorNames ts)) /\
  (let s0 := Tft.loadSettings ∅ tcur in
   Tft.wifiEnabled s0 = true /\ Tft.ssid s0 = [] /\ Tft.password s0 = [] /\
   Tft.nSensors s0 = 0 /\ Tft.sensorNames s0 = Tft.sensorNames tcur /\
   Tft.interval s0 = 60 /\ Tft.deepSleep s0 = true /\
   Tft.touchCalMinX s0 = 380 /\ Tft.touchCalMinY s0 = 240 /\
   Tft.touchCalMaxX s0 = 3800 /\ Tft.touchCalMaxY s0 = 3800).
Proof.
  split; [now apply lvgl_load_after_save|].
  split; [apply lvgl_load_any_content|].
  split; [now apply tft_load_after_save|apply tft_load_empty].
Qed.

(** Settings with an interval of 10 s, in either sketch. *)
Definition lvglTen : Lvgl.Settings :=
  {| Lvgl.sInterval := 10; Lvgl.deepSleepEnabled := false;
     Lvgl.touchCalibration := [1; 2; 3; 4; 5];
     Lvgl.batteryCalibration := [Q2Qc (3 # 1); Q2Qc (42 # 10)];
     Lvgl.wifiSSID := Arduino.lit "lab"; Lvgl.wifiPassword := Arduino.lit "secret";
     Lvgl.hotspotSSID := Arduino.lit "ESP32_TempLogger";
     Lvgl.hotspotPassword := Arduino.lit "12345678";
     Lvgl.hotspotEnabled := false;
     Lvgl.sensorNames := replicate 10 (Arduino.lit "probe");
     Lvgl.sSensorCount := 2 |}.
Definition tftTen : Tft.Settings :=
  {| Tft.wifiEnabled := false; Tft.bluetoothEnabled := false;
     Tft.ssid := Arduino.lit "lab"; Tft.password := Arduino.lit "secret";
     Tft.nSensors := 2; Tft.sensorNames := replicate 10 (Arduino.lit "probe");
     Tft.interval := 10; Tft.deepSleep := false;
     Tft.touchCalMinX := 1; Tft.touchCalMinY := 2;
     Tft.touchCalMaxX := 3; Tft.touchCalMaxY := 4 |}.

Lemma settings_load_after_save_witness :
  Lvgl.mountable (Lvgl.mkSpiffs true None) = true /\
  0 <= Tft.nSensors tftTen <= 10 /\
  length (Tft.sensorNames tftTen) = 10%nat /\
  length (Tft.sensorNames Tft.settings0) = 10%nat /\
  Lvgl.load_settings (Lvgl.save_settings lvglTen (Lvgl.mkSpiffs true None)) lvglTen
  = Lvgl.defaultSettings /\
  Tft.interval (Tft.loadSettings (Tft.saveSettings tftTen ∅) Tft.settings0) = 10.
Proof.
  assert (H1 : Lvgl.mountable (Lvgl.mkSpiffs true None) = true) by reflexivity.
  assert (H2 : 0 <= Tft.nSensors tftTen <= 10) by (simpl; lia).
  assert (H3 : length (Tft.sensorNames tftTen) = 10%nat) by reflexivity.
  assert (H4 : length (Tft.sensorNames Tft.settings0) = 10%nat) by reflexivity.
  pose proof (settings_load_after_save lvglTen lvglTen (Lvgl.mkSpiffs true None) []
                tftTen Tft.settings0 ∅ H1 H2 H3 H4) as (Ha & _ & Hb & _).
  split; [exact H1|]. split; [exact H2|]. split; [exact H3|]. split; [exact H4|].
  split; [exact Ha|].
  cbv zeta in Hb. destruct Hb as (_ & _ & _ & _ & Hi & _). exact Hi.
Defined.

(** C5, refuted as stated: in the LVGL sketch, settings with an interval
    of 10 s are saved and then loaded; the loaded interval is the default
    of 60 s, and the loaded value differs from the saved one. *)
Lemma settings_load_forgets_saved_value :
  let fs := Lvgl.save_settings lvglTen (Lvgl.mkSpiffs true None) in
  Lvgl.sInterval lvglTen = 10 /\
  Lvgl.sInterval (Lvgl.load_settings fs lvglTen) = 60 /\
  Lvgl.load_settings fs lvglTen <> lvglTen.
Proof.
  intros fs. split; [reflexivity|]. split; [reflexivity|].
  intros Heq. apply (f_equal Lvgl.sInterval) in Heq. discriminate Heq.
Qed.

(** ** Text of the log: numbers *)

Section Digits.
Import Arduino.

Lemma digitChar_spec d :
  0 <= d <= 9 -> isdigit (digitChar d) = true /\ digitVal (digitChar d) = d.
Proof.
  intros Hd.
  assert (Hc : d = 0 \/ d = 1 \/ d = 2 \/ d = 3 \/ d = 4 \/ d = 5 \/ d = 6 \/ d = 7 \/
               d = 8 \/ d = 9) by lia.
  repeat (destruct Hc as [->|Hc]); try subst d; split; reflexivity.
Qed.

Lemma isdigit_not_space c : isdigit c = true -> isspace c = false.
Proof.
  unfold isdigit, isspace. cbv zeta. intros H.
  apply andb_true_iff in H as [H1 H2]. apply N.leb_le in H1. apply N.leb_le in H2.
  apply orb_false_iff. split.
  - apply N.eqb_neq. lia.
  - apply andb_false_iff. right. apply N.leb_gt. lia.
Qed.

Lemma ascii_eqb_eq a b : ascii_eqb a b = true <-> a = b.
Proof.
  unfold ascii_eqb. rewrite N.eqb_eq. split; [|now intros ->].
  intros H. rewrite <- (ascii_N_embedding a), <- (ascii_N_embedding b). now rewrite H.
Qed.

Lemma isdigit_neq c ch : isdigit c = true -> isdigit ch = false -> ascii_eqb c ch = false.
Proof.
  intros Hc Hch. destruct (ascii_eqb c ch) eqn:E; [|reflexivity].
  apply ascii_eqb_eq in E. subst. congruence.
Qed.

(** The value of a string of digits read after the value [a]. *)
Definition digitsValue (a : Z) (ds : Str) : Z :=
  foldl (fun a c => 10 * a + digitVal c) a ds.

Lemma scanDigits_app ds rest a m :
  Forall (fun c => isdigit c = true) ds ->
  scanDigits (ds ++ rest) a m = scanDigits rest (digitsValue a ds) (m + length ds).
Proof.
  intros H. revert a m. induction H as [|c ds Hc _ IH]; intros a m.
  - simpl. now rewrite Nat.add_0_r.
  - simpl. rewrite Hc, IH. f_equal. lia.
Qed.

Lemma scanDigits_stop rest a m :
  match rest with c :: _ => isdigit c = false | [] => True end ->
  scanDigits rest a m = (a, m, rest).
Proof. destruct rest as [|c rest]; [reflexivity|]. simpl. now intros ->. Qed.

Lemma printNumber_loop_spec fuel n acc :
  0 <= n < 2 ^ (Z.of_nat fuel + 1) ->
  exists ds,
    printNumber_loop fuel n acc = ds ++ acc /\
    Forall (fun c => isdigit c = true) ds /\
    (0 < length ds <= fuel + 1)%nat /\
    forall a, digitsValue a ds = a * 10 ^ Z.of_nat (length ds) + n.
Proof.
  revert n acc. induction fuel as [|fuel IH]; intros n acc Hn.
  - simpl in Hn. exists [digitChar (n `mod` 10)].
    assert (Hd : n `mod` 10 = n) by (apply Z.mod_small; lia).
    destruct (digitChar_spec (n `mod` 10)) as [H1 H2]; [lia|].
    simpl. repeat split; [now constructor|lia|lia|].
    intros a. unfold digitsValue. simpl. rewrite H2. lia.
  - cbn [printNumber_loop].
    pose proof (Z.mod_pos_bound n 10 ltac:(lia)) as Hm.
    destruct (digitChar_spec (n `mod` 10)) as [H1 H2]; [lia|].
    destruct (Z.eqb_spec (n / 10) 0) as [Hz|Hz].
    + exists [digitChar (n `mod` 10)].
      simpl. repeat split; [now constructor|lia|lia|].
      intros a. unfold digitsValue. simpl. rewrite H2.
      pose proof (Z.div_mod n 10 ltac:(lia)). lia.
    + assert (Hn' : 0 <= n / 10 < 2 ^ (Z.of_nat fuel + 1)).
      { split; [apply Z.div_pos; lia|].
        apply Z.div_lt_upper_bound; [lia|].
        replace (Z.of_nat (S fuel) + 1) with (Z.succ (Z.of_nat fuel + 1)) in Hn by lia.
        rewrite Z.pow_succ_r in Hn by lia. lia. }
      destruct (IH (n / 10) (digitChar (n `mod` 10) :: acc) Hn')
        as (ds & Heq & Hall & Hlen & Hval).
      exists (ds ++ [digitChar (n `mod` 10)]).
      rewrite Heq, <- app_assoc. split; [reflexivity|].
      split; [apply Forall_app; split; [assumption|now constructor]|].
      rewrite length_app. simpl length. split; [lia|].
      intros a. unfold digitsValue in *. rewrite foldl_app. simpl. rewrite Hval, H2.
      replace (Z.of_nat (length ds + 1)) with (Z.succ (Z.of_nat (length ds))) by lia.
      rewrite Z.pow_succ_r by lia.
      pose proof (Z.div_mod n 10 ltac:(lia)). lia.
Qed.

Lemma printNumber_spec n :
  0 <= n ->
  Forall (fun c => isdigit c = true) (printNumber n) /\
  (0 < length (printNumber n) <= Z.to_nat (Z.log2 n) + 1)%nat /\
  digitsValue 0 (printNumber n) = n.
Proof.
  intros Hn. unfold printNumber.
  destruct (printNumber_loop_spec (Z.to_nat (Z.log2 n)) n []) as (ds & Heq & Hall & Hlen & Hval).
  { split; [assumption|]. rewrite Z2Nat.id by apply Z.log2_nonneg.
    destruct (Z.eq_dec n 0) as [->|]; [reflexivity|].
    apply Z.log2_spec. lia. }
  rewrite Heq, app_nil_r. repeat split; try assumption; try lia.
  rewrite Hval. lia.
Qed.

(** [%d] reads back what [print] wrote, up to the next character that is
    not a digit. *)
Lemma scanDigits_printNumber n rest :
  0 <= n ->
  match rest with c :: _ => isdigit c = false | [] => True end ->
  exists k, scanDigits (printNumber n ++ rest) 0 O = (n, S k, rest).
Proof.
  intros Hn Hrest. destruct (printNumber_spec n Hn) as (Hall & Hlen & Hval).
  rewrite scanDigits_app by assumption. rewrite Hval.
  rewrite scanDigits_stop by assumption.
  destruct (length (printNumber n)) as [|k]; [lia|]. exists k. reflexivity.
Qed.

Lemma printNumber_head n :
  0 <= n -> exists c s, printNumber n = c :: s /\ isdigit c = true.
Proof.
  intros Hn. destruct (printNumber_spec n Hn) as (Hall & Hlen & _).
  destruct (printNumber n) as [|c s]; [simpl in Hlen; lia|].
  exists c, s. split; [reflexivity|]. now inversion Hall.
Qed.

Lemma skip_space_nonspace c s : isspace c = false -> skip_space (c :: s) = c :: s.
Proof. intros H. simpl. now rewrite H. Qed.

Lemma tolower_small c : (N_of_ascii c < 65)%N -> tolower c = c.
Proof.
  unfold tolower. cbv zeta. intros H.
  destruct (N.leb_spec 65 (N_of_ascii c)); [lia|reflexivity].
Qed.

Lemma isdigit_not_x c : isdigit c = true -> ascii_eqb (tolower c) "x" = false.
Proof.
  intros H. unfold isdigit in H. cbv zeta in H.
  apply andb_true_iff in H as [H1 H2]. apply N.leb_le in H1. apply N.leb_le in H2.
  rewrite tolower_small by lia. unfold ascii_eqb. apply N.eqb_neq.
  change (N_of_ascii "x") with 120%N. lia.
Qed.

(** A number that starts with decimal digits followed by anything but an
    [x] has no hexadecimal prefix. *)
Lemma hexPrefix_digits ds c rest :
  Forall (fun c => isdigit c = true) ds -> ds <> [] ->
  ascii_eqb (tolower c) "x" = false -> hexPrefix (ds ++ c :: rest) = None.
Proof.
  intros H Hne Hc. destruct ds as [|c1 ds]; [now destruct Hne|].
  destruct ds as [|c2 ds]; cbn [app hexPrefix].
  - now rewrite Hc, andb_false_r.
  - inversion H as [|? ? _ H2]. inversion H2 as [|? ? Hc2 _].
    now rewrite (isdigit_not_x c2 Hc2), andb_false_r.
Qed.

Lemma scanSign_digit c s : isdigit c = true -> scanSign (c :: s) = (false, c :: s).
Proof.
  intros Hc. cbn [scanSign].
  now rewrite (isdigit_neq c "-" Hc eq_refl), (isdigit_neq c "+" Hc eq_refl).
Qed.

(** [toFloat] on a text made of an optional minus and a decimal number
    without exponent. *)
Lemma toFloat_plain (neg : bool) (c : ascii) (s : Str) (m : Q) (rest : Str) :
  isdigit c = true ->
  hexPrefix (c :: s) = None ->
  scanMantissa scanDigits 10 (c :: s) = Some (m, rest) ->
  scanExponent "e" rest = 0 ->
  toFloat ((if neg then lit "-" else []) ++ c :: s) = Q2Qc (if neg then - m else m).
Proof.
  intros Hc Hhex Hm He. unfold toFloat.
  assert (Hsign : scanSign (skip_space ((if neg then lit "-" else []) ++ c :: s))
                  = (neg, c :: s)).
  { destruct neg.
    - change (lit "-" ++ c :: s) with ("-"%char :: c :: s).
      rewrite skip_space_nonspace by reflexivity. reflexivity.
    - rewrite app_nil_l, skip_space_nonspace by now apply isdigit_not_space.
      now apply scanSign_digit. }
  rewrite Hsign, Hhex, Hm, He. apply Qc_is_canon. simpl this.
  rewrite !Qred_correct. destruct neg; change (Qpower (10 # 1) 0) with 1%Q; ring.
Qed.

End Digits.

(** ** Text of the log: readings *)

(** A reading with at most two decimals, inside the range that
    [Print::printFloat] prints. *)
Definition twoDecimals (x : float) : bool :=
  let q := Qred (this x * (100 # 1)) in
  (Qden q =? 1)%positive && (Z.abs (Qnum q) <=? 429496704000).

Section Readings.
Import Arduino.

Lemma twoDecimals_spec x :
  twoDecimals x = true ->
  exists k, Z.abs k <= 429496704000 /\ (this x == k # 100)%Q.
Proof.
  unfold twoDecimals. cbv zeta. intros H. apply andb_true_iff in H as [Hd Hn].
  apply Pos.eqb_eq in Hd. apply Z.leb_le in Hn.
  exists (Qnum (Qred (this x * (100 # 1)))). split; [exact Hn|].
  pose proof (Qred_correct (this x * (100 # 1))) as Hq.
  destruct (Qred (this x * (100 # 1))) as [n d]. simpl in *. subst d.
  destruct (this x) as [a b]. unfold Qeq, Qmult in *. simpl in *. lia.
Qed.

Lemma printFraction_comp d (r1 r2 : Q) :
  (r1 == r2)%Q -> printFraction d r1 = printFraction d r2.
Proof.
  revert r1 r2. induction d as [|d IH]; intros r1 r2 H; [reflexivity|].
  cbn [printFraction]. cbv zeta.
  assert (E : Qfloor (r1 * 10) = Qfloor (r2 * 10)) by (apply Qfloor_comp; now rewrite H).
  rewrite E. f_equal. apply IH. now rewrite H.
Qed.

Lemma printFraction_two (rem : Q) (r : Z) :
  0 <= r < 100 -> (rem == (2 * r + 1) # 200)%Q ->
  printFraction 2 rem = [digitChar (r / 10); digitChar (r `mod` 10)].
Proof.
  intros Hr Hrem. rewrite (printFraction_comp 2 _ _ Hrem).
  pose proof (Z.div_mod r 10 ltac:(lia)) as Hdm.
  pose proof (Z.mod_pos_bound r 10 ltac:(lia)) as Hm.
  assert (Hq : 0 <= r / 10 < 10)
    by (split; [apply Z.div_pos; lia|apply Z.div_lt_upper_bound; lia]).
  cbn [printFraction]. cbv zeta.
  assert (E1 : Qfloor (((2 * r + 1) # 200) * 10) = r / 10).
  { unfold Qfloor, Qmult. simpl Qnum. simpl Qden.
    symmetry. apply (Z.div_unique _ _ _ (20 * (r `mod` 10) + 10)); lia. }
  rewrite E1. f_equal.
  assert (E2 : Qfloor ((((2 * r + 1) # 200) * 10 - inject_Z (r / 10)) * 10) = r `mod` 10).
  { rewrite (Qfloor_comp _ ((2 * (r `mod` 10) + 1) # 2)).
    - unfold Qfloor. symmetry. apply (Z.div_unique _ _ _ 1); lia.
    - unfold Qeq, Qmult, Qminus, Qplus, Qopp, inject_Z. simpl Qnum. simpl Qden. lia. }
  rewrite E2. reflexivity.
Qed.

(** The text of a reading of [k] hundredths. *)
Definition hundredthsText (k : Z) : Str :=
  (if k <? 0 then lit "-" else []) ++ printNumber (Z.abs k / 100) ++ lit "." ++
  [digitChar (Z.abs k `mod` 100 / 10); digitChar ((Z.abs k `mod` 100) `mod` 10)].

Lemma printDouble_hundredths (x : float) (k : Z) :
  Z.abs k <= 429496704000 -> (this x == k # 100)%Q ->
  printDouble x = hundredthsText k.
Proof.
  intros Hk Hx. unfold printDouble, printFloat, hundredthsText. cbv zeta.
  destruct (Qlt_le_dec (4294967040 # 1) (this x)) as [H|_].
  { rewrite Hx in H. unfold Qlt in H. simpl in H. lia. }
  destruct (Qlt_le_dec (this x) (- 4294967040 # 1)) as [H|_].
  { rewrite Hx in H. unfold Qlt in H. simpl in H. lia. }
  change ((1 # 2) / inject_Z (10 ^ Z.of_nat 2))%Q with (1 # 200)%Q.
  pose proof (Z.div_mod (Z.abs k) 100 ltac:(lia)) as Hdm.
  pose proof (Z.mod_pos_bound (Z.abs k) 100 ltac:(lia)) as Hm.
  assert (Habs : ((if (if Qlt_le_dec (this x) 0 then true else false)
                   then (- this x)%Q else this x) == Z.abs k # 100)%Q).
  { destruct (Qlt_le_dec (this x) 0) as [H|H]; rewrite Hx in *;
      unfold Qlt, Qle, Qeq, Qopp in *; simpl in *; lia. }
  assert (Hsign : (if Qlt_le_dec (this x) 0 then true else false) = (k <? 0)).
  { destruct (Qlt_le_dec (this x) 0) as [H|H]; rewrite Hx in H;
      unfold Qlt, Qle in H; simpl in H; symmetry;
      [apply Z.ltb_lt|apply Z.ltb_ge]; lia. }
  set (ax := if (if Qlt_le_dec (this x) 0 then true else false)
             then (- this x)%Q else this x) in *.
  rewrite Hsign.
  assert (Hsum : (ax + (1 # 200) == (2 * Z.abs k + 1) # 200)%Q).
  { rewrite Habs. unfold Qeq, Qplus. simpl Qnum. simpl Qden. lia. }
  assert (Hfl : Qfloor (ax + (1 # 200)) = Z.abs k / 100).
  { rewrite (Qfloor_comp _ _ Hsum). unfold Qfloor.
    symmetry. apply (Z.div_unique _ _ _ (2 * (Z.abs k `mod` 100) + 1)); lia. }
  rewrite Hfl. do 2 f_equal.
  change (lit "." ++ ?l) with ("."%char :: l). f_equal.
  apply printFraction_two; [lia|].
  rewrite Hsum. unfold Qeq, Qminus, Qplus, Qopp, inject_Z. simpl Qnum. simpl Qden. lia.
Qed.

Lemma toFloat_hundredths (x : float) (k : Z) :
  Z.abs k <= 429496704000 -> (this x == k # 100)%Q ->
  toFloat (hundredthsText k) = x.
Proof.
  intros Hk Hx.
  pose proof (Z.div_mod (Z.abs k) 100 ltac:(lia)) as Hdm.
  pose proof (Z.mod_pos_bound (Z.abs k) 100 ltac:(lia)) as Hm.
  set (r := Z.abs k `mod` 100) in *.
  pose proof (Z.div_mod r 10 ltac:(lia)) as Hdm'.
  pose proof (Z.mod_pos_bound r 10 ltac:(lia)) as Hm'.
  assert (Hq : 0 <= r / 10 < 10)
    by (split; [apply Z.div_pos; lia|apply Z.div_lt_upper_bound; lia]).
  destruct (digitChar_spec (r / 10) ltac:(lia)) as [Ha1 Ha2].
  destruct (digitChar_spec (r `mod` 10) ltac:(lia)) as [Hb1 Hb2].
  assert (Hn : 0 <= Z.abs k / 100) by (apply Z.div_pos; lia).
  destruct (scanDigits_printNumber (Z.abs k / 100)
              ("."%char :: [digitChar (r / 10); digitChar (r `mod` 10)]) Hn eq_refl)
    as [n Hscan].
  destruct (printNumber_head _ Hn) as (c & s & Hhead & Hc).
  assert (Hfrac : scanDigits [digitChar (r / 10); digitChar (r `mod` 10)] 0 O
                  = (r, 2%nat, [])).
  { simpl. rewrite Ha1, Hb1, Ha2, Hb2. repeat f_equal. lia. }
  assert (Hval : (inject_Z (Z.abs k / 100) + inject_Z r / inject_Z (10 ^ Z.of_nat 2)
                  == Z.abs k # 100)%Q).
  { change (inject_Z (10 ^ Z.of_nat 2)) with (100 # 1)%Q.
    unfold Qeq, Qplus, Qdiv, Qmult, Qinv, inject_Z. simpl Qnum. simpl Qden. lia. }
  assert (Hman : scanMantissa scanDigits 10
                 (printNumber (Z.abs k / 100) ++
                  "."%char :: [digitChar (r / 10); digitChar (r `mod` 10)])
               = Some ((inject_Z (Z.abs k / 100)
                        + inject_Z r / inject_Z (10 ^ Z.of_nat 2))%Q, [])).
  { unfold scanMantissa. rewrite Hscan.
    change (ascii_eqb "." ".") with true. cbv iota. now rewrite Hfrac. }
  assert (Hhex : hexPrefix (printNumber (Z.abs k / 100) ++
                            "."%char :: [digitChar (r / 10); digitChar (r `mod` 10)])
                 = None).
  { destruct (printNumber_spec (Z.abs k / 100) Hn) as (Hall & _ & _).
    apply hexPrefix_digits; [exact Hall| |reflexivity].
    rewrite Hhead. discriminate. }
  unfold hundredthsText. fold r.
  change (lit "." ++ ?l) with ("."%char :: l).
  rewrite Hhead in Hman, Hhex |- *. cbn [app] in Hman, Hhex.
  replace ((if k <? 0 then lit "-" else []) ++
           (c :: s) ++ "."%char :: [digitChar (r / 10); digitChar (r `mod` 10)])
    with ((if k <? 0 then lit "-" else []) ++
          c :: s ++ "."%char :: [digitChar (r / 10); digitChar (r `mod` 10)])
    by reflexivity.
  rewrite (toFloat_plain (k <? 0) c _ _ [] Hc Hhex Hman eq_refl).
  apply Qc_is_canon. simpl this. rewrite Qred_correct.
  destruct (Z.ltb_spec k 0) as [Hneg|Hpos]; rewrite Hval, Hx;
    unfold Qeq, Qopp; simpl; lia.
Qed.

(** A printed reading with two decimals reads back as itself. *)
Lemma toFloat_printDouble (x : float) :
  twoDecimals x = true -> toFloat (printDouble x) = x.
Proof.
  intros H. destruct (twoDecimals_spec x H) as (k & Hk & Hx).
  rewrite (printDouble_hundredths x k Hk Hx). now apply toFloat_hundredths.
Qed.

End Readings.

(** ** Text of the log: timestamps *)

Section Calendar.
Import Arduino Libc.

(** Year of the era, day of the year, month (1..12) and day of the month
    of day [eraday] of a 400-year era that starts on 1 March. *)
Definition eraFields (eraday : Z) : Z * Z * Z * Z :=
  let erayear := (eraday - eraday / 1460 + eraday / 36524 - eraday / 146096) / 365 in
  let yearday := eraday - (365 * erayear + erayear / 4 - erayear / 100) in
  let month := (5 * yearday + 2) / 153 in
  let day := yearday - (153 * month + 2) / 5 + 1 in
  let month := if month <? 10 then month + 3 else month - 9 in
  (erayear, yearday, month, day).

(** What [days_from_civil] needs of these fields to invert them. *)
Definition eraCheck (eraday : Z) : bool :=
  let '(erayear, yearday, m, d) := eraFields eraday in
  (0 <=? erayear) && (erayear <=? 399) &&
  ((153 * (if 2 <? m then m - 3 else m + 9) + 2) / 5 + d - 1 =? yearday) &&
  (erayear * 365 + erayear / 4 - erayear / 100 + yearday =? eraday) &&
  (1 <=? m) && (m <=? 12) && (1 <=? d) && (d <=? 31).

(** The check on [n] consecutive days of the era, from day [z] on. *)
Fixpoint eraCheckFrom (n : nat) (z : Z) : bool :=
  match n with
  | O => true
  | S n' => eraCheck z && eraCheckFrom n' (z + 1)
  end.

Lemma eraCheckFrom_spec n z :
  eraCheckFrom n z = true ->
  forall k, z <= k < z + Z.of_nat n -> eraCheck k = true.
Proof.
  revert z. induction n as [|n IH]; intros z H k Hk; [lia|].
  simpl in H. apply andb_true_iff in H as [H1 H2].
  destruct (Z.eq_dec k z) as [->|Hne]; [exact H1|].
  apply (IH (z + 1) H2). lia.
Qed.

Lemma eraCheck_all : eraCheckFrom (Z.to_nat 146097) 0 = true.
Proof. vm_compute. reflexivity. Qed.

Lemma civil_from_days_era z :
  civil_from_days z =
  let era := (z + 719468) / 146097 in
  let '(erayear, yearday, m, d) := eraFields (z + 719468 - era * 146097) in
  (erayear + era * 400 + (if m <=? 2 then 1 else 0), m, d).
Proof. reflexivity. Qed.

Lemma civil_round_trip z :
  let '(y, m, d) := civil_from_days z in
  days_from_civil y m d = z /\ 1 <= m <= 12 /\ 1 <= d <= 31 /\
  y = (z + 719468) / 146097 * 400 + (y - (z + 719468) / 146097 * 400) /\
  0 <= y - (z + 719468) / 146097 * 400 <= 400.
Proof.
  rewrite civil_from_days_era. cbv zeta.
  set (era := (z + 719468) / 146097).
  set (eraday := z + 719468 - era * 146097).
  assert (Hed : 0 <= eraday < 146097).
  { unfold eraday, era. pose proof (Z.div_mod (z + 719468) 146097 ltac:(lia)).
    pose proof (Z.mod_pos_bound (z + 719468) 146097 ltac:(lia)). lia. }
  pose proof (eraCheckFrom_spec _ _ eraCheck_all eraday ltac:(lia)) as Hall.
  unfold eraCheck in Hall.
  destruct (eraFields eraday) as [[[erayear yearday] m] d].
  rewrite !andb_true_iff in Hall.
  destruct Hall as (((((((H1 & H2) & H3) & H4) & H5) & H6) & H7) & H8).
  apply Z.leb_le in H1, H2, H5, H6, H7, H8. apply Z.eqb_eq in H3, H4.
  split; [|repeat split; try lia; destruct (m <=? 2); lia].
  unfold days_from_civil. cbv zeta.
  assert (Hy : (if m <=? 2
                then erayear + era * 400 + (if m <=? 2 then 1 else 0) - 1
                else erayear + era * 400 + (if m <=? 2 then 1 else 0))
               = erayear + era * 400) by (destruct (m <=? 2); lia).
  rewrite Hy.
  assert (He : (erayear + era * 400) / 400 = era)
    by (rewrite Z.div_add by lia; rewrite Z.div_small by lia; lia).
  rewrite He.
  replace (erayear + era * 400 - era * 400) with erayear by lia.
  rewrite <- Z.add_sub_assoc in H3. unfold eraday in *. lia.
Qed.

Lemma mktime_localtime t : mktime (localtime t) = t.
Proof.
  unfold localtime. pose proof (civil_round_trip (t / 86400)) as H.
  destruct (civil_from_days (t / 86400)) as [[y m] d].
  destruct H as (Hd & Hm & _).
  unfold mktime. cbn [tm_year tm_mon tm_mday tm_hour tm_min tm_sec].
  replace (y - 1900 + 1900 + (m - 1) / 12) with y
    by (rewrite (Z.div_small (m - 1) 12) by lia; lia).
  replace ((m - 1) `mod` 12 + 1) with m by (rewrite Z.mod_small by lia; lia).
  rewrite Hd.
  pose proof (Z.div_mod t 86400 ltac:(lia)).
  pose proof (Z.mod_pos_bound t 86400 ltac:(lia)).
  set (r := t `mod` 86400) in *.
  pose proof (Z.div_mod r 3600 ltac:(lia)).
  pose proof (Z.div_mod (r `mod` 3600) 60 ltac:(lia)).
  assert (Hs : r `mod` 60 = (r `mod` 3600) `mod` 60).
  { rewrite (Z.mod_eq r 3600) by lia.
    replace (r - 3600 * (r / 3600)) with (r + (- 60 * (r / 3600)) * 60) by lia.
    now rewrite Z_mod_plus_full. }
  lia.
Qed.

(** The fields of [localtime t] as [strftime] prints them. *)
Lemma localtime_fields t :
  0 <= t < 253402300800 ->
  let tmv := localtime t in
  0 <= tm_year tmv + 1900 <= 10000 /\
  1 <= tm_mon tmv + 1 <= 12 /\ 1 <= tm_mday tmv <= 31 /\
  0 <= tm_hour tmv <= 23 /\ 0 <= tm_min tmv <= 59 /\ 0 <= tm_sec tmv <= 59.
Proof.
  intros Ht. unfold localtime. pose proof (civil_round_trip (t / 86400)) as H.
  destruct (civil_from_days (t / 86400)) as [[y m] d].
  destruct H as (_ & Hm & Hd & Hy & Hy').
  cbn [tm_year tm_mon tm_mday tm_hour tm_min tm_sec].
  assert (Hdays : 0 <= t / 86400 < 2932897)
    by (split; [apply Z.div_pos; lia|apply Z.div_lt_upper_bound; lia]).
  assert (Hera : 4 <= (t / 86400 + 719468) / 146097 <= 24).
  { split; [apply Z.div_le_lower_bound; lia|].
    apply Z.lt_succ_r. apply Z.div_lt_upper_bound; lia. }
  pose proof (Z.mod_pos_bound t 86400 ltac:(lia)) as Hr.
  set (r := t `mod` 86400) in *.
  pose proof (Z.mod_pos_bound r 3600 ltac:(lia)).
  pose proof (Z.mod_pos_bound r 60 ltac:(lia)).
  assert (0 <= r / 3600 <= 23)
    by (split; [apply Z.div_pos; lia|apply Z.lt_succ_r, Z.div_lt_upper_bound; lia]).
  assert (0 <= r `mod` 3600 / 60 <= 59)
    by (split; [apply Z.div_pos; lia|apply Z.lt_succ_r, Z.div_lt_upper_bound; lia]).
  lia.
Qed.

Lemma scanInt_printNumber n rest :
  0 <= n ->
  match rest with c :: _ => isdigit c = false | [] => True end ->
  scanInt (printNumber n ++ rest) = Some (n, rest).
Proof.
  intros Hn Hrest. destruct (scanDigits_printNumber n rest Hn Hrest) as [k Hscan].
  destruct (printNumber_head n Hn) as (c & s & Hhead & Hc).
  unfold scanInt. rewrite Hhead in *. simpl app in *.
  rewrite skip_space_nonspace by now apply isdigit_not_space.
  rewrite (isdigit_neq c "-" Hc eq_refl), (isdigit_neq c "+" Hc eq_refl).
  now rewrite Hscan.
Qed.

Lemma scanInt_pad2 v rest :
  0 <= v <= 99 ->
  match rest with c :: _ => isdigit c = false | [] => True end ->
  scanInt (pad2 v ++ rest) = Some (v, rest).
Proof.
  intros Hv Hrest.
  pose proof (Z.div_mod v 10 ltac:(lia)).
  pose proof (Z.mod_pos_bound v 10 ltac:(lia)).
  assert (Hq : 0 <= v / 10 <= 9)
    by (split; [apply Z.div_pos; lia|apply Z.lt_succ_r, Z.div_lt_upper_bound; lia]).
  destruct (digitChar_spec (v / 10) Hq) as [Ha1 Ha2].
  destruct (digitChar_spec (v `mod` 10) ltac:(lia)) as [Hb1 Hb2].
  unfold scanInt, pad2. simpl app.
  rewrite skip_space_nonspace by now apply isdigit_not_space.
  rewrite (isdigit_neq _ "-" Ha1 eq_refl), (isdigit_neq _ "+" Ha1 eq_refl).
  simpl scanDigits. rewrite Ha1, Hb1, Ha2, Hb2.
  rewrite scanDigits_stop by assumption. repeat f_equal. lia.
Qed.

Lemma scanInt_blank s : scanInt (" "%char :: s) = scanInt s.
Proof. reflexivity. Qed.

(** [sscanf] reads back the six fields that [strftime] printed. *)
Lemma sscanf_strftime tmv :
  0 <= tm_year tmv + 1900 ->
  0 <= tm_mon tmv + 1 <= 99 -> 0 <= tm_mday tmv <= 99 ->
  0 <= tm_hour tmv <= 99 -> 0 <= tm_min tmv <= 99 -> 0 <= tm_sec tmv <= 99 ->
  sscanf_ymd_hms (strftime_ymd_hms tmv)
  = mkTm (tm_year tmv + 1900) (tm_mon tmv + 1) (tm_mday tmv)
         (tm_hour tmv) (tm_min tmv) (tm_sec tmv).
Proof.
  intros Hy Hm Hd Hh Hmi Hs. unfold strftime_ymd_hms, sscanf_ymd_hms, printInt.
  destruct (Z.ltb_spec (tm_year tmv + 1900) 0); [lia|].
  repeat match goal with
         | |- context [lit ?s ++ ?l] =>
             let c := eval vm_compute in (lit s) in
             match c with [?ch] => change (lit s ++ l) with (ch :: l) end
         end.
  rewrite scanInt_printNumber by (assumption || reflexivity).
  cbn [scanChar]. change (ascii_eqb "-" "-") with true. cbv iota.
  rewrite scanInt_pad2 by (assumption || reflexivity).
  cbn [scanChar]. change (ascii_eqb "-" "-") with true. cbv iota.
  rewrite scanInt_pad2 by (assumption || reflexivity).
  rewrite scanInt_blank.
  rewrite scanInt_pad2 by (assumption || reflexivity).
  cbn [scanChar]. change (ascii_eqb ":" ":") with true. cbv iota.
  rewrite scanInt_pad2 by (assumption || reflexivity).
  cbn [scanChar]. change (ascii_eqb ":" ":") with true. cbv iota.
  rewrite <- (app_nil_r (pad2 (tm_sec tmv))).
  rewrite scanInt_pad2 by (assumption || exact I).
  reflexivity.
Qed.

End Calendar.

(** ** Text of the log: lines *)

(** Fields separated by single commas, as [saveData] prints the readings. *)
Fixpoint commaJoin (fs : list Str) : Str :=
  match fs with
  | [] => []
  | [f] => f
  | f :: fs' => f ++ ","%char :: commaJoin fs'
  end.

Section Lines.
Import Arduino.

Definition lf : ascii := ascii_of_N 10.
Definition cr : ascii := ascii_of_N 13.

Lemma len_app (a b : Str) : len (a ++ b) = len a + len b.
Proof. unfold len. rewrite length_app. lia. Qed.

Lemma len_cons (c : ascii) (a : Str) : len (c :: a) = 1 + len a.
Proof. unfold len. simpl length. lia. Qed.

Lemma len_nonneg (a : Str) : 0 <= len a.
Proof. unfold len. lia. Qed.

Lemma readLines_line (l rest acc : Str) :
  Forall (fun c => ascii_eqb c lf = false) l ->
  readLines (l ++ lf :: rest) acc = (reverse acc ++ l) :: readLines rest [].
Proof.
  intros H. revert acc. induction H as [|c l Hc _ IH]; intros acc.
  - cbn [app readLines]. change (ascii_eqb lf (ascii_of_N 10)) with true.
    cbv iota. now rewrite app_nil_r.
  - cbn [app readLines]. fold lf. rewrite Hc, IH, reverse_cons, <- app_assoc. reflexivity.
Qed.

Lemma readLines_concat {A} (body : A -> Str) (ds : list A) :
  Forall (fun d => Forall (fun c => ascii_eqb c lf = false) (body d)) ds ->
  readLines (concat (map (fun d => body d ++ println) ds)) []
  = map (fun d => body d ++ [cr]) ds.
Proof.
  induction 1 as [|d ds Hd _ IH]; [reflexivity|].
  simpl concat. simpl map. unfold println at 1. fold cr lf.
  rewrite <- !app_assoc. simpl app.
  replace (body d ++ cr :: lf :: concat (map (fun d0 => body d0 ++ println) ds))
    with ((body d ++ [cr]) ++ lf :: concat (map (fun d0 => body d0 ++ println) ds))
    by (rewrite <- app_assoc; reflexivity).
  rewrite readLines_line, IH; [reflexivity|].
  apply Forall_app. split; [exact Hd|]. now constructor.
Qed.

Lemma trim_line (c l : ascii) (s1 s2 : Str) :
  isspace c = false -> isspace l = false ->
  c :: s1 = s2 ++ [l] ->
  trim ((c :: s1) ++ [cr]) = c :: s1.
Proof.
  intros Hc Hl Heq. unfold trim. simpl app.
  rewrite skip_space_nonspace by exact Hc.
  change (c :: s1 ++ [cr]) with ((c :: s1) ++ [cr]).
  rewrite reverse_app. simpl app. change (reverse [cr]) with [cr]. simpl app.
  cbn [skip_space]. change (isspace cr) with true. cbv iota.
  rewrite Heq, reverse_app. change (reverse [l]) with [l]. simpl app.
  rewrite skip_space_nonspace by exact Hl.
  rewrite reverse_cons, reverse_involutive. reflexivity.
Qed.

Lemma find_from_hit ch (l rest : Str) pos :
  Forall (fun c => ascii_eqb c ch = false) l ->
  find_from ch (l ++ ch :: rest) pos = pos + len l.
Proof.
  intros H. revert pos. induction H as [|c l Hc _ IH]; intros pos.
  - cbn [app find_from]. assert (E : ascii_eqb ch ch = true) by now apply ascii_eqb_eq.
    rewrite E. unfold len. simpl. lia.
  - cbn [app find_from]. rewrite Hc, IH. unfold len. simpl length. lia.
Qed.

Lemma find_from_miss ch (l : Str) pos :
  Forall (fun c => ascii_eqb c ch = false) l -> find_from ch l pos = -1.
Proof.
  intros H. revert pos. induction H as [|c l Hc _ IH]; intros pos; [reflexivity|].
  cbn [find_from]. now rewrite Hc, IH.
Qed.

Lemma to_unsigned_small z : 0 <= z < 4294967296 -> to_unsigned z = z.
Proof. intros H. unfold to_unsigned. now apply Z.mod_small. Qed.

Lemma drop_len_app (p s : Str) : drop (Z.to_nat (len p)) (p ++ s) = s.
Proof. unfold len. rewrite Nat2Z.id. now rewrite drop_app_length. Qed.

Lemma indexOfFrom_hit ch (p l rest : Str) :
  Forall (fun c => ascii_eqb c ch = false) l ->
  len (p ++ l ++ ch :: rest) < 4294967296 ->
  indexOfFrom ch (len p) (p ++ l ++ ch :: rest) = len p + len l.
Proof.
  intros Hl Hlen. unfold indexOfFrom. cbv zeta.
  rewrite !len_app in Hlen. pose proof (len_nonneg p). pose proof (len_nonneg l).
  assert (Hr : 0 < len (ch :: rest)) by (unfold len; simpl; lia).
  rewrite to_unsigned_small by lia.
  rewrite !len_app. destruct (Z.leb_spec (len p + (len l + len (ch :: rest))) (len p)); [lia|].
  rewrite drop_len_app. now apply find_from_hit.
Qed.

Lemma indexOfFrom_miss ch (p l : Str) :
  Forall (fun c => ascii_eqb c ch = false) l ->
  len (p ++ l) < 4294967296 ->
  indexOfFrom ch (len p) (p ++ l) = -1.
Proof.
  intros Hl Hlen. unfold indexOfFrom. cbv zeta.
  rewrite len_app in Hlen. pose proof (len_nonneg p). pose proof (len_nonneg l).
  rewrite to_unsigned_small by lia.
  destruct (Z.leb_spec (len (p ++ l)) (len p)); [reflexivity|].
  rewrite drop_len_app. now apply find_from_miss.
Qed.

Lemma substring_middle (p l rest : Str) :
  len (p ++ l ++ rest) < 4294967296 ->
  substring (len p) (len p + len l) (p ++ l ++ rest) = l.
Proof.
  intros Hlen. unfold substring. cbv zeta.
  rewrite !len_app in *. pose proof (len_nonneg p). pose proof (len_nonneg l).
  pose proof (len_nonneg rest).
  rewrite !to_unsigned_small by lia.
  destruct (Z.ltb_spec (len p + len l) (len p)); [lia|].
  destruct (Z.leb_spec (len p + (len l + len rest)) (len p)) as [Hle|Hgt].
  - assert (length l = 0)%nat by (unfold len in *; lia).
    destruct l; [reflexivity|discriminate].
  - destruct (Z.ltb_spec (len p + (len l + len rest)) (len p + len l)); [lia|].
    rewrite drop_len_app.
    replace (Z.to_nat (len p + len l - len p)) with (length l) by (unfold len; lia).
    now rewrite take_app_length.
Qed.

Lemma commaJoin_cons2 (f f2 : Str) (fs : list Str) :
  commaJoin (f :: f2 :: fs) = f ++ ","%char :: commaJoin (f2 :: fs).
Proof. reflexivity. Qed.

Lemma parseTemps_past fuel start (line : Str) :
  len line <= start -> Tft.parseTemps fuel start line = [].
Proof.
  intros H. destruct fuel as [|fuel]; [reflexivity|].
  simpl. destruct (Z.ltb_spec start (len line)); [lia|reflexivity].
Qed.

(** The inner loop of [loadData] splits the rest of a line at its commas
    and converts each field. *)
Lemma parseTemps_fields fuel (p : Str) (fs : list Str) :
  Forall (fun f => f <> [] /\ Forall (fun c => ascii_eqb c "," = false) f) fs ->
  len (p ++ commaJoin fs) < 4294967296 ->
  Tft.parseTemps fuel (len p) (p ++ commaJoin fs) = map toFloat (take fuel fs).
Proof.
  revert p fs. induction fuel as [|fuel IH]; intros p fs Hfs Hlen; [reflexivity|].
  destruct fs as [|f fs].
  - simpl commaJoin. rewrite app_nil_r. now apply parseTemps_past.
  - apply Forall_cons in Hfs as [[Hne Hf] Hfs].
    assert (Hlf : 0 < len f) by (destruct f; [congruence|unfold len; simpl; lia]).
    pose proof (len_nonneg p) as Hp.
    cbn [Tft.parseTemps take map].
    destruct fs as [|f2 fs].
    + change (commaJoin [f]) with f in *. rewrite len_app in *.
      destruct (Z.ltb_spec (len p) (len p + len f)); [|lia].
      rewrite indexOfFrom_miss by (assumption || (rewrite len_app; lia)).
      change (-1 =? -1) with true. cbv iota.
      pose proof (substring_middle p f []) as Hs. rewrite app_nil_r in Hs.
      rewrite Hs by (rewrite len_app; lia).
      rewrite parseTemps_past by (rewrite len_app; lia).
      now rewrite take_nil.
    + rewrite commaJoin_cons2 in *.
      assert (Hl2 : len (p ++ f ++ ","%char :: commaJoin (f2 :: fs))
                    = len p + len f + 1 + len (commaJoin (f2 :: fs))).
      { rewrite !len_app, len_cons. lia. }
      pose proof (len_nonneg (commaJoin (f2 :: fs))).
      destruct (Z.ltb_spec (len p) (len (p ++ f ++ ","%char :: commaJoin (f2 :: fs))));
        [|lia].
      rewrite indexOfFrom_hit by (assumption || lia).
      destruct (Z.eqb_spec (len p + len f) (-1)); [lia|].
      rewrite substring_middle by lia.
      f_equal.
      replace (len p + len f + 1) with (len (p ++ f ++ [","%char]))
        by (rewrite !len_app, len_cons; unfold len; simpl; lia).
      replace (p ++ f ++ ","%char :: commaJoin (f2 :: fs))
        with ((p ++ f ++ [","%char]) ++ commaJoin (f2 :: fs))
        by (rewrite <- !app_assoc; reflexivity).
      apply IH; [assumption|].
      rewrite !len_app, len_cons. unfold len at 3. simpl length. lia.
Qed.

Lemma concat_commaJoin (g : Z -> Str) (n : nat) (a : Z) :
  concat (map (fun i => g i ++ (if i <? a + Z.of_nat n - 1 then lit "," else []))
              (seqZ a (Z.of_nat n)))
  = commaJoin (map g (seqZ a (Z.of_nat n))).
Proof.
  revert a. induction n as [|n IH]; intros a; [reflexivity|].
  rewrite seqZ_cons by lia.
  replace (Z.pred (Z.of_nat (S n))) with (Z.of_nat n) by lia.
  cbn [map concat].
  replace (a + Z.of_nat (S n) - 1) with (Z.succ a + Z.of_nat n - 1) by lia.
  rewrite IH. destruct n as [|n].
  - simpl seqZ. simpl map. cbn [commaJoin].
    destruct (Z.ltb_spec a (Z.succ a + Z.of_nat 0 - 1)); [lia|].
    now rewrite !app_nil_r.
  - destruct (Z.ltb_spec a (Z.succ a + Z.of_nat (S n) - 1)); [|lia].
    rewrite (seqZ_cons (Z.succ a)) by lia. cbn [map].
    rewrite commaJoin_cons2, <- app_assoc. reflexivity.
Qed.

End Lines.

(** ** Text of the log: a record and its line *)

(** An input of [readSensors] whose record reads back exactly: a time in
    the years 1970 to 9999 and readings with two decimals. *)
Definition validInput (sc : Z) (inp : time_t * (Z -> float)) : bool :=
  (0 <=? inp.1) && (inp.1 <? 253402300800) &&
  forallb (fun i => twoDecimals (inp.2 i)) (seqZ 0 sc).

(** The line of an entry without its line end. *)
Definition recordText (sc : Z) (d : Tft.TempData) : Str :=
  Libc.strftime_ymd_hms (Libc.localtime (Tft.timestamp d)) ++ ","%char ::
  commaJoin (map (fun i => Arduino.printDouble (Tft.temperatureAt d i)) (seqZ 0 sc)).

Section Records.
Import Arduino Libc.

(** A character that is neither a comma nor a line feed. *)
Definition plain (c : ascii) : Prop :=
  ascii_eqb c "," = false /\ ascii_eqb c lf = false.

Lemma plain_digit c : isdigit c = true -> plain c.
Proof. intros H. split; now apply isdigit_neq. Qed.

Lemma plain_digits (s : Str) :
  Forall (fun c => isdigit c = true) s -> Forall plain s.
Proof. intros H. eapply Forall_impl; [exact H|]. intros c. apply plain_digit. Qed.

Lemma pad2_digits v : 0 <= v <= 99 -> Forall (fun c => isdigit c = true) (pad2 v).
Proof.
  intros Hv. pose proof (Z.mod_pos_bound v 10 ltac:(lia)).
  assert (Hq : 0 <= v / 10 <= 9)
    by (split; [apply Z.div_pos; lia|apply Z.lt_succ_r, Z.div_lt_upper_bound; lia]).
  unfold pad2. repeat constructor; apply digitChar_spec; lia.
Qed.

Lemma len_pad2 v : len (pad2 v) = 2.
Proof. reflexivity. Qed.

Lemma printNumber_len n m :
  0 <= n <= m -> 0 < len (printNumber n) <= Z.log2 m + 1.
Proof.
  intros Hn. destruct (printNumber_spec n ltac:(lia)) as (_ & Hlen & _).
  pose proof (Z.log2_le_mono n m ltac:(lia)). pose proof (Z.log2_nonneg n).
  unfold len. lia.
Qed.

Lemma hundredthsText_props k :
  Z.abs k <= 429496704000 ->
  Forall plain (hundredthsText k) /\ 0 < len (hundredthsText k) <= 36 /\
  exists s l, hundredthsText k = s ++ [l] /\ isspace l = false.
Proof.
  intros Hk. unfold hundredthsText.
  pose proof (Z.mod_pos_bound (Z.abs k) 100 ltac:(lia)) as Hm.
  set (r := Z.abs k `mod` 100) in *.
  pose proof (Z.mod_pos_bound r 10 ltac:(lia)).
  assert (Hq : 0 <= r / 10 <= 9)
    by (split; [apply Z.div_pos; lia|apply Z.lt_succ_r, Z.div_lt_upper_bound; lia]).
  assert (Hn : 0 <= Z.abs k / 100 <= 4294967040)
    by (split; [apply Z.div_pos; lia|apply Z.lt_succ_r, Z.div_lt_upper_bound; lia]).
  destruct (printNumber_spec (Z.abs k / 100) ltac:(lia)) as (Hd & _ & _).
  pose proof (printNumber_len _ _ Hn) as Hl.
  change (Z.log2 4294967040 + 1) with 32 in Hl.
  destruct (digitChar_spec (r / 10) Hq) as [Ha _].
  destruct (digitChar_spec (r `mod` 10) ltac:(lia)) as [Hb _].
  split; [|split].
  - apply Forall_app. split; [destruct (k <? 0); repeat constructor|].
    apply Forall_app. split; [now apply plain_digits|].
    repeat constructor; now apply plain_digit.
  - rewrite !len_app. change (len (lit ".")) with 1.
    change (len [digitChar (r / 10); digitChar (r `mod` 10)]) with 2.
    destruct (k <? 0); [change (len (lit "-")) with 1|change (len []) with 0]; lia.
  - exists ((if k <? 0 then lit "-" else []) ++ printNumber (Z.abs k / 100) ++ lit "." ++
            [digitChar (r / 10)]), (digitChar (r `mod` 10)).
    split; [now rewrite <- !app_assoc|now apply isdigit_not_space].
Qed.

Lemma timeText_props t :
  0 <= t < 253402300800 ->
  let s := strftime_ymd_hms (localtime t) in
  Forall plain s /\ 0 < len s <= 29 /\
  exists c s', s = c :: s' /\ isspace c = false.
Proof.
  intros Ht. cbv zeta. destruct (localtime_fields t Ht) as (Hy & Hm & Hd & Hh & Hmi & Hs).
  revert Hy Hm Hd Hh Hmi Hs. generalize (localtime t) as tmv. cbv zeta.
  intros tmv Hy Hm Hd Hh Hmi Hs.
  unfold strftime_ymd_hms, printInt.
  destruct (Z.ltb_spec (tm_year tmv + 1900) 0); [lia|].
  destruct (printNumber_spec (tm_year tmv + 1900) ltac:(lia)) as (Hdig & _ & _).
  pose proof (printNumber_len _ 10000 Hy) as Hl.
  change (Z.log2 10000 + 1) with 14 in Hl.
  destruct (printNumber_head (tm_year tmv + 1900) ltac:(lia))
    as (c & s' & Hhead & Hc).
  split; [|split].
  - repeat (apply Forall_app; split);
      try (apply plain_digits; (assumption || (apply pad2_digits; lia)));
      repeat constructor.
  - rewrite !len_app, !len_pad2.
    change (len (lit "-")) with 1. change (len (lit " ")) with 1.
    change (len (lit ":")) with 1. lia.
  - rewrite Hhead. eexists _, _. split; [reflexivity|now apply isdigit_not_space].
Qed.

Lemma validInput_spec sc inp :
  validInput sc inp = true ->
  0 <= inp.1 < 253402300800 /\
  forall i, 0 <= i < sc -> twoDecimals (inp.2 i) = true.
Proof.
  unfold validInput. rewrite !andb_true_iff, forallb_forall.
  intros [[H1 H2] H3]. split; [lia|].
  intros i Hi. apply H3, list_elem_of_In, elem_of_seqZ. lia.
Qed.

Lemma newData_temperatureAt sc now g i :
  0 <= sc <= 10 -> 0 <= i < sc ->
  Tft.temperatureAt (Tft.newData sc now g) i = g i.
Proof.
  intros Hsc Hi. unfold Tft.temperatureAt, Tft.newData. cbn [Tft.temperatures].
  rewrite Z.min_l by lia.
  rewrite list_lookup_fmap, lookup_seqZ_lt by lia. simpl. f_equal. lia.
Qed.

Lemma saveLine_recordText sc d :
  0 <= sc -> Tft.saveLine sc d = recordText sc d ++ println.
Proof.
  intros Hsc. unfold Tft.saveLine, recordText.
  pose proof (concat_commaJoin (fun i => printDouble (Tft.temperatureAt d i))
                (Z.to_nat sc) 0) as H.
  rewrite Z2Nat.id, Z.add_0_l in H by lia. rewrite H.
  rewrite <- !app_assoc. reflexivity.
Qed.

Lemma commaJoin_len (fs : list Str) (b : Z) :
  Forall (fun f => len f <= b) fs -> 0 <= b ->
  0 <= len (commaJoin fs) <= Z.of_nat (length fs) * (b + 1).
Proof.
  intros H Hb. induction H as [|f fs Hf Hfs IH]; [unfold len; simpl; lia|].
  destruct fs as [|f2 fs].
  - change (commaJoin [f]) with f. pose proof (len_nonneg f). simpl length. lia.
  - rewrite commaJoin_cons2, len_app, len_cons.
    pose proof (len_nonneg f). simpl length in *. lia.
Qed.

(** The fields of a valid record: their text and what it reads back to. *)
Lemma record_fields sc now g :
  0 <= sc <= 10 -> validInput sc (now, g) = true ->
  let d := Tft.newData sc now g in
  let fs := map (fun i => printDouble (Tft.temperatureAt d i)) (seqZ 0 sc) in
  Forall (fun f => f <> [] /\ Forall (fun c => ascii_eqb c "," = false) f) fs /\
  Forall (fun f => Forall plain f /\ len f <= 36 /\
                   exists s l, f = s ++ [l] /\ isspace l = false) fs /\
  map toFloat fs = Tft.temperatures d /\ length fs = Z.to_nat sc.
Proof.
  intros Hsc Hv. cbv zeta. apply validInput_spec in Hv as [_ Hv]. simpl in Hv.
  assert (Hf : forall i, 0 <= i < sc ->
            let f := printDouble (Tft.temperatureAt (Tft.newData sc now g) i) in
            Forall plain f /\ 0 < len f <= 36 /\
            (exists s l, f = s ++ [l] /\ isspace l = false) /\ toFloat f = g i).
  { intros i Hi. cbv zeta. rewrite newData_temperatureAt by assumption.
    destruct (twoDecimals_spec (g i) (Hv i Hi)) as (k & Hk & Hx).
    rewrite (printDouble_hundredths (g i) k Hk Hx).
    destruct (hundredthsText_props k Hk) as (P1 & P2 & P3).
    repeat split; try assumption; try lia. now apply toFloat_hundredths. }
  split; [|split; [|split]].
  - apply Forall_fmap, Forall_forall. intros i Hi. apply elem_of_seqZ in Hi.
    destruct (Hf i ltac:(lia)) as (P1 & P2 & _). simpl. split.
    + intros E. rewrite E in P2. unfold len in P2. simpl in P2. lia.
    + eapply Forall_impl; [exact P1|]. now intros c [Hc _].
  - apply Forall_fmap, Forall_forall. intros i Hi. apply elem_of_seqZ in Hi.
    destruct (Hf i ltac:(lia)) as (P1 & P2 & P3 & _). simpl.
    split; [assumption|]. split; [lia|assumption].
  - unfold Tft.newData at 2. cbn [Tft.temperatures]. rewrite Z.min_l by lia.
    rewrite <- list_fmap_compose. apply list_fmap_ext.
    intros k i Hi. apply lookup_seqZ in Hi as [-> Hk]. simpl.
    apply (Hf (0 + Z.of_nat k)). lia.
  - rewrite length_map, length_seqZ. reflexivity.
Qed.

End Records.

(** ** Writing the log and replaying it *)

Section Replay.
Import Arduino Libc.

Lemma commaJoin_no_lf (fs : list Str) :
  Forall (fun f => Forall plain f) fs ->
  Forall (fun c => ascii_eqb c lf = false) (commaJoin fs).
Proof.
  induction 1 as [|f fs Hf Hfs IH]; [constructor|].
  assert (Hf' : Forall (fun c => ascii_eqb c lf = false) f)
    by (eapply Forall_impl; [exact Hf|]; now intros c [_ Hc]).
  destruct fs as [|f2 fs]; [exact Hf'|].
  rewrite commaJoin_cons2. apply Forall_app. split; [exact Hf'|].
  constructor; [reflexivity|exact IH].
Qed.

Lemma commaJoin_last (fs : list Str) :
  fs <> [] ->
  Forall (fun f => exists s l, f = s ++ [l] /\ isspace l = false) fs ->
  exists s l, commaJoin fs = s ++ [l] /\ isspace l = false.
Proof.
  intros Hne H. revert Hne. induction H as [|f fs Hf Hfs IH]; intros Hne;
    [exfalso; now apply Hne|].
  destruct fs as [|f2 fs]; [exact Hf|].
  destruct (IH ltac:(discriminate)) as (s & l & Hs & Hl).
  exists (f ++ ","%char :: s), l. split; [|exact Hl].
  rewrite commaJoin_cons2.
  transitivity (f ++ ","%char :: (s ++ [l])); [now rewrite <- Hs|].
  now rewrite <- app_assoc.
Qed.

Lemma indexOf_hit ch (l rest : Str) :
  Forall (fun c => ascii_eqb c ch = false) l ->
  len (l ++ ch :: rest) < 4294967296 ->
  indexOf ch (l ++ ch :: rest) = len l.
Proof. intros Hl Hlen. exact (indexOfFrom_hit ch [] l rest Hl Hlen). Qed.

Lemma substring_prefix (l rest : Str) :
  len (l ++ rest) < 4294967296 -> substring 0 (len l) (l ++ rest) = l.
Proof. intros Hlen. exact (substring_middle [] l rest Hlen). Qed.

Lemma parseTemps_after (l : Str) (fs : list Str) :
  Forall (fun f => f <> [] /\ Forall (fun c => ascii_eqb c "," = false) f) fs ->
  len (l ++ ","%char :: commaJoin fs) < 4294967296 ->
  Tft.parseTemps 10 (len l + 1) (l ++ ","%char :: commaJoin fs)
  = map toFloat (take 10 fs).
Proof.
  intros Hfs Hlen.
  replace (len l + 1) with (len (l ++ [","%char])) by (rewrite len_app; reflexivity).
  replace (l ++ ","%char :: commaJoin fs) with ((l ++ [","%char]) ++ commaJoin fs) in *
    by (rewrite <- app_assoc; reflexivity).
  now apply parseTemps_fields.
Qed.

(** The line of a valid record survives the reading of the file, the
    trimming, and the parsing. *)
Lemma record_line sc now g :
  0 <= sc <= 10 -> validInput sc (now, g) = true ->
  let d := Tft.newData sc now g in
  let body := recordText sc d in
  Forall (fun c => ascii_eqb c lf = false) body /\
  trim (body ++ [cr]) = body /\
  (len body =? 0) = false /\
  Tft.parseLine body = d.
Proof.
  intros Hsc Hv. cbv zeta.
  destruct (record_fields sc now g Hsc Hv) as (F1 & F2 & F3 & F4). cbv zeta in *.
  pose proof (validInput_spec _ _ Hv) as [Hnow _]. cbn [fst] in Hnow.
  destruct (timeText_props now Hnow) as (T1 & T2 & (c & s' & T3 & T4)). cbv zeta in *.
  change (recordText sc (Tft.newData sc now g))
    with (strftime_ymd_hms (localtime now) ++ ","%char ::
          commaJoin (map (fun i => printDouble (Tft.temperatureAt (Tft.newData sc now g) i))
                         (seqZ 0 sc))).
  set (ts := strftime_ymd_hms (localtime now)) in *.
  set (fs := map (fun i => printDouble (Tft.temperatureAt (Tft.newData sc now g) i))
                 (seqZ 0 sc)) in *.
  assert (Hfl : 0 <= len (commaJoin fs) <= Z.of_nat (length fs) * 37).
  { apply (commaJoin_len fs 36); [|lia].
    eapply Forall_impl; [exact F2|]. now intros f (_ & Hf & _). }
  rewrite F4 in Hfl.
  assert (Hlen : len (ts ++ ","%char :: commaJoin fs) < 4294967296)
    by (rewrite len_app, len_cons; lia).
  assert (Tc : Forall (fun c => ascii_eqb c "," = false) ts)
    by (eapply Forall_impl; [exact T1|]; now intros x [Hx _]).
  split; [|split; [|split]].
  - apply Forall_app. split.
    + eapply Forall_impl; [exact T1|]. now intros x [_ Hx].
    + constructor; [reflexivity|]. apply commaJoin_no_lf.
      eapply Forall_impl; [exact F2|]. now intros f (Hf & _).
  - rewrite T3. rewrite <- app_comm_cons.
    assert (Hlast : exists s2 l, c :: s' ++ ","%char :: commaJoin fs = s2 ++ [l]
                                 /\ isspace l = false).
    { destruct fs as [|f fs'] eqn:Efs.
      - exists (c :: s'), ","%char. split; reflexivity.
      - destruct (commaJoin_last (f :: fs') ltac:(discriminate)) as (s & l & Hs & Hl).
        { eapply Forall_impl; [exact F2|]. now intros x (_ & _ & Hx). }
        exists (c :: s' ++ ","%char :: s), l. rewrite Hs. split; [|exact Hl].
        rewrite <- !app_comm_cons, <- app_assoc. reflexivity. }
    destruct Hlast as (s2 & l & Hs2 & Hl).
    apply (trim_line c l _ s2 T4 Hl Hs2).
  - rewrite len_app, len_cons. apply Z.eqb_neq. lia.
  - unfold Tft.parseLine. cbv zeta.
    rewrite (indexOf_hit "," ts (commaJoin fs) Tc Hlen).
    rewrite (substring_prefix ts (","%char :: commaJoin fs) Hlen).
    rewrite (parseTemps_after ts fs F1 Hlen).
    destruct (localtime_fields now Hnow) as (Hy & Hm & Hd & Hh & Hmi & Hs).
    cbv zeta in *.
    unfold ts at 1 2 3 4 5 6. rewrite sscanf_strftime by lia.
    cbn [tm_year tm_mon tm_mday tm_hour tm_min tm_sec].
    replace (mkTm (tm_year (localtime now) + 1900 - 1900) (tm_mon (localtime now) + 1 - 1)
                  (tm_mday (localtime now)) (tm_hour (localtime now))
                  (tm_min (localtime now)) (tm_sec (localtime now)))
      with (localtime now)
      by (destruct (localtime now); cbn [tm_year tm_mon tm_mday tm_hour tm_min tm_sec];
          f_equal; lia).
    rewrite mktime_localtime.
    rewrite take_ge by lia. rewrite F3. reflexivity.
Qed.

Lemma records_of_log sc inputs :
  0 <= sc <= 10 -> forallb (validInput sc) inputs = true ->
  map Tft.parseLine (records (concat (map (Tft.saveLine sc) (samplesOf sc inputs))))
  = samplesOf sc inputs.
Proof.
  intros Hsc Hv. rewrite forallb_forall in Hv.
  assert (Hrec : Forall (fun d =>
            let body := recordText sc d in
            Forall (fun c => ascii_eqb c lf = false) body /\
            trim (body ++ [cr]) = body /\ (len body =? 0) = false /\
            Tft.parseLine body = d) (samplesOf sc inputs)).
  { apply Forall_fmap, Forall_forall. intros [now g] Hin. cbn [fst snd].
    apply record_line; [exact Hsc|]. apply Hv. now apply list_elem_of_In. }
  rewrite (map_ext (Tft.saveLine sc) (fun d => recordText sc d ++ println))
    by (intros d; apply saveLine_recordText; lia).
  unfold records. rewrite readLines_concat
    by (eapply Forall_impl; [exact Hrec|]; now intros d (H & _)).
  induction Hrec as [|d ds (_ & H2 & H3 & H4) _ IH]; [reflexivity|].
  cbn [map List.filter]. rewrite H2, H3. cbn [negb map]. now rewrite H4, IH.
Qed.

Lemma latest_addToBuffer r l x :
  tracks r l -> Tft.latest (Tft.addToBuffer x r) = x.
Proof. intros Htr. apply (tracks_latest _ l). now apply tracks_addToBuffer. Qed.

Lemma readSensors_spiffs now g st l :
  tracks (Tft.ring st) l -> Tft.mounted (Tft.spiffs st) = true ->
  Tft.spiffs (Tft.readSensors now g st)
  = Tft.mkSpiffs true
      (Some (default [] (Tft.temp_data_txt (Tft.spiffs st)) ++
             Tft.saveLine (Tft.sensorCount st) (Tft.newData (Tft.sensorCount st) now g))).
Proof.
  intros Htr Hm. unfold Tft.readSensors, Tft.saveData.
  cbn [Tft.spiffs Tft.ring Tft.sensorCount]. rewrite Hm. cbn [Tft.spiffs].
  now rewrite (latest_addToBuffer _ l).
Qed.

Lemma runSensors_cons inp inputs st :
  runSensors (inp :: inputs) st = runSensors inputs (Tft.readSensors inp.1 inp.2 st).
Proof. reflexivity. Qed.

Lemma runSensors_nil st : runSensors [] st = st.
Proof. reflexivity. Qed.

Lemma samplesOf_cons sc inp inputs :
  samplesOf sc (inp :: inputs) = Tft.newData sc inp.1 inp.2 :: samplesOf sc inputs.
Proof. reflexivity. Qed.

(** The file after a series of calls of [readSensors] that starts with
    the file present. *)
Lemma runSensors_file inputs st l old :
  tracks (Tft.ring st) l -> Tft.spiffs st = Tft.mkSpiffs true (Some old) ->
  Tft.spiffs (runSensors inputs st)
  = Tft.mkSpiffs true
      (Some (old ++ concat (map (Tft.saveLine (Tft.sensorCount st))
                                (samplesOf (Tft.sensorCount st) inputs)))).
Proof.
  revert st l old. induction inputs as [|inp inputs IH]; intros st l old Htr Hsp.
  - rewrite runSensors_nil, Hsp. unfold samplesOf. cbn [map concat].
    rewrite app_nil_r. reflexivity.
  - rewrite runSensors_cons, samplesOf_cons.
    assert (Hm : Tft.mounted (Tft.spiffs st) = true) by (rewrite Hsp; reflexivity).
    pose proof (readSensors_spiffs inp.1 inp.2 st l Htr Hm) as Hsp1.
    rewrite Hsp in Hsp1.
    assert (Htr' : tracks (Tft.ring (Tft.readSensors inp.1 inp.2 st))
                          (l ++ [Tft.newData (Tft.sensorCount st) inp.1 inp.2]))
      by (rewrite readSensors_ring; now apply tracks_addToBuffer).
    rewrite (IH _ _ _ Htr' Hsp1), readSensors_sensorCount.
    rewrite map_cons, concat_cons, <- app_assoc. reflexivity.
Qed.

End Replay.

(** C3 (as the code has it).  For every series of N calls of
    [readSensors] with at most ten sensors, timestamps in the years 1970
    to 9999 and readings that have at most two decimals, starting without
    a log file, [loadData] after a restart yields the first min(N, C)
    samples written, in order and equal field by field: all of them while
    N <= C = 1000, only the oldest C beyond that. *)
Theorem log_replay_round_trip
  (sc : Z) (inputs : list (time_t * (Z -> float)))
  (Hsc : 0 <= sc <= 10)
  (Hv : forallb (validInput sc) inputs = true) :
  let st := runSensors inputs (Tft.mkSketch sc Tft.ring0 (Tft.mkSpiffs true None)) in
  let rebooted := Tft.loadData (Tft.mkSketch sc Tft.ring0 (Tft.spiffs st)) in
  reverse (Tft.visitOrder (Tft.ring rebooted))
  = take (Z.to_nat Tft.DATA_BUFFER_SIZE) (samplesOf sc inputs).
Proof.
  cbv zeta. destruct inputs as [|inp inputs].
  - rewrite runSensors_nil. reflexivity.
  - rewrite runSensors_cons.
    pose proof (readSensors_spiffs inp.1 inp.2
                  (Tft.mkSketch sc Tft.ring0 (Tft.mkSpiffs true None)) []
                  tracks_ring0 eq_refl) as Hsp1.
    cbn [Tft.spiffs Tft.temp_data_txt Tft.sensorCount default from_option] in Hsp1.
    rewrite app_nil_l in Hsp1.
    assert (Htr1 : tracks (Tft.ring (Tft.readSensors inp.1 inp.2
                     (Tft.mkSketch sc Tft.ring0 (Tft.mkSpiffs true None))))
                     ([] ++ [Tft.newData sc inp.1 inp.2])).
    { rewrite readSensors_ring. apply tracks_addToBuffer, tracks_ring0. }
    rewrite (runSensors_file inputs _ _ _ Htr1 Hsp1), readSensors_sensorCount.
    cbn [Tft.sensorCount].
    rewrite <- concat_cons, <- map_cons, <- samplesOf_cons.
    destruct (loadData_retained sc
                (concat (map (Tft.saveLine sc) (samplesOf sc (inp :: inputs)))))
      as [_ Hret].
    rewrite records_of_log in Hret by assumption. exact Hret.
Qed.

(** Two samples of two sensors, the second with both sensors
    disconnected. *)
Definition replayInputs : list (time_t * (Z -> float)) :=
  [(1730600000, fun i => Q2Qc (2150 + i # 100));
   (1730600060, fun _ => DEVICE_DISCONNECTED_C)].

Lemma log_replay_round_trip_witness :
  0 <= 2 <= 10 /\ forallb (validInput 2) replayInputs = true /\
  let st := runSensors replayInputs (Tft.mkSketch 2 Tft.ring0 (Tft.mkSpiffs true None)) in
  let rebooted := Tft.loadData (Tft.mkSketch 2 Tft.ring0 (Tft.spiffs st)) in
  reverse (Tft.visitOrder (Tft.ring rebooted))
  = take (Z.to_nat Tft.DATA_BUFFER_SIZE) (samplesOf 2 replayInputs).
Proof.
  assert (H1 : 0 <= 2 <= 10) by lia.
  assert (H2 : forallb (validInput 2) replayInputs = true) by (vm_compute; reflexivity).
  split; [exact H1|]. split; [exact H2|].
  exact (log_replay_round_trip 2 replayInputs H1 H2).
Defined.

(** 1001 samples, one per second, and one sample whose reading is
    21.0625 degrees, a value the sensor delivers. *)
Definition longInputs : list (time_t * (Z -> float)) :=
  map (fun k => (k, fun _ : Z => Q2Qc 0)) (seqZ 1 1001).
Definition fineInput : list (time_t * (Z -> float)) :=
  [(1730600000, fun _ : Z => Q2Qc (337 # 16))].

(** C3, refuted as stated.  Above the cap: 1001 samples are written and
    the replay returns 1000 of them.  Below the cap: a reading of 21.0625
    is written as 21.06 and read back as 1053/50. *)
Lemma log_replay_loses_samples_and_digits :
  let replay := fun inputs =>
    reverse (Tft.visitOrder (Tft.ring (Tft.loadData (Tft.mkSketch 1 Tft.ring0
      (Tft.spiffs (runSensors inputs
                     (Tft.mkSketch 1 Tft.ring0 (Tft.mkSpiffs true None)))))))) in
  (length (samplesOf 1 longInputs) = 1001%nat /\
   length (replay longInputs) = 1000%nat /\
   replay longInputs <> samplesOf 1 longInputs) /\
  (map (fun d => map this (Tft.temperatures d)) (samplesOf 1 fineInput) = [[337 # 16]] /\
   map (fun d => map this (Tft.temperatures d)) (replay fineInput) = [[1053 # 50]] /\
   replay fineInput <> samplesOf 1 fineInput).
Proof.
  intros replay.
  assert (L1 : length (samplesOf 1 longInputs) = 1001%nat) by (vm_compute; reflexivity).
  assert (L2 : length (replay longInputs) = 1000%nat) by (vm_compute; reflexivity).
  assert (F1 : map (fun d => map this (Tft.temperatures d)) (samplesOf 1 fineInput)
               = [[337 # 16]]) by (vm_compute; reflexivity).
  assert (F2 : map (fun d => map this (Tft.temperatures d)) (replay fineInput)
               = [[1053 # 50]]) by (vm_compute; reflexivity).
  split; split; try assumption; split; try assumption.
  - intros Heq. rewrite Heq, L1 in L2. discriminate L2.
  - intros Heq. rewrite Heq, F1 in F2. discriminate F2.
Qed.
From Stdlib Require Import Lqa.

(** * The TFT sketch: battery, screens, touch and WiFi *)

(** Conversion of a floating-point value to [int]: the fraction is
    discarded (C++ [conv.fpint]).  The values converted below stay inside
    the range of [int]. *)
Definition c_int (x : float) : Z :=
  if Qlt_le_dec (this x) 0 then Qceiling (this x) else Qfloor (this x).

Module TftPanel.

Definition TFT_WIDTH : Z := 320.
Definition TFT_HEIGHT : Z := 480.

(** *** Battery *)

(** The globals [batteryVoltage] and [batteryPercentage]. *)
Record Battery := mkBattery {
  batteryVoltage : float;
  batteryPercentage : Z
}.

(** [updateBattery], given the value [analogRead(BATTERY_ADC_PIN)]
    returns. *)
Definition updateBattery (raw : Z) : Battery :=
  let voltage := (Q2Qc (inject_Z raw) / Q2Qc (4095 # 1) * Q2Qc (33 # 10) * Q2Qc (2 # 1))%Qc in
  let p := c_int ((voltage - Q2Qc (3 # 1)) / (Q2Qc (42 # 10) - Q2Qc (3 # 1)) * Q2Qc (100 # 1))%Qc in
  let p := if 100 <? p then 100 else p in
  let p := if p <? 0 then 0 else p in
  {| batteryVoltage := voltage; batteryPercentage := p |}.

(** The battery bar of [drawMainScreen]: the width of the filled
    rectangle inside the 30-pixel outline, and whether it is green. *)
Definition batteryBar (b : Battery) : Z * bool :=
  ((30 * batteryPercentage b) `quot` 100, 20 <? batteryPercentage b).

(** *** Main screen *)

(** The values [drawMainScreen] hands to [drawFloat], one per sensor
    shown: [0.0] while the buffer is empty, else the reading of the
    latest entry. *)
Definition mainReadings (sensorCount : Z) (r : Tft.Ring) : list float :=
  map (fun i => if 0 <? Tft.dataBufferCount r
                then Tft.temperatureAt (Tft.latest r) i else Q2Qc 0)
      (seqZ 0 (Z.min sensorCount 5)).

(** *** Chart *)

Inductive TimeRange := ONE_HOUR | SIX_HOURS | TWENTY_FOUR_HOURS.

(** The value of an enumerator, and the cast [(TimeRange)n] for [n] in
    0..2. *)
Definition rangeValue (t : TimeRange) : Z :=
  match t with ONE_HOUR => 0 | SIX_HOURS => 1 | TWENTY_FOUR_HOURS => 2 end.
Definition toTimeRange (n : Z) : TimeRange :=
  if n =? 0 then ONE_HOUR else if n =? 1 then SIX_HOURS else TWENTY_FOUR_HOURS.

(** [startTime] as the first [switch] of [drawChartScreen] sets it. *)
Definition chartStart (t : TimeRange) (now : time_t) : time_t :=
  match t with
  | ONE_HOUR => now - 3600
  | SIX_HOURS => now - 6 * 3600
  | TWENTY_FOUR_HOURS => now - 24 * 3600
  end.

Definition chartX : Z := 10.
Definition chartY : Z := 40.
Definition chartWidth : Z := TFT_WIDTH - 20.
Definition chartHeight : Z := TFT_HEIGHT - 120.

(** "Calculate position on chart". *)
Definition pointX (startTime now ts : time_t) : Z :=
  chartX + chartWidth - ((now - ts) * chartWidth) `quot` (now - startTime).
Definition pointY (axis : float * float) (temp : float) : Z :=
  c_int (Q2Qc (inject_Z (chartY + chartHeight))
         - ((temp - fst axis) * Q2Qc (inject_Z chartHeight)) / (snd axis - fst axis))%Qc.

(** A call of [drawLine]: [(prevX, prevY, x, y)]. *)
Definition Segment : Type := Z * Z * Z * Z.

(** The locals [prevTime], [prevTemp] and the lines drawn so far, latest
    first. *)
Definition LineState : Type := time_t * float * list Segment.

(** One entry of the time range in the loop "Draw temperature line" of
    sensor [s]. *)
Definition lineStep (axis : float * float) (startTime now : time_t) (s : Z)
  (st : LineState) (d : Tft.TempData) : LineState :=
  let '(prevTime, prevTemp, drawn) := st in
  let temp := Tft.temperatureAt d s in
  if bool_decide (temp <> DEVICE_DISCONNECTED_C) then
    let x := pointX startTime now (Tft.timestamp d) in
    let y := pointY axis temp in
    let drawn := if prevTime =? 0 then drawn
                 else (pointX startTime now prevTime, pointY axis prevTemp, x, y) :: drawn in
    (Tft.timestamp d, temp, drawn)
  else (0, prevTemp, drawn).

(** The lines [drawChartScreen] draws for sensor [s], in drawing order. *)
Definition chartLine (sensorCount : Z) (r : Tft.Ring) (t : TimeRange) (now : time_t) (s : Z)
  : list Segment :=
  let startTime := chartStart t now in
  let axis := Tft.chartAxis (Tft.chartMinMax sensorCount r startTime now) in
  reverse (snd (foldl (lineStep axis startTime now s) (0, Q2Qc 0, [])
                      (Tft.chartWindow r startTime now))).

(** The lines of all sensors drawn: [s < sensorCount && s < 8]. *)
Definition chartLines (sensorCount : Z) (r : Tft.Ring) (t : TimeRange) (now : time_t)
  : list (list Segment) :=
  map (chartLine sensorCount r t now) (seqZ 0 (Z.min sensorCount 8)).

(** *** Touch *)

Inductive ScreenState := MAIN_SCREEN | CHART_SCREEN | TABLE_SCREEN | SETTINGS_SCREEN.

(** The globals [handleTouch] and [changeSetting] work on.  [config]
    gathers the configuration globals, [wifiStarted] is the state in
    which the calls [WiFi.begin()] and [WiFi.disconnect()] leave the
    radio, [preferences] the contents of the namespace [temp_logger]. *)
Record Ui := mkUi {
  currentScreen : ScreenState;
  currentTimeRange : TimeRange;
  config : Tft.Settings;
  table : Tft.TableUi;
  settingsPage : Z;
  selectedSensor : Z;
  lastTouchTime : Z;
  wifiStarted : bool;
  preferences : gmap string Tft.PrefValue
}.

Definition setScreen (v : ScreenState) (u : Ui) : Ui :=
  mkUi v (currentTimeRange u) (config u) (table u) (settingsPage u) (selectedSensor u)
       (lastTouchTime u) (wifiStarted u) (preferences u).
Definition setTimeRange (v : TimeRange) (u : Ui) : Ui :=
  mkUi (currentScreen u) v (config u) (table u) (settingsPage u) (selectedSensor u)
       (lastTouchTime u) (wifiStarted u) (preferences u).
Definition setConfig (v : Tft.Settings) (u : Ui) : Ui :=
  mkUi (currentScreen u) (currentTimeRange u) v (table u) (settingsPage u) (selectedSensor u)
       (lastTouchTime u) (wifiStarted u) (preferences u).
Definition setTable (v : Tft.TableUi) (u : Ui) : Ui :=
  mkUi (currentScreen u) (currentTimeRange u) (config u) v (settingsPage u) (selectedSensor u)
       (lastTouchTime u) (wifiStarted u) (preferences u).
Definition setSettingsPage (v : Z) (u : Ui) : Ui :=
  mkUi (currentScreen u) (currentTimeRange u) (config u) (table u) v (selectedSensor u)
       (lastTouchTime u) (wifiStarted u) (preferences u).
Definition setSelectedSensor (v : Z) (u : Ui) : Ui :=
  mkUi (currentScreen u) (currentTimeRange u) (config u) (table u) (settingsPage u) v
       (lastTouchTime u) (wifiStarted u) (preferences u).
Definition setLastTouchTime (v : Z) (u : Ui) : Ui :=
  mkUi (currentScreen u) (currentTimeRange u) (config u) (table u) (settingsPage u)
       (selectedSensor u) v (wifiStarted u) (preferences u).
Definition setWifiStarted (v : bool) (u : Ui) : Ui :=
  mkUi (currentScreen u) (currentTimeRange u) (config u) (table u) (settingsPage u)
       (selectedSensor u) (lastTouchTime u) v (preferences u).
Definition setPreferences (v : gmap string Tft.PrefValue) (u : Ui) : Ui :=
  mkUi (currentScreen u) (currentTimeRange u) (config u) (table u) (settingsPage u)
       (selectedSensor u) (lastTouchTime u) (wifiStarted u) v.

Definition setWifiEnabled (v : bool) (c : Tft.Settings) : Tft.Settings :=
  Tft.mkSettings v (Tft.bluetoothEnabled c) (Tft.ssid c) (Tft.password c) (Tft.nSensors c)
    (Tft.sensorNames c) (Tft.interval c) (Tft.deepSleep c)
    (Tft.touchCalMinX c) (Tft.touchCalMinY c) (Tft.touchCalMaxX c) (Tft.touchCalMaxY c).
Definition setBluetoothEnabled (v : bool) (c : Tft.Settings) : Tft.Settings :=
  Tft.mkSettings (Tft.wifiEnabled c) v (Tft.ssid c) (Tft.password c) (Tft.nSensors c)
    (Tft.sensorNames c) (Tft.interval c) (Tft.deepSleep c)
    (Tft.touchCalMinX c) (Tft.touchCalMinY c) (Tft.touchCalMaxX c) (Tft.touchCalMaxY c).
Definition setSensorCount (v : Z) (c : Tft.Settings) : Tft.Settings :=
  Tft.mkSettings (Tft.wifiEnabled c) (Tft.bluetoothEnabled c) (Tft.ssid c) (Tft.password c) v
    (Tft.sensorNames c) (Tft.interval c) (Tft.deepSleep c)
    (Tft.touchCalMinX c) (Tft.touchCalMinY c) (Tft.touchCalMaxX c) (Tft.touchCalMaxY c).
Definition setSampleInterval (v : Z) (c : Tft.Settings) : Tft.Settings :=
  Tft.mkSettings (Tft.wifiEnabled c) (Tft.bluetoothEnabled c) (Tft.ssid c) (Tft.password c)
    (Tft.nSensors c) (Tft.sensorNames c) v (Tft.deepSleep c)
    (Tft.touchCalMinX c) (Tft.touchCalMinY c) (Tft.touchCalMaxX c) (Tft.touchCalMaxY c).
Definition setDeepSleepEnabled (v : bool) (c : Tft.Settings) : Tft.Settings :=
  Tft.mkSettings (Tft.wifiEnabled c) (Tft.bluetoothEnabled c) (Tft.ssid c) (Tft.password c)
    (Tft.nSensors c) (Tft.sensorNames c) (Tft.interval c) v
    (Tft.touchCalMinX c) (Tft.touchCalMinY c) (Tft.touchCalMaxX c) (Tft.touchCalMaxY c).

(** [wifiEnabled = !wifiEnabled;] followed by [WiFi.begin()] or
    [WiFi.disconnect()]. *)
Definition toggleWifi (u : Ui) : Ui :=
  let e := negb (Tft.wifiEnabled (config u)) in
  setWifiStarted e (setConfig (setWifiEnabled e (config u)) u).

(** The call [saveSettings()]. *)
Definition saveSettings (u : Ui) : Ui :=
  setPreferences (Tft.saveSettings (config u) (preferences u)) u.

(** [changeSetting]. *)
Definition changeSetting (setting value : Z) (u : Ui) : Ui :=
  let c := config u in
  let u :=
    if settingsPage u =? 0 then
      if setting =? 0 then toggleWifi u
      else if setting =? 1 then
        setConfig (setBluetoothEnabled (negb (Tft.bluetoothEnabled c)) c) u
      else if setting =? 2 then
        let i := Tft.interval c + value in
        let i := if i <? 10 then 10 else i in
        let i := if 600 <? i then 600 else i in
        setConfig (setSampleInterval i c) u
      else if setting =? 3 then
        setConfig (setDeepSleepEnabled (negb (Tft.deepSleep c)) c) u
      else u
    else if settingsPage u =? 2 then
      if setting =? 0 then
        let n := Tft.nSensors c + value in
        let n := if n <? 0 then 0 else n in
        let n := if 10 <? n then 10 else n in
        setConfig (setSensorCount n c) u
      else if setting =? 1 then
        let k := selectedSensor u + value in
        let k := if k <? 0 then 0 else k in
        let k := if Tft.nSensors c <=? k then Tft.nSensors c - 1 else k in
        setSelectedSensor k u
      else u
    else u in
  saveSettings u.

(** The [case SETTINGS_SCREEN] of [handleTouch]. *)
Definition touchSettings (x y : Z) (u : Ui) : Ui :=
  if (30 <? y) && (y <? 60) then
    if x <? TFT_WIDTH `quot` 4 then setSettingsPage 0 u
    else if x <? TFT_WIDTH `quot` 2 then setSettingsPage 1 u
    else if x <? (3 * TFT_WIDTH) `quot` 4 then setSettingsPage 2 u
    else setSettingsPage 3 u
  else if (100 <? x) && (x <? 220) && (TFT_HEIGHT - 30 <? y) then setScreen MAIN_SCREEN u
  else if settingsPage u =? 0 then
    if (220 <? x) && (x <? 280) && (65 <? y) && (y <? 90) then changeSetting 0 0 u
    else if (220 <? x) && (x <? 280) && (95 <? y) && (y <? 120) then changeSetting 1 0 u
    else if (220 <? x) && (x <? 240) && (125 <? y) && (y <? 150) then changeSetting 2 (-10) u
    else if (260 <? x) && (x <? 280) && (125 <? y) && (y <? 150) then changeSetting 2 10 u
    else if (220 <? x) && (x <? 280) && (155 <? y) && (y <? 180) then changeSetting 3 0 u
    else u
  else if settingsPage u =? 1 then
    if (220 <? x) && (x <? 280) && (65 <? y) && (y <? 90) then u
    else if (220 <? x) && (x <? 280) && (95 <? y) && (y <? 120) then u
    else if (220 <? x) && (x <? 280) && (125 <? y) && (y <? 150) then saveSettings (toggleWifi u)
    else u
  else if settingsPage u =? 2 then
    if (220 <? x) && (x <? 240) && (65 <? y) && (y <? 90) then changeSetting 0 (-1) u
    else if (260 <? x) && (x <? 280) && (65 <? y) && (y <? 90) then changeSetting 0 1 u
    else u
  else u.

(** [handleTouch]: [touch] is the point [tft.getTouch] reports, if any,
    and [millis] the clock. *)
Definition handleTouch (touch : option (Z * Z)) (millis : Z) (u : Ui) : Ui :=
  match touch with
  | None => u
  | Some (x, y) =>
      let u := setLastTouchTime millis u in
      match currentScreen u with
      | MAIN_SCREEN =>
          if (280 <? x) && (x <? 310) && (10 <? y) && (y <? 40) then toggleWifi u
          else if (240 <? x) && (x <? 270) && (10 <? y) && (y <? 40) then
            setConfig (setBluetoothEnabled (negb (Tft.bluetoothEnabled (config u))) (config u)) u
          else if (200 <? x) && (x <? 230) && (10 <? y) && (y <? 40) then
            setScreen SETTINGS_SCREEN u
          else if (20 <? x) && (x <? 100) && (TFT_HEIGHT - 60 <? y) then setScreen CHART_SCREEN u
          else if (120 <? x) && (x <? 200) && (TFT_HEIGHT - 60 <? y) then
            setTable (Tft.mkTableUi 0 (Tft.maxTableScroll (table u))) (setScreen TABLE_SCREEN u)
          else if (220 <? x) && (x <? 300) && (TFT_HEIGHT - 60 <? y) then
            setScreen SETTINGS_SCREEN u
          else u
      | CHART_SCREEN =>
          if (x <? 50) && (TFT_HEIGHT - 70 <? y) && (y <? TFT_HEIGHT - 40) then
            setTimeRange (toTimeRange ((rangeValue (currentTimeRange u) + 2) %% 3)) u
          else if (TFT_WIDTH - 90 <? x) && (TFT_HEIGHT - 70 <? y) && (y <? TFT_HEIGHT - 40) then
            setTimeRange (toTimeRange ((rangeValue (currentTimeRange u) + 1) %% 3)) u
          else if (100 <? x) && (x <? 220) && (TFT_HEIGHT - 30 <? y) then setScreen MAIN_SCREEN u
          else u
      | TABLE_SCREEN =>
          if (10 <? x) && (x <? 30) && (TFT_HEIGHT - 50 <? y) && (y <? TFT_HEIGHT - 30) then
            setTable (Tft.handleTableScroll (-1) (table u)) u
          else if (10 <? x) && (x <? 30) && (TFT_HEIGHT - 30 <? y) && (y <? TFT_HEIGHT - 10) then
            setTable (Tft.handleTableScroll 1 (table u)) u
          else if (100 <? x) && (x <? 220) && (TFT_HEIGHT - 30 <? y) then setScreen MAIN_SCREEN u
          else u
      | SETTINGS_SCREEN => touchSettings x y u
      end
  end.

(** [updateDisplay]: the screen is drawn, which on the table screen
    recomputes [maxTableScroll] from the buffer, then the touch is
    handled. *)
Definition updateDisplay (r : Tft.Ring) (touch : option (Z * Z)) (millis : Z) (u : Ui) : Ui :=
  let u := match currentScreen u with
           | TABLE_SCREEN => setTable (fst (Tft.drawTableScreen r (table u))) u
           | _ => u
           end in
  handleTouch touch millis u.

(** The initialisers of these globals; the radio is off at power-up. *)
Definition ui0 : Ui :=
  mkUi MAIN_SCREEN ONE_HOUR Tft.settings0 (Tft.mkTableUi 0 0) 0 0 0 false ∅.

(** *** WiFi *)

(** The polling loop of [connectToWiFi]:
    [while (WiFi.status() != WL_CONNECTED && attempts < 20)], where
    [connected k] tells whether the [k]-th call of [WiFi.status()]
    returns [WL_CONNECTED].  [fuel] is [20 - attempts]; the result is the
    final number of attempts. *)
Fixpoint connectLoop (connected : nat -> bool) (fuel attempts : nat) : nat :=
  match fuel with
  | O => attempts
  | S fuel' => if connected attempts then attempts
               else connectLoop connected fuel' (S attempts)
  end.

(** What [connectToWiFi] does: whether it calls [WiFi.begin], the time
    it spends in [delay(500)] and the outcome it reports. *)
Record Connect := mkConnect {
  began : bool;
  waited : Z;
  reported : option bool
}.

(** [connectToWiFi]. *)
Definition connectToWiFi (c : Tft.Settings) (connected : nat -> bool) : Connect :=
  if (0 <? Arduino.len (Tft.ssid c)) && (0 <? Arduino.len (Tft.password c)) then
    let attempts := connectLoop connected 20 0 in
    (* the loop has called [WiFi.status()] [attempts + 1] times; the test
       that follows it makes call number [attempts + 1] *)
    {| began := true;
       waited := 500 * Z.of_nat attempts;
       reported := Some (connected (S attempts)) |}
  else {| began := false; waited := 0; reported := None |}.

End TftPanel.

Section BatteryFacts.
Import TftPanel.

Lemma this_Q2Qc q : this (Q2Qc q) == q.
Proof. apply Qred_correct. Qed.

Lemma c_int_mono x y : (this x <= this y)%Q -> c_int x <= c_int y.
Proof.
  intros H. unfold c_int.
  destruct (Qlt_le_dec (this x) 0) as [Hx|Hx], (Qlt_le_dec (this y) 0) as [Hy|Hy].
  - now apply Qceiling_resp_le.
  - transitivity 0.
    + change 0 with (Qceiling 0). apply Qceiling_resp_le. lra.
    + change 0 with (Qfloor 0). now apply Qfloor_resp_le.
  - lra.
  - now apply Qfloor_resp_le.
Qed.

(** The truncation reaches the integer [k > 0] exactly when the value
    does. *)
Lemma c_int_ge x k : 0 < k -> (k <= c_int x <-> (inject_Z k <= this x)%Q).
Proof.
  intros Hk. unfold c_int.
  assert (Hk' : (0 < inject_Z k)%Q) by (change 0%Q with (inject_Z 0); rewrite <- Zlt_Qlt; lia).
  destruct (Qlt_le_dec (this x) 0) as [Hx|Hx].
  - split; intros H; [|lra].
    assert (Hc : Qceiling (this x) <= 0).
    { change 0 with (Qceiling 0). apply Qceiling_resp_le. lra. }
    lia.
  - split; intros H.
    + eapply Qle_trans; [|apply Qfloor_le]. now rewrite <- Zle_Qle.
    + rewrite <- (Qfloor_Z k). now apply Qfloor_resp_le.
Qed.

(** The value of the percentage before it is clamped, as a rational:
    [raw * 550 / 4095 - 250]. *)
Lemma updateBattery_value raw :
  this ((Q2Qc (inject_Z raw) / Q2Qc (4095 # 1) * Q2Qc (33 # 10) * Q2Qc (2 # 1)
         - Q2Qc (3 # 1)) / (Q2Qc (42 # 10) - Q2Qc (3 # 1)) * Q2Qc (100 # 1))%Qc
  == inject_Z raw * (550 # 4095) - 250.
Proof.
  unfold Qcdiv, Qcminus, Qcinv, Qcmult, Qcplus, Qcopp.
  rewrite !this_Q2Qc.
  repeat (rewrite this_Q2Qc || setoid_rewrite this_Q2Qc).
  field.
Qed.

Lemma updateBattery_reaches raw k :
  0 < k ->
  (k <= c_int ((Q2Qc (inject_Z raw) / Q2Qc (4095 # 1) * Q2Qc (33 # 10) * Q2Qc (2 # 1)
                - Q2Qc (3 # 1)) / (Q2Qc (42 # 10) - Q2Qc (3 # 1)) * Q2Qc (100 # 1))%Qc
   <-> (k + 250) * 4095 <= raw * 550).
Proof.
  intros Hk. rewrite c_int_ge by exact Hk. rewrite updateBattery_value.
  unfold Qle, Qminus, Qplus, Qmult, Qopp, inject_Z. simpl. lia.
Qed.

End BatteryFacts.

(** X1.  [updateBattery] maps every ADC value to a percentage between 0
    and 100 that does not decrease when the ADC value grows; it shows
    100 from the ADC value 2606 on (4.2 V) and 0 up to the ADC value 1868
    (just above 3.0 V), and the bar [drawMainScreen] fills for it is
    between 0 and 30 pixels wide. *)
Theorem battery_percentage_clamped_monotone
  (raw raw' : Z) (Hle : raw <= raw') :
  let p := TftPanel.batteryPercentage (TftPanel.updateBattery raw) in
  let p' := TftPanel.batteryPercentage (TftPanel.updateBattery raw') in
  0 <= p <= 100 /\ p <= p' /\
  (p = 100 <-> 2606 <= raw) /\ (p = 0 <-> raw <= 1868) /\
  0 <= fst (TftPanel.batteryBar (TftPanel.updateBattery raw)) <= 30.
Proof.
  cbv zeta. unfold TftPanel.batteryBar, TftPanel.updateBattery.
  cbn [TftPanel.batteryPercentage fst].
  pose proof (updateBattery_reaches raw 100 ltac:(lia)) as H100.
  pose proof (updateBattery_reaches raw 1 ltac:(lia)) as H1.
  assert (Hmono : c_int ((Q2Qc (inject_Z raw) / Q2Qc (4095 # 1) * Q2Qc (33 # 10)
                          * Q2Qc (2 # 1) - Q2Qc (3 # 1))
                         / (Q2Qc (42 # 10) - Q2Qc (3 # 1)) * Q2Qc (100 # 1))%Qc
                  <= c_int ((Q2Qc (inject_Z raw') / Q2Qc (4095 # 1) * Q2Qc (33 # 10)
                             * Q2Qc (2 # 1) - Q2Qc (3 # 1))
                            / (Q2Qc (42 # 10) - Q2Qc (3 # 1)) * Q2Qc (100 # 1))%Qc).
  { apply c_int_mono. rewrite !updateBattery_value.
    rewrite Zle_Qle in Hle. lra. }
  match type of Hmono with ?a <= ?b => set (v := a) in *; set (v' := b) in * end.
  clearbody v v'.
  assert (Hp : 0 <= (if (if 100 <? v then 100 else v) <? 0 then 0
                     else if 100 <? v then 100 else v) <= 100)
    by (repeat case_match; lia).
  split; [exact Hp|]. split; [repeat case_match; lia|].
  split; [repeat case_match; lia|]. split; [repeat case_match; lia|].
  rewrite Z.quot_div_nonneg by lia.
  split; [apply Z.div_pos; lia|]. apply Z.div_le_upper_bound; lia.
Qed.

Lemma battery_percentage_clamped_monotone_witness :
  2000 <= 3000 /\
  TftPanel.batteryPercentage (TftPanel.updateBattery 2000) = 18 /\
  TftPanel.batteryPercentage (TftPanel.updateBattery 2000)
  <= TftPanel.batteryPercentage (TftPanel.updateBattery 3000).
Proof.
  assert (H : 2000 <= 3000) by lia.
  split; [exact H|]. split; [vm_compute; reflexivity|].
  exact (proj1 (proj2 (battery_percentage_clamped_monotone 2000 3000 H))).
Defined.

(** X2.  After any series of calls of [readSensors], [drawMainScreen]
    shows for each of the first five sensors the reading of the latest
    call as a number, whatever it is: a sensor that returned the
    disconnected mark is shown as -127.0.  While the buffer is empty it
    shows 0.0. *)
Theorem main_screen_shows_latest_reading
  (sc : Z) (fs : Tft.Spiffs) (inputs : list (time_t * (Z -> float)))
  (inp : time_t * (Z -> float)) (i : Z)
  (Hsc : 0 <= sc <= 10) (Hi : 0 <= i < Z.min sc 5) :
  let st := runSensors (inputs ++ [inp]) (Tft.mkSketch sc Tft.ring0 fs) in
  TftPanel.mainReadings sc (Tft.ring st) !! Z.to_nat i = Some (snd inp i) /\
  TftPanel.mainReadings sc Tft.ring0 !! Z.to_nat i = Some (Q2Qc 0).
Proof.
  cbv zeta. unfold TftPanel.mainReadings.
  rewrite !list_lookup_fmap, !lookup_seqZ_lt by lia. cbn [fmap option_fmap option_map].
  rewrite Z.add_0_l, Z2Nat.id by lia.
  split; [|reflexivity].
  pose proof (runSensors_tracks (inputs ++ [inp]) (Tft.mkSketch sc Tft.ring0 fs) []
                tracks_ring0) as Htr.
  cbn [Tft.sensorCount app] in Htr. unfold samplesOf in Htr.
  rewrite map_app in Htr. cbn [map] in Htr.
  rewrite (tracks_latest _ _ _ Htr).
  destruct Htr as (_ & Hcnt & _). rewrite Hcnt, length_app. cbn [length].
  unfold Tft.DATA_BUFFER_SIZE.
  destruct (Z.ltb_spec 0 (Z.min (Z.of_nat (length (map (fun inp0 => Tft.newData sc inp0.1 inp0.2) inputs) + 1)) 1000)) as [_|Hc]; [|lia].
  rewrite newData_temperatureAt by lia. reflexivity.
Qed.

(** One call with sensor 0 at 21.5 degrees and sensor 1 disconnected. *)
Definition mixedInput : time_t * (Z -> float) :=
  (1730600000, fun i => if i =? 0 then Q2Qc (43 # 2) else DEVICE_DISCONNECTED_C).

Lemma main_screen_shows_latest_reading_witness :
  0 <= 2 <= 10 /\ 0 <= 1 < Z.min 2 5 /\
  TftPanel.mainReadings 2
    (Tft.ring (runSensors ([] ++ [mixedInput])
                 (Tft.mkSketch 2 Tft.ring0 (Tft.mkSpiffs true None)))) !! Z.to_nat 1
  = Some DEVICE_DISCONNECTED_C.
Proof.
  assert (H1 : 0 <= 2 <= 10) by lia.
  assert (H2 : 0 <= 1 < Z.min 2 5) by lia.
  split; [exact H1|]. split; [exact H2|].
  exact (proj1 (main_screen_shows_latest_reading 2 (Tft.mkSpiffs true None) [] mixedInput 1
                  H1 H2)).
Defined.

(** ** The chart: axis and geometry *)

(** A reading inside the range (-1000, 1000), which holds every value a
    DS18B20 can return. *)
Definition plausible (t : float) : bool :=
  bool_decide (Q2Qc (-1000 # 1) < t)%Qc && bool_decide (t < Q2Qc (1000 # 1))%Qc.

(** All the readings of the sensors in use, over the entries of a list. *)
Definition plausibleEntries (sensorCount : Z) (l : list Tft.TempData) : bool :=
  forallb (fun d => forallb (fun i => plausible (Tft.temperatureAt d i)) (seqZ 0 sensorCount)) l.

(** Both ends of a line lie on the rectangle of the chart. *)
Definition insideChart (seg : TftPanel.Segment) : Prop :=
  let '(x0, y0, x1, y1) := seg in
  (TftPanel.chartX <= x0 <= TftPanel.chartX + TftPanel.chartWidth /\
   TftPanel.chartY <= y0 <= TftPanel.chartY + TftPanel.chartHeight) /\
  (TftPanel.chartX <= x1 <= TftPanel.chartX + TftPanel.chartWidth /\
   TftPanel.chartY <= y1 <= TftPanel.chartY + TftPanel.chartHeight).

Section ChartFacts.
Import TftPanel.

Lemma this_plus a b : this (a + b)%Qc == this a + this b.
Proof. apply this_Q2Qc. Qed.
Lemma this_minus a b : this (a - b)%Qc == this a - this b.
Proof. unfold Qcminus, Qcopp. rewrite this_plus, this_Q2Qc. reflexivity. Qed.
Lemma this_mult a b : this (a * b)%Qc == this a * this b.
Proof. apply this_Q2Qc. Qed.
Lemma this_div a b : this (a / b)%Qc == this a / this b.
Proof. unfold Qcdiv, Qcinv. rewrite this_mult, this_Q2Qc. reflexivity. Qed.

Lemma c_int_inject k : c_int (Q2Qc (inject_Z k)) = k.
Proof.
  unfold c_int. destruct (Qlt_le_dec _ 0).
  - rewrite this_Q2Qc. apply Qceiling_Z.
  - rewrite this_Q2Qc. apply Qfloor_Z.
Qed.

Lemma c_int_between x a b :
  (inject_Z a <= this x)%Q -> (this x <= inject_Z b)%Q -> a <= c_int x <= b.
Proof.
  intros Ha Hb. split.
  - rewrite <- (c_int_inject a). apply c_int_mono. now rewrite this_Q2Qc.
  - rewrite <- (c_int_inject b). apply c_int_mono. now rewrite this_Q2Qc.
Qed.

(** The scan leaves a pair that encloses every connected reading it has
    seen. *)
Lemma scanReading_encloses mm t :
  let mm' := Tft.scanReading mm t in
  (fst mm' <= fst mm)%Qc /\ (snd mm <= snd mm')%Qc /\
  (t <> DEVICE_DISCONNECTED_C -> (fst mm' <= t)%Qc /\ (t <= snd mm')%Qc).
Proof.
  cbv zeta. unfold Tft.scanReading. unfold Qcle.
  case_bool_decide as Hc; cbn [fst snd].
  - repeat case_bool_decide; unfold Qclt in *;
      (split; [lra|]); (split; [lra|]); intros _; split; lra.
  - split; [lra|]. split; [lra|]. intros Hn. now destruct Hc.
Qed.

Lemma foldl_scanReading_encloses l mm :
  let mm' := foldl Tft.scanReading mm l in
  (fst mm' <= fst mm)%Qc /\ (snd mm <= snd mm')%Qc /\
  forall t, In t l -> t <> DEVICE_DISCONNECTED_C -> (fst mm' <= t)%Qc /\ (t <= snd mm')%Qc.
Proof.
  cbv zeta. revert mm. induction l as [|x l IH]; intros mm.
  - cbn [foldl]. unfold Qcle. split; [lra|]. split; [lra|]. intros t [].
  - cbn [foldl]. destruct (IH (Tft.scanReading mm x)) as (H1 & H2 & H3).
    destruct (scanReading_encloses mm x) as (S1 & S2 & S3).
    unfold Qcle in *. split; [lra|]. split; [lra|].
    intros t [<-|Hin] Hn.
    + specialize (S3 Hn). split; lra.
    + now apply H3.
Qed.

(** Either no reading has moved the pair, or its ends are in order. *)
Lemma foldl_scanReading_ordered l mm :
  (fst mm <= snd mm)%Qc \/ mm = (Q2Qc (1000 # 1), Q2Qc (-1000 # 1)) ->
  let mm' := foldl Tft.scanReading mm l in
  (fst mm' <= snd mm')%Qc \/ mm' = (Q2Qc (1000 # 1), Q2Qc (-1000 # 1)).
Proof.
  cbv zeta. revert mm. induction l as [|x l IH]; intros mm H; [exact H|].
  cbn [foldl]. apply IH. unfold Tft.scanReading.
  case_bool_decide as Hc; [|exact H]. cbn [fst snd]. left.
  destruct H as [H| ->]; cbn [fst snd] in *; unfold Qcle, Qclt in *;
    repeat case_bool_decide; unfold Qclt in *; cbn [this Q2Qc] in *; try lra.
Qed.

Lemma Qc_neq_lt (a b : Qc) : (this a < this b)%Q -> a <> b.
Proof. intros H ->. lra. Qed.

(** The lower end of the padded axis lies below its upper end. *)
Lemma chartAxis_gap mm :
  (fst mm <= snd mm)%Qc \/ mm = (Q2Qc (1000 # 1), Q2Qc (-1000 # 1)) ->
  (this (fst (Tft.chartAxis mm)) < this (snd (Tft.chartAxis mm)))%Q.
Proof.
  intros H. unfold Tft.chartAxis. destruct mm as [mn mx]. cbn [fst snd] in H.
  destruct (decide (mn = Q2Qc (1000 # 1))) as [Hmn|Hmn].
  { rewrite (bool_decide_eq_false_2 (mn <> _)) by tauto.
    cbn [andb fst snd]. rewrite !this_Q2Qc. lra. }
  destruct (decide (mx = Q2Qc (-1000 # 1))) as [Hmx|Hmx].
  { rewrite (bool_decide_eq_false_2 (mx <> _)) by tauto.
    rewrite andb_false_r. cbn [fst snd]. rewrite !this_Q2Qc. lra. }
  rewrite !bool_decide_eq_true_2 by assumption. cbn [andb]. cbv zeta.
  destruct H as [H|H]; [|injection H as -> ->; now destruct Hmn].
  unfold Qcle in H.
  case_bool_decide as Hr; unfold Qclt in Hr; rewrite this_minus in Hr;
    cbn [fst snd]; rewrite this_plus, this_minus, !this_mult;
    rewrite ?this_minus, ?this_Q2Qc in *; lra.
Qed.

(** A connected reading inside the scanned pair and inside (-1000, 1000)
    lies strictly inside the padded axis. *)
Lemma chartAxis_encloses mm t :
  (fst mm <= t)%Qc -> (t <= snd mm)%Qc ->
  (-1000 < this t)%Q -> (this t < 1000)%Q ->
  (this (fst (Tft.chartAxis mm)) < this t)%Q /\ (this t < this (snd (Tft.chartAxis mm)))%Q.
Proof.
  intros H1 H2 H3 H4. unfold Tft.chartAxis. destruct mm as [mn mx].
  cbn [fst snd] in H1, H2. unfold Qcle in H1, H2.
  assert (Hmn : mn <> Q2Qc (1000 # 1)).
  { apply Qc_neq_lt. rewrite this_Q2Qc. lra. }
  assert (Hmx : mx <> Q2Qc (-1000 # 1)).
  { apply not_eq_sym, Qc_neq_lt. rewrite this_Q2Qc. lra. }
  rewrite !bool_decide_eq_true_2 by assumption. cbn [andb]. cbv zeta.
  case_bool_decide as Hr; unfold Qclt in Hr; rewrite this_minus in Hr;
    cbn [fst snd]; rewrite this_plus, this_minus, !this_mult;
    rewrite ?this_minus, ?this_Q2Qc in *; split; lra.
Qed.

Lemma pointY_inside axis t :
  (this (fst axis) < this t)%Q -> (this t < this (snd axis))%Q ->
  chartY <= pointY axis t <= chartY + chartHeight.
Proof.
  intros H1 H2. unfold pointY.
  change (chartY + chartHeight) with 400. change chartY with 40. change chartHeight with 360.
  assert (Hv : this (Q2Qc (inject_Z 400)
                     - (t - fst axis) * Q2Qc (inject_Z 360) / (snd axis - fst axis))%Qc
               == (400 # 1) - (this t - this (fst axis)) * (360 # 1)
                              / (this (snd axis) - this (fst axis))).
  { rewrite this_minus, this_div, this_mult, !this_minus, !this_Q2Qc. reflexivity. }
  set (q := ((this t - this (fst axis)) * (360 # 1)
             / (this (snd axis) - this (fst axis)))%Q) in Hv.
  assert (Hq1 : (q <= 360 # 1)%Q) by (subst q; apply Qle_shift_div_r; lra).
  assert (Hq0 : (0 <= q)%Q) by (subst q; apply Qle_shift_div_l; lra).
  clearbody q.
  apply c_int_between; rewrite Hv.
  - change (inject_Z 40) with (40 # 1). lra.
  - change (inject_Z 400) with (400 # 1). lra.
Qed.

Lemma pointX_inside startTime now ts :
  startTime < now -> startTime <= ts <= now ->
  chartX <= pointX startTime now ts <= chartX + chartWidth.
Proof.
  intros Hn Hts. unfold pointX.
  change chartWidth with 300. change chartX with 10.
  rewrite Z.quot_div_nonneg by lia.
  assert (0 <= (now - ts) * 300 / (now - startTime)) by (apply Z.div_pos; lia).
  assert ((now - ts) * 300 / (now - startTime) <= 300)
    by (apply Z.div_le_upper_bound; nia).
  lia.
Qed.

Lemma chartStart_before t now : chartStart t now < now.
Proof. destruct t; unfold chartStart; lia. Qed.

Lemma chartMinMax_flat sc r startTime now :
  Tft.chartMinMax sc r startTime now
  = foldl Tft.scanReading (Q2Qc (1000 # 1), Q2Qc (-1000 # 1))
      (concat (map (Tft.readings sc) (Tft.chartWindow r startTime now))).
Proof.
  rewrite foldl_concat. unfold Tft.chartMinMax.
  generalize (Tft.chartWindow r startTime now) as w.
  generalize (Q2Qc (1000 # 1), Q2Qc (-1000 # 1)) as a.
  intros a w. revert a. induction w as [|d w IH]; intros a; [reflexivity|].
  cbn [map foldl]. apply IH.
Qed.

(** What the line loop needs of an entry of the time range. *)
Definition drawable (axis : float * float) (startTime now : time_t) (s : Z)
  (d : Tft.TempData) : Prop :=
  startTime <= Tft.timestamp d <= now /\
  (Tft.temperatureAt d s <> DEVICE_DISCONNECTED_C ->
   (this (fst axis) < this (Tft.temperatureAt d s))%Q /\
   (this (Tft.temperatureAt d s) < this (snd axis))%Q).

Lemma foldl_lineStep_inside axis startTime now s w st :
  startTime < now ->
  Forall (drawable axis startTime now s) w ->
  (fst (fst st) <> 0 ->
   startTime <= fst (fst st) <= now /\
   (this (fst axis) < this (snd (fst st)))%Q /\ (this (snd (fst st)) < this (snd axis))%Q) ->
  Forall insideChart (snd st) ->
  Forall insideChart (snd (foldl (lineStep axis startTime now s) st w)).
Proof.
  intros Hn Hw. revert st. induction Hw as [|d w Hd _ IH]; intros st Hp Hdrawn; [exact Hdrawn|].
  cbn [foldl]. destruct st as [[pt ptemp] drawn]. cbn [fst snd] in Hp, Hdrawn.
  destruct Hd as [Hts Htemp]. unfold lineStep.
  case_bool_decide as Hc.
  - specialize (Htemp Hc). destruct Htemp as [Ht1 Ht2].
    apply IH; cbn [fst snd].
    + intros _. split; [exact Hts|]. split; assumption.
    + destruct (Z.eqb_spec pt 0) as [_|Hpt]; [exact Hdrawn|].
      constructor; [|exact Hdrawn].
      destruct (Hp Hpt) as (Hp1 & Hp2 & Hp3). unfold insideChart.
      split; (split; [apply pointX_inside; assumption|apply pointY_inside; assumption]).
  - apply IH; cbn [fst snd]; [|exact Hdrawn]. intros H. now destruct H.
Qed.

Lemma plausible_spec t :
  plausible t = true -> (-1000 < this t)%Q /\ (this t < 1000)%Q.
Proof.
  unfold plausible. intros H. apply andb_true_iff in H as [H1 H2].
  apply bool_decide_eq_true in H1, H2. unfold Qclt in H1, H2.
  rewrite this_Q2Qc in H1, H2. split; lra.
Qed.

Lemma window_drawable sc r t now s :
  plausibleEntries sc (Tft.chartWindow r (chartStart t now) now) = true ->
  0 <= s < sc ->
  Forall (drawable (Tft.chartAxis (Tft.chartMinMax sc r (chartStart t now) now))
                   (chartStart t now) now s)
         (Tft.chartWindow r (chartStart t now) now).
Proof.
  intros Hok Hs. apply List.Forall_forall. intros d Hd.
  unfold plausibleEntries in Hok. rewrite forallb_forall in Hok.
  specialize (Hok d Hd). rewrite forallb_forall in Hok.
  assert (Hsin : In s (seqZ 0 sc)) by (apply list_elem_of_In, elem_of_seqZ; lia).
  specialize (Hok s Hsin). apply plausible_spec in Hok as [Hlo Hhi].
  split.
  - unfold Tft.chartWindow in Hd. apply filter_In in Hd as [_ Hr].
    unfold Tft.inRange in Hr. apply andb_true_iff in Hr as [H1 H2]. lia.
  - intros Hc. rewrite chartMinMax_flat.
    destruct (foldl_scanReading_encloses
                (concat (map (Tft.readings sc) (Tft.chartWindow r (chartStart t now) now)))
                (Q2Qc (1000 # 1), Q2Qc (-1000 # 1))) as (_ & _ & Henc).
    destruct (Henc (Tft.temperatureAt d s)) as [E1 E2]; [|exact Hc|].
    + apply in_concat. exists (Tft.readings sc d). split.
      * apply in_map. exact Hd.
      * unfold Tft.readings. apply in_map. exact Hsin.
    + apply chartAxis_encloses; assumption.
Qed.

End ChartFacts.

(** X3.  Whatever the buffer holds, as long as the readings of the time
    range lie between -1000 and 1000 degrees, every line that
    [drawChartScreen] draws has both ends on the rectangle of the
    chart: x within [chartX, chartX + chartWidth] and y within
    [chartY, chartY + chartHeight]. *)
Theorem chart_lines_stay_inside_chart
  (sc : Z) (r : Tft.Ring) (t : TftPanel.TimeRange) (now : time_t)
  (Hok : plausibleEntries sc (Tft.chartWindow r (TftPanel.chartStart t now) now) = true) :
  Forall (Forall insideChart) (TftPanel.chartLines sc r t now).
Proof.
  unfold TftPanel.chartLines. apply List.Forall_forall. intros line Hline.
  apply in_map_iff in Hline as (s & <- & Hs).
  apply list_elem_of_In, elem_of_seqZ in Hs.
  unfold TftPanel.chartLine. cbv zeta.
  apply Forall_reverse, foldl_lineStep_inside.
  - apply chartStart_before.
  - apply window_drawable; [exact Hok|lia].
  - cbn [fst snd]. intros H. now destruct H.
  - constructor.
Qed.

(** Three samples of two sensors, taken 300, 200 and 100 seconds before
    the chart is drawn; sensor 1 is disconnected at the second one. *)
Definition chartInputs : list (time_t * (Z -> float)) :=
  [(1730599700, fun i => Q2Qc (2150 + i # 100));
   (1730599800, fun i => if i =? 0 then Q2Qc (87 # 4) else DEVICE_DISCONNECTED_C);
   (1730599900, fun i => Q2Qc (2210 + i # 100))].
Definition chartRing : Tft.Ring :=
  Tft.ring (runSensors chartInputs (Tft.mkSketch 2 Tft.ring0 (Tft.mkSpiffs true None))).

Lemma chart_lines_stay_inside_chart_witness :
  plausibleEntries 2 (Tft.chartWindow chartRing
                        (TftPanel.chartStart TftPanel.ONE_HOUR 1730600000) 1730600000) = true /\
  Forall (Forall insideChart) (TftPanel.chartLines 2 chartRing TftPanel.ONE_HOUR 1730600000).
Proof.
  assert (H : plausibleEntries 2 (Tft.chartWindow chartRing
                (TftPanel.chartStart TftPanel.ONE_HOUR 1730600000) 1730600000) = true)
    by (vm_compute; reflexivity).
  split; [exact H|].
  exact (chart_lines_stay_inside_chart 2 chartRing TftPanel.ONE_HOUR 1730600000 H).
Defined.

(** X4.  The axis [drawChartScreen] scales the lines with is never
    degenerate: whatever the buffer holds, after the padding step its
    lower end lies below its upper end, so the division by
    [maxTemp - minTemp] is never a division by zero; with the buffer
    empty the axis is the default range from 0 to 50. *)
Theorem chart_axis_never_degenerate
  (sc : Z) (r : Tft.Ring) (startTime now : time_t) :
  let axis := Tft.chartAxis (Tft.chartMinMax sc r startTime now) in
  (fst axis < snd axis)%Qc /\ (snd axis - fst axis)%Qc <> Q2Qc 0 /\
  Tft.chartAxis (Tft.chartMinMax sc Tft.ring0 startTime now) = (Q2Qc 0, Q2Qc (50 # 1)).
Proof.
  cbv zeta.
  assert (Hgap : (this (fst (Tft.chartAxis (Tft.chartMinMax sc r startTime now)))
                  < this (snd (Tft.chartAxis (Tft.chartMinMax sc r startTime now))))%Q).
  { apply chartAxis_gap. rewrite chartMinMax_flat.
    apply foldl_scanReading_ordered. now right. }
  split; [|split].
  - exact Hgap.
  - apply not_eq_sym, Qc_neq_lt. rewrite this_minus, this_Q2Qc. lra.
  - reflexivity.
Qed.

(** ** Touch handling *)

(** The state after a series of calls of [handleTouch]; an event is what
    [tft.getTouch] reports and the clock. *)
Definition runTouches (events : list (option (Z * Z) * Z)) (u : TftPanel.Ui) : TftPanel.Ui :=
  foldl (fun u e => TftPanel.handleTouch (fst e) (snd e) u) u events.

Section TouchFacts.
Import TftPanel.

Ltac ui_proj :=
  cbn [currentScreen currentTimeRange config table settingsPage selectedSensor
       lastTouchTime wifiStarted preferences
       setScreen setTimeRange setConfig setTable setSettingsPage setSelectedSensor
       setLastTouchTime setWifiStarted setPreferences
       setWifiEnabled setBluetoothEnabled setSensorCount setSampleInterval
       setDeepSleepEnabled toggleWifi saveSettings
       Tft.wifiEnabled Tft.bluetoothEnabled Tft.ssid Tft.password Tft.nSensors
       Tft.sensorNames Tft.interval Tft.deepSleep
       Tft.touchCalMinX Tft.touchCalMinY Tft.touchCalMaxX Tft.touchCalMaxY
       Tft.tableScrollOffset Tft.maxTableScroll Tft.handleTableScroll] in *.

(** The ranges the touch handler keeps. *)
Definition inRanges (u : Ui) : Prop :=
  10 <= Tft.interval (config u) <= 600 /\
  0 <= Tft.nSensors (config u) <= 10 /\
  0 <= settingsPage u <= 3 /\
  0 <= Tft.tableScrollOffset (table u) <= Tft.maxTableScroll (table u).

Lemma changeSetting_inRanges k v u : inRanges u -> inRanges (changeSetting k v u).
Proof.
  unfold inRanges, changeSetting. intros H.
  repeat case_match; ui_proj; lia.
Qed.

Lemma handleTouch_inRanges touch ms u : inRanges u -> inRanges (handleTouch touch ms u).
Proof.
  intros H. destruct touch as [[x y]|]; [|exact H].
  unfold handleTouch.
  assert (H' : inRanges (setLastTouchTime ms u)) by exact H.
  assert (Hs : currentScreen (setLastTouchTime ms u) = currentScreen u) by reflexivity.
  rewrite Hs. generalize dependent (setLastTouchTime ms u). clear H. intros u' H' _.
  destruct (currentScreen u).
  - unfold inRanges in *. repeat case_match; ui_proj; lia.
  - unfold inRanges in *. repeat case_match; ui_proj; lia.
  - unfold inRanges in *. repeat case_match; ui_proj; repeat case_match; lia.
  - unfold touchSettings.
    repeat case_match; try apply changeSetting_inRanges; try exact H';
      unfold inRanges in *; ui_proj; try lia.
    all: change (TFT_WIDTH `quot` 4) with 80 in *; change (TFT_WIDTH `quot` 2) with 160 in *;
      change ((3 * TFT_WIDTH) `quot` 4) with 240 in *; lia.
Qed.

Lemma runTouches_inRanges events u : inRanges u -> inRanges (runTouches events u).
Proof.
  revert u. induction events as [|e events IH]; intros u H; [exact H|].
  cbn [runTouches foldl]. apply IH. now apply handleTouch_inRanges.
Qed.

(** [changeSetting] ends in a call of [saveSettings] on globals whose
    sensor count is in range. *)
Lemma changeSetting_saves k v u :
  0 <= Tft.nSensors (config u) <= 10 ->
  exists u1,
    changeSetting k v u = saveSettings u1 /\
    0 <= Tft.nSensors (config u1) <= 10 /\
    Tft.sensorNames (config u1) = Tft.sensorNames (config u).
Proof.
  intros H. unfold changeSetting.
  repeat case_match; (eexists; split; [reflexivity|]); ui_proj; (split; [lia|reflexivity]).
Qed.

(** No touch writes [Preferences] while another screen than the
    settings screen is shown. *)
Lemma handleTouch_preferences touch ms u :
  currentScreen u <> SETTINGS_SCREEN ->
  preferences (handleTouch touch ms u) = preferences u.
Proof.
  intros H. destruct touch as [[x y]|]; [|reflexivity].
  unfold handleTouch. ui_proj.
  destruct (currentScreen u); [| | |now destruct H]; repeat case_match; reflexivity.
Qed.

End TouchFacts.

(** X5.  Whatever series of touches [handleTouch] receives, the sampling
    interval stays between 10 and 600 seconds, the sensor count between 0
    and 10, the settings page between 0 and 3 and the scroll offset of
    the table between 0 and [maxTableScroll]. *)
Theorem touches_keep_settings_in_range
  (events : list (option (Z * Z) * Z)) (u : TftPanel.Ui)
  (Hi : 10 <= Tft.interval (TftPanel.config u) <= 600)
  (Hn : 0 <= Tft.nSensors (TftPanel.config u) <= 10)
  (Hp : 0 <= TftPanel.settingsPage u <= 3)
  (Ho : 0 <= Tft.tableScrollOffset (TftPanel.table u) <= Tft.maxTableScroll (TftPanel.table u)) :
  let u' := runTouches events u in
  10 <= Tft.interval (TftPanel.config u') <= 600 /\
  0 <= Tft.nSensors (TftPanel.config u') <= 10 /\
  0 <= TftPanel.settingsPage u' <= 3 /\
  0 <= Tft.tableScrollOffset (TftPanel.table u') <= Tft.maxTableScroll (TftPanel.table u').
Proof. cbv zeta. apply runTouches_inRanges. repeat split; lia. Qed.

(** From the main screen: the settings button, seven touches on the minus
    of the interval, the tab of the sensors and twelve touches on the plus
    of the sensor count. *)
Definition manyTouches : list (option (Z * Z) * Z) :=
  [(Some (250, 440), 1000)] ++ replicate 7 (Some (230, 137), 2000) ++
  [(Some (200, 45), 3000)] ++ replicate 12 (Some (270, 77), 4000).

Lemma touches_keep_settings_in_range_witness :
  10 <= Tft.interval (TftPanel.config TftPanel.ui0) <= 600 /\
  0 <= Tft.nSensors (TftPanel.config TftPanel.ui0) <= 10 /\
  0 <= TftPanel.settingsPage TftPanel.ui0 <= 3 /\
  0 <= Tft.tableScrollOffset (TftPanel.table TftPanel.ui0)
    <= Tft.maxTableScroll (TftPanel.table TftPanel.ui0) /\
  Tft.interval (TftPanel.config (runTouches manyTouches TftPanel.ui0)) = 10 /\
  Tft.nSensors (TftPanel.config (runTouches manyTouches TftPanel.ui0)) = 10 /\
  10 <= Tft.interval (TftPanel.config (runTouches manyTouches TftPanel.ui0)) <= 600.
Proof.
  assert (H1 : 10 <= Tft.interval (TftPanel.config TftPanel.ui0) <= 600) by (cbn; lia).
  assert (H2 : 0 <= Tft.nSensors (TftPanel.config TftPanel.ui0) <= 10) by (cbn; lia).
  assert (H3 : 0 <= TftPanel.settingsPage TftPanel.ui0 <= 3) by (cbn; lia).
  assert (H4 : 0 <= Tft.tableScrollOffset (TftPanel.table TftPanel.ui0)
               <= Tft.maxTableScroll (TftPanel.table TftPanel.ui0)) by (cbn; lia).
  split; [exact H1|]. split; [exact H2|]. split; [exact H3|]. split; [exact H4|].
  split; [vm_compute; reflexivity|]. split; [vm_compute; reflexivity|].
  exact (proj1 (touches_keep_settings_in_range manyTouches TftPanel.ui0 H1 H2 H3 H4)).
Defined.

(** X6.  Every call of [changeSetting] stores the configuration: when
    [loadSettings] runs afterwards it returns the WiFi flag, the sensor
    count, the interval and the deep-sleep flag that the call has left,
    whichever setting was changed.  The Bluetooth flag is the exception:
    [loadSettings] leaves it as it finds it. *)
Theorem changed_setting_survives_reload
  (setting value : Z) (u : TftPanel.Ui) (cur : Tft.Settings)
  (Hn : 0 <= Tft.nSensors (TftPanel.config u) <= 10)
  (Hl : length (Tft.sensorNames (TftPanel.config u)) = 10%nat)
  (Hl' : length (Tft.sensorNames cur) = 10%nat) :
  let u' := TftPanel.changeSetting setting value u in
  let s' := Tft.loadSettings (TftPanel.preferences u') cur in
  Tft.wifiEnabled s' = Tft.wifiEnabled (TftPanel.config u') /\
  Tft.nSensors s' = Tft.nSensors (TftPanel.config u') /\
  Tft.interval s' = Tft.interval (TftPanel.config u') /\
  Tft.deepSleep s' = Tft.deepSleep (TftPanel.config u') /\
  Tft.bluetoothEnabled s' = Tft.bluetoothEnabled cur.
Proof.
  cbv zeta. destruct (changeSetting_saves setting value u Hn) as (u1 & -> & Hn1 & Hnames).
  unfold TftPanel.saveSettings.
  cbn [TftPanel.preferences TftPanel.config TftPanel.setPreferences].
  rewrite <- Hnames in Hl.
  destruct (tft_load_after_save (TftPanel.config u1) (TftPanel.preferences u1) cur Hn1 Hl Hl')
    as (H1 & _ & _ & H4 & H5 & H6 & _).
  split; [exact H1|]. split; [exact H4|]. split; [exact H5|]. split; [exact H6|].
  reflexivity.
Qed.

(** The settings screen, page 0. *)
Definition settingsUi : TftPanel.Ui :=
  TftPanel.setScreen TftPanel.SETTINGS_SCREEN TftPanel.ui0.

Lemma changed_setting_survives_reload_witness :
  0 <= Tft.nSensors (TftPanel.config settingsUi) <= 10 /\
  length (Tft.sensorNames (TftPanel.config settingsUi)) = 10%nat /\
  length (Tft.sensorNames Tft.settings0) = 10%nat /\
  Tft.interval (Tft.loadSettings
                  (TftPanel.preferences (TftPanel.changeSetting 2 (-10) settingsUi))
                  Tft.settings0) = 50.
Proof.
  assert (H1 : 0 <= Tft.nSensors (TftPanel.config settingsUi) <= 10) by (cbn; lia).
  assert (H2 : length (Tft.sensorNames (TftPanel.config settingsUi)) = 10%nat) by reflexivity.
  assert (H3 : length (Tft.sensorNames Tft.settings0) = 10%nat) by reflexivity.
  split; [exact H1|]. split; [exact H2|]. split; [exact H3|].
  pose proof (changed_setting_survives_reload 2 (-10) settingsUi Tft.settings0 H1 H2 H3)
    as (_ & _ & Hi & _).
  cbv zeta in Hi. rewrite Hi. reflexivity.
Defined.

(** X7.  On the main screen a touch on the WiFi icon inverts
    [wifiEnabled] and starts or stops the radio accordingly, but does not
    write [Preferences]: [loadSettings] still returns the WiFi flag stored
    before.  The same holds for every touch on the main, chart and table
    screens: only the settings screen saves. *)
Theorem main_screen_wifi_toggle_is_not_saved
  (u : TftPanel.Ui) (x y ms : Z) (cur : Tft.Settings)
  (Hscr : TftPanel.currentScreen u = TftPanel.MAIN_SCREEN)
  (Hx : 280 < x < 310) (Hy : 10 < y < 40) :
  let u' := TftPanel.handleTouch (Some (x, y)) ms u in
  Tft.wifiEnabled (TftPanel.config u') = negb (Tft.wifiEnabled (TftPanel.config u)) /\
  TftPanel.wifiStarted u' = Tft.wifiEnabled (TftPanel.config u') /\
  TftPanel.preferences u' = TftPanel.preferences u /\
  Tft.wifiEnabled (Tft.loadSettings (TftPanel.preferences u') cur)
  = Tft.wifiEnabled (Tft.loadSettings (TftPanel.preferences u) cur) /\
  (forall touch ms0 u0,
     TftPanel.currentScreen u0 <> TftPanel.SETTINGS_SCREEN ->
     TftPanel.preferences (TftPanel.handleTouch touch ms0 u0) = TftPanel.preferences u0).
Proof.
  cbv zeta.
  assert (Hp : TftPanel.preferences (TftPanel.handleTouch (Some (x, y)) ms u)
               = TftPanel.preferences u)
    by (apply handleTouch_preferences; rewrite Hscr; discriminate).
  rewrite Hp. split; [|split; [|split; [reflexivity|split; [reflexivity|]]]].
  - unfold TftPanel.handleTouch.
    cbn [TftPanel.currentScreen TftPanel.setLastTouchTime]. rewrite Hscr.
    replace ((280 <? x) && (x <? 310) && (10 <? y) && (y <? 40)) with true by lia.
    reflexivity.
  - unfold TftPanel.handleTouch.
    cbn [TftPanel.currentScreen TftPanel.setLastTouchTime]. rewrite Hscr.
    replace ((280 <? x) && (x <? 310) && (10 <? y) && (y <? 40)) with true by lia.
    reflexivity.
  - intros touch ms0 u0. apply handleTouch_preferences.
Qed.

Lemma main_screen_wifi_toggle_is_not_saved_witness :
  TftPanel.currentScreen TftPanel.ui0 = TftPanel.MAIN_SCREEN /\
  280 < 295 < 310 /\ 10 < 25 < 40 /\
  Tft.wifiEnabled (TftPanel.config (TftPanel.handleTouch (Some (295, 25)) 5000 TftPanel.ui0))
  = false /\
  TftPanel.preferences (TftPanel.handleTouch (Some (295, 25)) 5000 TftPanel.ui0) = ∅.
Proof.
  assert (H1 : TftPanel.currentScreen TftPanel.ui0 = TftPanel.MAIN_SCREEN) by reflexivity.
  assert (H2 : 280 < 295 < 310) by lia.
  assert (H3 : 10 < 25 < 40) by lia.
  split; [exact H1|]. split; [exact H2|]. split; [exact H3|].
  pose proof (main_screen_wifi_toggle_is_not_saved TftPanel.ui0 295 25 5000 Tft.settings0
                H1 H2 H3) as (Hw & _ & Hp & _).
  cbv zeta in Hw, Hp. split; [exact Hw|exact Hp].
Defined.

(** X8.  On the chart screen the two buttons of the time range undo each
    other: a touch on "<" followed by a touch on ">" (or the reverse)
    restores the range, and three touches on ">" go round the three
    ranges of one, six and twenty-four hours. *)
Theorem chart_range_buttons_cycle
  (u : TftPanel.Ui) (x1 x2 y1 y2 ms1 ms2 ms3 : Z)
  (Hscr : TftPanel.currentScreen u = TftPanel.CHART_SCREEN)
  (Hx1 : x1 < 50) (Hy1 : 410 < y1 < 440)
  (Hx2 : 230 < x2) (Hy2 : 410 < y2 < 440) :
  let prev := TftPanel.handleTouch (Some (x1, y1)) in
  let next := TftPanel.handleTouch (Some (x2, y2)) in
  TftPanel.currentTimeRange (next ms2 (prev ms1 u)) = TftPanel.currentTimeRange u /\
  TftPanel.currentTimeRange (prev ms2 (next ms1 u)) = TftPanel.currentTimeRange u /\
  TftPanel.currentTimeRange (next ms3 (next ms2 (next ms1 u))) = TftPanel.currentTimeRange u /\
  TftPanel.currentTimeRange (next ms1 u) <> TftPanel.currentTimeRange u /\
  TftPanel.currentTimeRange (prev ms1 u) <> TftPanel.currentTimeRange u /\
  TftPanel.currentTimeRange (next ms1 u) <> TftPanel.currentTimeRange (prev ms1 u).
Proof.
  cbv zeta.
  assert (Hprev : forall ms v, TftPanel.currentScreen v = TftPanel.CHART_SCREEN ->
            TftPanel.handleTouch (Some (x1, y1)) ms v
            = TftPanel.setTimeRange
                (TftPanel.toTimeRange ((TftPanel.rangeValue (TftPanel.currentTimeRange v) + 2) %% 3))
                (TftPanel.setLastTouchTime ms v)).
  { intros ms v Hv. unfold TftPanel.handleTouch.
    cbn [TftPanel.currentScreen TftPanel.setLastTouchTime]. rewrite Hv.
    change (TftPanel.TFT_HEIGHT - 70) with 410. change (TftPanel.TFT_HEIGHT - 40) with 440.
    replace ((x1 <? 50) && (410 <? y1) && (y1 <? 440)) with true by lia. reflexivity. }
  assert (Hnext : forall ms v, TftPanel.currentScreen v = TftPanel.CHART_SCREEN ->
            TftPanel.handleTouch (Some (x2, y2)) ms v
            = TftPanel.setTimeRange
                (TftPanel.toTimeRange ((TftPanel.rangeValue (TftPanel.currentTimeRange v) + 1) %% 3))
                (TftPanel.setLastTouchTime ms v)).
  { intros ms v Hv. unfold TftPanel.handleTouch.
    cbn [TftPanel.currentScreen TftPanel.setLastTouchTime]. rewrite Hv.
    change (TftPanel.TFT_HEIGHT - 70) with 410. change (TftPanel.TFT_HEIGHT - 40) with 440.
    change (TftPanel.TFT_WIDTH - 90) with 230.
    replace ((x2 <? 50) && (410 <? y2) && (y2 <? 440)) with false by lia.
    replace ((230 <? x2) && (410 <? y2) && (y2 <? 440)) with true by lia. reflexivity. }
  rewrite !Hprev, !Hnext by (rewrite ?Hprev, ?Hnext by exact Hscr; exact Hscr).
  cbn [TftPanel.currentTimeRange TftPanel.setTimeRange TftPanel.setLastTouchTime].
  destruct (TftPanel.currentTimeRange u); repeat split; try reflexivity; discriminate.
Qed.

(** The chart screen with the range of one hour. *)
Definition chartUi : TftPanel.Ui := TftPanel.setScreen TftPanel.CHART_SCREEN TftPanel.ui0.

Lemma chart_range_buttons_cycle_witness :
  TftPanel.currentScreen chartUi = TftPanel.CHART_SCREEN /\
  40 < 50 /\ 410 < 420 < 440 /\ 230 < 260 /\ 410 < 420 < 440 /\
  TftPanel.currentTimeRange
    (TftPanel.handleTouch (Some (260, 420)) 2 (TftPanel.handleTouch (Some (40, 420)) 1 chartUi))
  = TftPanel.ONE_HOUR.
Proof.
  assert (H0 : TftPanel.currentScreen chartUi = TftPanel.CHART_SCREEN) by reflexivity.
  assert (H1 : 40 < 50) by lia.
  assert (H2 : 410 < 420 < 440) by lia.
  assert (H3 : 230 < 260) by lia.
  split; [exact H0|]. split; [exact H1|]. split; [exact H2|]. split; [exact H3|].
  split; [exact H2|].
  exact (proj1 (chart_range_buttons_cycle chartUi 40 260 420 420 1 2 3 H0 H1 H2 H3 H2)).
Defined.

(** ** The sensor task and deep sleep *)

(** The task [sensorTask] of the TFT sketch observed at the clock values
    of a list, in turn. *)
Definition runTask (clock : list Z) (s : Tft.Scheduler) : Tft.Scheduler :=
  foldl (fun s now => Tft.sensorTask now s) s clock.

Section SleepFacts.
Import Tft.

Lemma runTask_cons now clock s :
  runTask (now :: clock) s = runTask clock (sensorTask now s).
Proof. reflexivity. Qed.

Lemma runTask_asleep clock s : task s = Asleep -> runTask clock s = s.
Proof.
  revert s. induction clock as [|now clock IH]; intros s H; [reflexivity|].
  rewrite runTask_cons. unfold sensorTask. rewrite H. now apply IH.
Qed.

Lemma runTask_delayed clock s wake :
  task s = Delayed wake -> deepSleepEnabled s = true ->
  Forall (fun now => wake <= now -> 60000 < now - lastTouchTime s) clock ->
  acquired (runTask clock s) = acquired s /\
  (Exists (fun now => wake <= now) clock -> task (runTask clock s) = Asleep) /\
  (task (runTask clock s) = Asleep \/ task (runTask clock s) = Delayed wake).
Proof.
  revert s. induction clock as [|now clock IH]; intros s Ht Hd Hc.
  - cbn [runTask foldl]. split; [reflexivity|]. split; [|now right].
    intros H. inversion H.
  - rewrite runTask_cons. apply Forall_cons in Hc as [Hnow Hc].
    assert (Hstep : sensorTask now s
                    = if wake <=? now then afterDelay now s else s)
      by (unfold sensorTask; now rewrite Ht).
    rewrite Hstep. destruct (Z.leb_spec wake now) as [Hw|Hw].
    + unfold afterDelay. rewrite Hd. cbn [andb].
      replace (60000 <? now - lastTouchTime s) with true by (specialize (Hnow Hw); lia).
      rewrite runTask_asleep by reflexivity. cbn [acquired task].
      split; [reflexivity|]. split; [reflexivity|now left].
    + destruct (IH s Ht Hd Hc) as (H1 & H2 & H3).
      split; [exact H1|]. split; [|exact H3].
      intros H. apply Exists_cons in H as [H|H]; [lia|now apply H2].
Qed.

End SleepFacts.

(** X9.  With deep sleep enabled, a sampling interval of 60 seconds or
    more (the default) and no touch since before the first sample,
    [sensorTask] of the TFT sketch takes one sample and no second one:
    when the wait ends, more than 60 seconds have passed since the last
    touch, and the task calls [enterDeepSleep]. *)
Theorem deep_sleep_follows_first_sample
  (now0 : Z) (clock : list Z) (s : Tft.Scheduler)
  (Hready : Tft.task s = Tft.Ready)
  (Hsleep : Tft.deepSleepEnabled s = true)
  (Hint : 60 <= Tft.sampleInterval s)
  (Htouch : Tft.lastTouchTime s < now0) :
  let s' := runTask (now0 :: clock) s in
  Tft.acquired s' = now0 :: Tft.acquired s /\
  (Exists (fun now => now0 + Tft.sampleInterval s * 1000 <= now) clock ->
   Tft.task s' = Tft.Asleep).
Proof.
  cbv zeta. rewrite runTask_cons.
  assert (Hstep : Tft.sensorTask now0 s = Tft.beginCycle now0 s)
    by (unfold Tft.sensorTask; now rewrite Hready).
  rewrite Hstep.
  destruct (runTask_delayed clock (Tft.beginCycle now0 s) (now0 + Tft.sampleInterval s * 1000))
    as (H1 & H2 & _).
  - reflexivity.
  - exact Hsleep.
  - apply List.Forall_forall. intros now _ Hw. cbn [Tft.beginCycle Tft.lastTouchTime]. lia.
  - split; [exact H1|exact H2].
Qed.

(** The globals at program start: interval 60 s, deep sleep enabled, no
    touch yet. *)
Definition scheduler0 : Tft.Scheduler := Tft.mkScheduler Tft.Ready 60 true 0 [].

Lemma deep_sleep_follows_first_sample_witness :
  Tft.task scheduler0 = Tft.Ready /\ Tft.deepSleepEnabled scheduler0 = true /\
  60 <= Tft.sampleInterval scheduler0 /\ Tft.lastTouchTime scheduler0 < 1500 /\
  Tft.acquired (runTask (1500 :: [30000; 61500; 121500; 181500]) scheduler0) = [1500].
Proof.
  assert (H1 : Tft.task scheduler0 = Tft.Ready) by reflexivity.
  assert (H2 : Tft.deepSleepEnabled scheduler0 = true) by reflexivity.
  assert (H3 : 60 <= Tft.sampleInterval scheduler0) by (cbn; lia).
  assert (H4 : Tft.lastTouchTime scheduler0 < 1500) by (cbn; lia).
  split; [exact H1|]. split; [exact H2|]. split; [exact H3|]. split; [exact H4|].
  exact (proj1 (deep_sleep_follows_first_sample 1500 [30000; 61500; 121500; 181500]
                  scheduler0 H1 H2 H3 H4)).
Defined.

(** ** WiFi *)

Section ConnectFacts.
Import TftPanel.

Lemma connectLoop_spec connected fuel attempts :
  let a := connectLoop connected fuel attempts in
  (attempts <= a <= attempts + fuel)%nat /\
  (forall k, (attempts <= k < a)%nat -> connected k = false) /\
  ((a < attempts + fuel)%nat -> connected a = true).
Proof.
  cbv zeta. revert attempts. induction fuel as [|fuel IH]; intros attempts.
  - cbn [connectLoop]. split; [lia|]. split; intros; lia.
  - cbn [connectLoop]. destruct (connected attempts) eqn:E.
    + split; [lia|]. split; [intros; lia|]. intros _. exact E.
    + destruct (IH (S attempts)) as (H1 & H2 & H3).
      split; [lia|]. split.
      * intros k Hk. destruct (decide (k = attempts)) as [->|Hne]; [exact E|].
        apply H2. lia.
      * intros H. apply H3. lia.
Qed.

End ConnectFacts.

(** X10.  [connectToWiFi] does nothing when the SSID or the password is
    empty.  Otherwise it polls the connection state every 500 ms and
    gives up after 20 polls: it never waits more than 10 seconds, it
    waits exactly as long as the state was not "connected", and it
    stops early only because a poll found the connection. *)
Theorem connect_gives_up_after_ten_seconds
  (c : Tft.Settings) (connected : nat -> bool) :
  let r := TftPanel.connectToWiFi c connected in
  0 <= TftPanel.waited r <= 10000 /\
  (TftPanel.began r = false <-> Tft.ssid c = [] \/ Tft.password c = []) /\
  (TftPanel.began r = false -> TftPanel.waited r = 0 /\ TftPanel.reported r = None) /\
  (forall k : nat, 500 * Z.of_nat k < TftPanel.waited r -> connected k = false) /\
  (TftPanel.began r = true -> TftPanel.waited r < 10000 ->
   connected (Z.to_nat (TftPanel.waited r / 500)) = true).
Proof.
  cbv zeta. unfold TftPanel.connectToWiFi.
  destruct (connectLoop_spec connected 20 0) as (H1 & H2 & H3).
  assert (Hlen : forall s : Str, (0 <? Arduino.len s) = false <-> s = []).
  { intros s. unfold Arduino.len. destruct s; cbn [length]; split; intros H;
      try reflexivity; try discriminate; lia. }
  destruct (0 <? Arduino.len (Tft.ssid c)) eqn:E1, (0 <? Arduino.len (Tft.password c)) eqn:E2;
    cbn [andb TftPanel.began TftPanel.waited TftPanel.reported].
  - split; [lia|]. split.
    + split; [discriminate|]. intros [H|H]; apply Hlen in H; congruence.
    + split; [discriminate|]. split.
      * intros k Hk. apply H2. lia.
      * intros _ Hw. rewrite Z.mul_comm, Z.div_mul, Nat2Z.id by lia. apply H3. lia.
  - split; [lia|]. split; [split; [intros _; right; now apply Hlen|reflexivity]|].
    split; [split; reflexivity|]. split; [intros; lia|discriminate].
  - split; [lia|]. split; [split; [intros _; left; now apply Hlen|reflexivity]|].
    split; [split; reflexivity|]. split; [intros; lia|discriminate].
  - split; [lia|]. split; [split; [intros _; left; now apply Hlen|reflexivity]|].
    split; [split; reflexivity|]. split; [intros; lia|discriminate].
Qed.

(** ** The log file over a run *)

Section LogFacts.

Lemma runSensors_unmounted inputs st :
  Tft.mounted (Tft.spiffs st) = false ->
  Tft.spiffs (runSensors inputs st) = Tft.spiffs st.
Proof.
  revert st. induction inputs as [|inp inputs IH]; intros st H; [reflexivity|].
  rewrite runSensors_cons.
  assert (Hs : Tft.spiffs (Tft.readSensors inp.1 inp.2 st) = Tft.spiffs st).
  { unfold Tft.readSensors, Tft.saveData. cbn [Tft.spiffs]. rewrite H. reflexivity. }
  rewrite IH by (rewrite Hs; exact H). exact Hs.
Qed.

End LogFacts.

(** X11.  [saveData] only ever appends: after any series of calls of
    [readSensors] the file [/temp_data.txt] is what it was before,
    whatever that was, followed by one line per call, in order; nothing
    is rewritten, truncated or rotated.  When the volume is not mounted
    the file is left alone and the samples go to the buffer only. *)
Theorem log_file_only_grows
  (sc : Z) (old : Str) (file : option Str) (inputs : list (time_t * (Z -> float))) :
  let st := runSensors inputs (Tft.mkSketch sc Tft.ring0 (Tft.mkSpiffs true (Some old))) in
  let st' := runSensors inputs (Tft.mkSketch sc Tft.ring0 (Tft.mkSpiffs false file)) in
  Tft.temp_data_txt (Tft.spiffs st)
  = Some (old ++ concat (map (Tft.saveLine sc) (samplesOf sc inputs))) /\
  Tft.spiffs st' = Tft.mkSpiffs false file /\
  Tft.dataBufferCount (Tft.ring st') = Z.min (Z.of_nat (length inputs)) Tft.DATA_BUFFER_SIZE.
Proof.
  cbv zeta. split; [|split].
  - rewrite (runSensors_file inputs (Tft.mkSketch sc Tft.ring0 (Tft.mkSpiffs true (Some old)))
               [] old tracks_ring0 eq_refl). reflexivity.
  - apply runSensors_unmounted. reflexivity.
  - pose proof (runSensors_tracks inputs (Tft.mkSketch sc Tft.ring0 (Tft.mkSpiffs false file))
                  [] tracks_ring0) as (_ & Hcnt & _).
    rewrite Hcnt. cbn [app]. unfold samplesOf. now rewrite length_map.
Qed.

(** * The LVGL sketch: battery, calibration file, chart and table *)

Module LvglPanel.

(** *** Battery *)

(** [settings.batteryCalibration[i]]. *)
Definition batteryCal (s : Lvgl.Settings) (i : nat) : float :=
  default (Q2Qc 0) (Lvgl.batteryCalibration s !! i).

(** [readBatteryVoltage], given the value [analogRead(BATTERY_PIN)]
    returns. *)
Definition readBatteryVoltage (rawValue : Z) (s : Lvgl.Settings) : float :=
  let voltage := (Q2Qc (inject_Z rawValue) * Q2Qc (33 # 10) / Q2Qc (4095 # 1))%Qc in
  if bool_decide (batteryCal s 0 <> Q2Qc 0) && bool_decide (batteryCal s 1 <> Q2Qc 0)
  then (voltage * (batteryCal s 1 / Q2Qc (33 # 10)))%Qc
  else voltage.

(** [getBatteryPercentage]. *)
Definition getBatteryPercentage (rawValue : Z) (s : Lvgl.Settings) : Z :=
  let voltage := readBatteryVoltage rawValue s in
  let minVoltage := Q2Qc (3 # 1) in
  let maxVoltage := Q2Qc (42 # 10) in
  let voltage := if bool_decide (maxVoltage < voltage)%Qc then maxVoltage else voltage in
  let voltage := if bool_decide (voltage < minVoltage)%Qc then minVoltage else voltage in
  let percentage :=
    c_int ((voltage - minVoltage) / (maxVoltage - minVoltage) * Q2Qc (100 # 1))%Qc in
  let percentage := if 100 <? percentage then 100 else percentage in
  let percentage := if percentage <? 0 then 0 else percentage in
  percentage.

(** *** Touch calibration file *)

(** [String::toInt()], that is [atol]: blanks, a sign, digits; zero when
    there is no digit. *)
Definition toInt (s : Str) : Z :=
  match Libc.scanInt s with
  | Some (v, _) => v
  | None => 0
  end.

(** Conversion to [uint16_t]. *)
Definition to_uint16 (z : Z) : Z := z `mod` 65536.

(** The SPIFFS volume: whether [SPIFFS.begin(true)] succeeds, and the
    contents of [/touch_cal.txt] when the file exists. *)
Record Volume := mkVolume {
  mountable : bool;
  touch_cal_txt : option Str
}.

(** The globals [calData] and [calibration_done]. *)
Record TouchCal := mkTouchCal {
  calData : list Z;
  calibration_done : bool
}.

(** [uint16_t calData[5] = {0, 0, 0, 0, 0}; bool calibration_done = false;]. *)
Definition touchCal0 : TouchCal := mkTouchCal (replicate 5 0) false.

(** The text [calibrate_touch] writes: the five values, separated by
    commas. *)
Definition calText (cal : list Z) : Str :=
  concat (map (fun i => Arduino.printNumber (default 0 (cal !! Z.to_nat i)) ++
                        (if i <? 4 then Arduino.lit "," else []))
              (seqZ 0 5)).

(** [calibrate_touch]: [measured] is what [tft.calibrateTouch] stores in
    [calData].  The function returns before it marks the calibration as
    done when the volume cannot be mounted. *)
Definition calibrate_touch (measured : list Z) (fs : Volume) (c : TouchCal)
  : Volume * TouchCal :=
  if mountable fs then
    (mkVolume true (Some (calText measured)), mkTouchCal measured true)
  else (fs, mkTouchCal measured (calibration_done c)).

(** [load_calibration]. *)
Definition load_calibration (fs : Volume) (c : TouchCal) : TouchCal :=
  if mountable fs then
    match touch_cal_txt fs with
    | Some data =>
        let pos1 := Arduino.indexOf "," data in
        let pos2 := Arduino.indexOfFrom "," (pos1 + 1) data in
        let pos3 := Arduino.indexOfFrom "," (pos2 + 1) data in
        let pos4 := Arduino.indexOfFrom "," (pos3 + 1) data in
        if (0 <? pos1) && (pos1 <? pos2) && (pos2 <? pos3) && (pos3 <? pos4) then
          mkTouchCal
            [to_uint16 (toInt (Arduino.substring 0 pos1 data));
             to_uint16 (toInt (Arduino.substring (pos1 + 1) pos2 data));
             to_uint16 (toInt (Arduino.substring (pos2 + 1) pos3 data));
             to_uint16 (toInt (Arduino.substring (pos3 + 1) pos4 data));
             to_uint16 (toInt (Arduino.substring (pos4 + 1) (Arduino.len data) data))]
            true
        else mkTouchCal (calData c) false
    | None => mkTouchCal (calData c) false
    end
  else c.

(** The start of [setup]: [load_calibration(); if (!calibration_done)
    calibrate_touch();]. *)
Definition bootCalibration (measured : list Z) (fs : Volume) : Volume * TouchCal :=
  let c := load_calibration fs touchCal0 in
  if calibration_done c then (fs, c) else calibrate_touch measured fs c.

(** [my_touchpad_read]: the point reported to LVGL, if any. *)
Definition my_touchpad_read (c : TouchCal) (touch : option (Z * Z)) : option (Z * Z) :=
  if calibration_done c then touch else None.

(** *** Chart and table *)

(** The slot [data[i][index]]. *)
Definition slot (td : Lvgl.TempData) (i index : Z) : Lvgl.SensorData :=
  (Lvgl.data td !!! Z.to_nat i) !!! Z.to_nat index.

(** The calls [lv_chart_set_value_by_id(chart, series, id, value)] that
    [update_chart] makes for sensor [i], as pairs [(id, value)].  The
    chart has a series for every sensor, as [create_dashboard] makes
    them; the readings of the sensor times 100 fit [int16_t]. *)
Definition chartPoints (td : Lvgl.TempData) (i : Z) : list (Z * Z) :=
  let count := Lvgl.dataCount td !!! Z.to_nat i in
  if 0 <? count then
    let startIndex := if 60 <? count then count - 60 else 0 in
    concat (map (fun j =>
                   let index := (Lvgl.currentDataIndex td !!! Z.to_nat i - (count - j)
                                 + Lvgl.MAX_DATA_POINTS) %% Lvgl.MAX_DATA_POINTS in
                   let temp := Lvgl.temperature (slot td i index) in
                   if bool_decide (temp <> DEVICE_DISCONNECTED_C)
                   then [(j - startIndex, c_int (temp * Q2Qc (100 # 1))%Qc)] else [])
                (seqZ startIndex (count - startIndex)))
  else [].

(** [update_chart]. *)
Definition update_chart (td : Lvgl.TempData) : list (list (Z * Z)) :=
  map (chartPoints td) (seqZ 0 (Lvgl.sensorCount td)).

(** What a list of calls [lv_chart_set_value_by_id(chart, series, id,
    value)] does to the points of the series: point [id] takes the value,
    every other point keeps the one it has, and a call whose [id] is not
    below the point count changes nothing.  [update_chart] makes no other
    call on the points: "no need to clear". *)
Definition set_values (calls : list (Z * Z)) (points : list Z) : list Z :=
  foldl (fun pts call => <[Z.to_nat (fst call) := snd call]> pts) points calls.

(** [hour(t)] and [minute(t)] of the Time library, which computes on 32
    bits. *)
Definition hour (t : time_t) : Z := (t `mod` 4294967296 / 3600) `mod` 24.
Definition minute (t : time_t) : Z := (t `mod` 4294967296 / 60) `mod` 60.

(** A row [update_table] fills: its number in the table, the text of the
    time cell, and per sensor the reading handed to [dtostrf], or [None]
    for the cell ["N/A"]. *)
Record TableRow := mkTableRow {
  row : Z;
  timeStr : Str;
  cells : list (option float)
}.

(** [update_table]; [rows] is what [lv_table_get_row_cnt] returns. *)
Definition update_table (rows : Z) (td : Lvgl.TempData) : list TableRow :=
  let maxPoints := Z.min 10 Lvgl.MAX_DATA_POINTS in
  let dataStartRow := Z.max 1 (rows - maxPoints) in
  let shown := Z.min (Lvgl.dataCount td !!! 0%nat) maxPoints in
  map (fun i =>
         let dataIndex := (Lvgl.currentDataIndex td !!! 0%nat - (shown - i)
                           + Lvgl.MAX_DATA_POINTS) %% Lvgl.MAX_DATA_POINTS in
         let time := Lvgl.timestamp (slot td 0 dataIndex) in
         {| row := dataStartRow + i;
            timeStr := Libc.pad2 (hour time) ++ Arduino.lit ":" ++ Libc.pad2 (minute time);
            cells := map (fun j =>
                            let temp := Lvgl.temperature (slot td j dataIndex) in
                            if bool_decide (temp <> DEVICE_DISCONNECTED_C)
                            then Some temp else None)
                         (seqZ 0 (Lvgl.sensorCount td)) |})
      (seqZ 0 shown).

End LvglPanel.

Section LvglBatteryFacts.
Import LvglPanel.

(** The voltage after the two clamps of [getBatteryPercentage]. *)
Definition clampedVoltage (v : float) : float :=
  let v := if bool_decide (Q2Qc (42 # 10) < v)%Qc then Q2Qc (42 # 10) else v in
  if bool_decide (v < Q2Qc (3 # 1))%Qc then Q2Qc (3 # 1) else v.

Lemma clampedVoltage_spec v :
  (3 <= this (clampedVoltage v))%Q /\ (this (clampedVoltage v) <= 42 # 10)%Q /\
  ((this v <= 42 # 10)%Q -> (3 <= this v)%Q -> clampedVoltage v = v).
Proof.
  unfold clampedVoltage. cbv zeta.
  repeat case_bool_decide; unfold Qclt in *; rewrite ?this_Q2Qc in *;
    (split; [lra|]); (split; [lra|]); intros H1 H2; try reflexivity; lra.
Qed.

Lemma clampedVoltage_mono v w :
  (this v <= this w)%Q -> (this (clampedVoltage v) <= this (clampedVoltage w))%Q.
Proof.
  intros H. unfold clampedVoltage. cbv zeta.
  repeat case_bool_decide; unfold Qclt in *; rewrite ?this_Q2Qc in *; lra.
Qed.

(** The percentage before its clamps, as a rational. *)
Lemma percentage_value v :
  this ((v - Q2Qc (3 # 1)) / (Q2Qc (42 # 10) - Q2Qc (3 # 1)) * Q2Qc (100 # 1))%Qc
  == (this v - 3) * (250 # 3).
Proof.
  rewrite this_mult, this_div, !this_minus, !this_Q2Qc. field.
Qed.

Lemma getBatteryPercentage_eq raw s :
  getBatteryPercentage raw s
  = let p := c_int ((clampedVoltage (readBatteryVoltage raw s) - Q2Qc (3 # 1))
                    / (Q2Qc (42 # 10) - Q2Qc (3 # 1)) * Q2Qc (100 # 1))%Qc in
    let p := if 100 <? p then 100 else p in
    if p <? 0 then 0 else p.
Proof. reflexivity. Qed.

Lemma readBatteryVoltage_mono raw raw' s :
  raw <= raw' -> (0 <= batteryCal s 1)%Qc ->
  (this (readBatteryVoltage raw s) <= this (readBatteryVoltage raw' s))%Q.
Proof.
  intros Hle Hc. unfold readBatteryVoltage. cbv zeta.
  unfold Qcle in Hc. change (this 0%Qc) with 0%Q in Hc.
  rewrite Zle_Qle in Hle.
  destruct (bool_decide (batteryCal s 0 <> Q2Qc 0) && bool_decide (batteryCal s 1 <> Q2Qc 0)).
  - rewrite !this_mult, !this_div, !this_mult, !this_Q2Qc.
    apply Qmult_le_compat_r.
    + apply Qmult_le_compat_r; [lra|]. apply Qinv_le_0_compat. lra.
    + apply Qle_shift_div_l; lra.
  - rewrite !this_div, !this_mult, !this_Q2Qc.
    apply Qmult_le_compat_r; [lra|]. apply Qinv_le_0_compat. lra.
Qed.

End LvglBatteryFacts.

(** X12.  [getBatteryPercentage] returns a value between 0 and 100 that
    does not decrease when the ADC value grows (the calibration value
    of 100 % being non-negative).  While either calibration value is zero,
    as the zero-initialised [settings] have them, the result never
    exceeds 25.  The calibration value of 0 % only switches the
    calibration on: its magnitude never enters the result. *)
Theorem lvgl_battery_percentage_bounds
  (raw raw' : Z) (s : Lvgl.Settings)
  (Hle : raw <= raw') (Hcal : (0 <= LvglPanel.batteryCal s 1)%Qc) :
  let p := LvglPanel.getBatteryPercentage raw s in
  0 <= p <= 100 /\ p <= LvglPanel.getBatteryPercentage raw' s /\
  (raw <= 4095 ->
   LvglPanel.batteryCal s 0 = Q2Qc 0 \/ LvglPanel.batteryCal s 1 = Q2Qc 0 -> p <= 25) /\
  (forall s', LvglPanel.batteryCal s' 1 = LvglPanel.batteryCal s 1 ->
              LvglPanel.batteryCal s 0 <> Q2Qc 0 -> LvglPanel.batteryCal s' 0 <> Q2Qc 0 ->
              LvglPanel.getBatteryPercentage raw s' = p).
Proof.
  cbv zeta. rewrite !getBatteryPercentage_eq. cbv zeta.
  pose proof (clampedVoltage_spec (LvglPanel.readBatteryVoltage raw s)) as (Hlo & Hhi & _).
  pose proof (clampedVoltage_mono _ _ (readBatteryVoltage_mono raw raw' s Hle Hcal)) as Hm.
  assert (Hmono : c_int ((clampedVoltage (LvglPanel.readBatteryVoltage raw s) - Q2Qc (3 # 1))
                         / (Q2Qc (42 # 10) - Q2Qc (3 # 1)) * Q2Qc (100 # 1))%Qc
                  <= c_int ((clampedVoltage (LvglPanel.readBatteryVoltage raw' s) - Q2Qc (3 # 1))
                            / (Q2Qc (42 # 10) - Q2Qc (3 # 1)) * Q2Qc (100 # 1))%Qc).
  { apply c_int_mono. rewrite !percentage_value. lra. }
  split; [repeat case_match; lia|]. split; [repeat case_match; lia|]. split.
  - intros Hraw Hz.
    assert (Hv : (this (LvglPanel.readBatteryVoltage raw s) <= 33 # 10)%Q).
    { unfold LvglPanel.readBatteryVoltage. cbv zeta.
      assert (Hcond : bool_decide (LvglPanel.batteryCal s 0 <> Q2Qc 0)
                      && bool_decide (LvglPanel.batteryCal s 1 <> Q2Qc 0) = false).
      { destruct Hz as [Hz|Hz]; rewrite Hz.
        - rewrite (bool_decide_eq_false_2 (Q2Qc 0 <> Q2Qc 0)) by tauto. reflexivity.
        - rewrite (bool_decide_eq_false_2 (Q2Qc 0 <> Q2Qc 0)) by tauto. apply andb_false_r. }
      rewrite Hcond, this_div, this_mult, !this_Q2Qc.
      apply Qle_shift_div_r; [lra|]. rewrite Zle_Qle in Hraw.
      change (inject_Z 4095) with (4095 # 1) in Hraw. lra. }
    assert (Hcv : (this (clampedVoltage (LvglPanel.readBatteryVoltage raw s)) <= 33 # 10)%Q).
    { pose proof (clampedVoltage_mono (LvglPanel.readBatteryVoltage raw s) (Q2Qc (33 # 10))) as H.
      rewrite this_Q2Qc in H. specialize (H Hv).
      destruct (clampedVoltage_spec (Q2Qc (33 # 10))) as (_ & _ & Hid).
      rewrite Hid in H by (rewrite this_Q2Qc; lra). rewrite this_Q2Qc in H. exact H. }
    assert (Hp : c_int ((clampedVoltage (LvglPanel.readBatteryVoltage raw s) - Q2Qc (3 # 1))
                        / (Q2Qc (42 # 10) - Q2Qc (3 # 1)) * Q2Qc (100 # 1))%Qc <= 25).
    { rewrite <- (c_int_inject 25). apply c_int_mono.
      rewrite percentage_value, this_Q2Qc. change (inject_Z 25) with (25 # 1). lra. }
    repeat case_match; lia.
  - intros s' H1 H0 H0'. rewrite getBatteryPercentage_eq. cbv zeta.
    unfold LvglPanel.readBatteryVoltage.
    rewrite H1.
    rewrite (bool_decide_eq_true_2 (LvglPanel.batteryCal s 0 <> Q2Qc 0)) by exact H0.
    rewrite (bool_decide_eq_true_2 (LvglPanel.batteryCal s' 0 <> Q2Qc 0)) by exact H0'.
    reflexivity.
Qed.

Lemma lvgl_battery_percentage_bounds_witness :
  3000 <= 4095 /\ (0 <= LvglPanel.batteryCal Lvgl.defaultSettings 1)%Qc /\
  LvglPanel.getBatteryPercentage 3000 Lvgl.defaultSettings
  <= LvglPanel.getBatteryPercentage 4095 Lvgl.defaultSettings.
Proof.
  assert (H1 : 3000 <= 4095) by lia.
  assert (H2 : (0 <= LvglPanel.batteryCal Lvgl.defaultSettings 1)%Qc)
    by (vm_compute; discriminate).
  split; [exact H1|]. split; [exact H2|].
  exact (proj1 (proj2 (lvgl_battery_percentage_bounds 3000 4095 Lvgl.defaultSettings H1 H2))).
Defined.

(** ** The touch calibration file *)

Section CalibrationFacts.
Import Arduino LvglPanel.

(** A field of the file: no comma in it. *)
Definition commaFree (f : Str) : Prop := Forall (fun c => ascii_eqb c "," = false) f.

Lemma indexOf_miss (s : Str) : commaFree s -> indexOf "," s = -1.
Proof.
  intros H. unfold indexOf, indexOfFrom. cbv zeta.
  change (to_unsigned 0) with 0. destruct (len s <=? 0); [reflexivity|].
  now apply find_from_miss.
Qed.

(** The five fields between the four commas, whatever they contain. *)
Lemma load_calibration_fields (f0 f1 f2 f3 f4 : Str) c :
  commaFree f0 -> commaFree f1 -> commaFree f2 -> commaFree f3 -> commaFree f4 ->
  f0 <> [] ->
  len (f0 ++ ","%char :: f1 ++ ","%char :: f2 ++ ","%char :: f3 ++ ","%char :: f4)
    < 4294967296 ->
  load_calibration
    (mkVolume true
       (Some (f0 ++ ","%char :: f1 ++ ","%char :: f2 ++ ","%char :: f3 ++ ","%char :: f4))) c
  = mkTouchCal (map (fun f => to_uint16 (toInt f)) [f0; f1; f2; f3; f4]) true.
Proof.
  intros H0 H1 H2 H3 H4 Hne Hlen.
  set (data := f0 ++ ","%char :: f1 ++ ","%char :: f2 ++ ","%char :: f3 ++ ","%char :: f4) in *.
  set (p1 := f0 ++ [","%char]).
  set (p2 := p1 ++ f1 ++ [","%char]).
  set (p3 := p2 ++ f2 ++ [","%char]).
  set (p4 := p3 ++ f3 ++ [","%char]).
  assert (E1 : data = p1 ++ f1 ++ ","%char :: f2 ++ ","%char :: f3 ++ ","%char :: f4)
    by (unfold data, p1; now rewrite <- app_assoc).
  assert (E2 : data = p2 ++ f2 ++ ","%char :: f3 ++ ","%char :: f4)
    by (rewrite E1; unfold p2; now rewrite <- !app_assoc).
  assert (E3 : data = p3 ++ f3 ++ ","%char :: f4)
    by (rewrite E2; unfold p3; now rewrite <- !app_assoc).
  assert (E4 : data = p4 ++ f4 ++ [])
    by (rewrite E3; unfold p4; now rewrite <- !app_assoc, app_nil_r).
  assert (L1 : len p1 = len f0 + 1) by (unfold p1; rewrite len_app; reflexivity).
  assert (L2 : len p2 = len p1 + len f1 + 1)
    by (unfold p2; rewrite !len_app; change (len [","%char]) with 1; lia).
  assert (L3 : len p3 = len p2 + len f2 + 1)
    by (unfold p3; rewrite !len_app; change (len [","%char]) with 1; lia).
  assert (L4 : len p4 = len p3 + len f3 + 1)
    by (unfold p4; rewrite !len_app; change (len [","%char]) with 1; lia).
  assert (P1 : indexOf "," data = len f0) by (apply indexOf_hit; assumption).
  assert (P2 : indexOfFrom "," (len f0 + 1) data = len p1 + len f1).
  { rewrite <- L1. rewrite E1 at 1. apply indexOfFrom_hit; [assumption|now rewrite <- E1]. }
  assert (P3 : indexOfFrom "," (len p1 + len f1 + 1) data = len p2 + len f2).
  { rewrite <- L2. rewrite E2 at 1. apply indexOfFrom_hit; [assumption|now rewrite <- E2]. }
  assert (P4 : indexOfFrom "," (len p2 + len f2 + 1) data = len p3 + len f3).
  { rewrite <- L3. rewrite E3 at 1. apply indexOfFrom_hit; [assumption|now rewrite <- E3]. }
  assert (S0 : substring 0 (len f0) data = f0) by (apply substring_prefix; assumption).
  assert (S1 : substring (len f0 + 1) (len p1 + len f1) data = f1).
  { rewrite <- L1. rewrite E1 at 1. apply substring_middle. now rewrite <- E1. }
  assert (S2 : substring (len p1 + len f1 + 1) (len p2 + len f2) data = f2).
  { rewrite <- L2. rewrite E2 at 1. apply substring_middle. now rewrite <- E2. }
  assert (S3 : substring (len p2 + len f2 + 1) (len p3 + len f3) data = f3).
  { rewrite <- L3. rewrite E3 at 1. apply substring_middle. now rewrite <- E3. }
  assert (S4 : substring (len p3 + len f3 + 1) (len data) data = f4).
  { rewrite <- L4. replace (len data) with (len p4 + len f4)
      by (rewrite E4, !len_app; change (len []) with 0; lia).
    rewrite E4 at 1. apply substring_middle. now rewrite <- E4. }
  unfold load_calibration. cbn [mountable touch_cal_txt]. cbv zeta.
  rewrite P1, P2, P3, P4, S0, S1, S2, S3, S4.
  pose proof (len_nonneg f1). pose proof (len_nonneg f2). pose proof (len_nonneg f3).
  assert (0 < len f0) by (destruct f0; [congruence|rewrite len_cons; pose proof (len_nonneg f0); lia]).
  replace ((0 <? len f0) && (len f0 <? len p1 + len f1) && (len p1 + len f1 <? len p2 + len f2)
           && (len p2 + len f2 <? len p3 + len f3)) with true by lia.
  reflexivity.
Qed.

Lemma calText_fields v0 v1 v2 v3 v4 :
  calText [v0; v1; v2; v3; v4]
  = printNumber v0 ++ ","%char :: printNumber v1 ++ ","%char :: printNumber v2 ++
    ","%char :: printNumber v3 ++ ","%char :: printNumber v4.
Proof.
  unfold calText. change (seqZ 0 5) with [0; 1; 2; 3; 4].
  cbn [map concat lookup list_lookup Z.to_nat Pos.to_nat Pos.iter_op Nat.add default
       from_option id Z.ltb Z.compare Pos.compare Pos.compare_cont].
  rewrite !app_nil_r, <- !app_assoc. reflexivity.
Qed.

Lemma digits_commaFree (s : Str) :
  Forall (fun c => isdigit c = true) s -> commaFree s.
Proof. intros H. eapply Forall_impl; [exact H|]. intros c Hc. now apply isdigit_neq. Qed.

Lemma toInt_printNumber v : 0 <= v -> toInt (printNumber v) = v.
Proof.
  intros Hv. unfold toInt.
  rewrite <- (app_nil_r (printNumber v)), scanInt_printNumber by (trivial; exact I).
  reflexivity.
Qed.

Lemma load_calibration_calText measured c :
  length measured = 5%nat -> Forall (fun v => 0 <= v < 65536) measured ->
  load_calibration (mkVolume true (Some (calText measured))) c = mkTouchCal measured true.
Proof.
  intros Hlen Hv.
  destruct measured as [|v0 [|v1 [|v2 [|v3 [|v4 [|]]]]]]; try discriminate Hlen.
  apply Forall_cons in Hv as [B0 Hv]. apply Forall_cons in Hv as [B1 Hv].
  apply Forall_cons in Hv as [B2 Hv]. apply Forall_cons in Hv as [B3 Hv].
  apply Forall_cons in Hv as [B4 _].
  rewrite calText_fields.
  destruct (printNumber_spec v0 ltac:(lia)) as (D0 & _ & _).
  destruct (printNumber_spec v1 ltac:(lia)) as (D1 & _ & _).
  destruct (printNumber_spec v2 ltac:(lia)) as (D2 & _ & _).
  destruct (printNumber_spec v3 ltac:(lia)) as (D3 & _ & _).
  destruct (printNumber_spec v4 ltac:(lia)) as (D4 & _ & _).
  pose proof (printNumber_len v0 65535 ltac:(lia)) as N0.
  pose proof (printNumber_len v1 65535 ltac:(lia)) as N1.
  pose proof (printNumber_len v2 65535 ltac:(lia)) as N2.
  pose proof (printNumber_len v3 65535 ltac:(lia)) as N3.
  pose proof (printNumber_len v4 65535 ltac:(lia)) as N4.
  change (Z.log2 65535) with 15 in *.
  rewrite load_calibration_fields; try (apply digits_commaFree; assumption).
  - cbn [map]. rewrite !toInt_printNumber by lia.
    unfold to_uint16. rewrite !Z.mod_small by lia. reflexivity.
  - intros E. rewrite E in N0. change (len []) with 0 in N0. lia.
  - rewrite !len_app, !len_cons, !len_app, !len_cons, !len_app, !len_cons, !len_app, !len_cons.
    lia.
Qed.

End CalibrationFacts.

(** X13.  The calibration file round-trips: for every five values that
    fit [uint16_t], [load_calibration] after [calibrate_touch] on a
    mounted volume restores exactly the values measured and marks the
    calibration as done, whatever [calData] held in between. *)
Theorem calibration_file_round_trip
  (measured : list Z) (fs : LvglPanel.Volume) (c c' : LvglPanel.TouchCal)
  (Hm : LvglPanel.mountable fs = true)
  (Hlen : length measured = 5%nat)
  (Hv : Forall (fun v => 0 <= v < 65536) measured) :
  let r := LvglPanel.calibrate_touch measured fs c in
  snd r = LvglPanel.mkTouchCal measured true /\
  LvglPanel.load_calibration (fst r) c' = LvglPanel.mkTouchCal measured true.
Proof.
  cbv zeta. unfold LvglPanel.calibrate_touch. rewrite Hm. cbn [fst snd].
  split; [reflexivity|]. now apply load_calibration_calText.
Qed.

Lemma calibration_file_round_trip_witness :
  LvglPanel.mountable (LvglPanel.mkVolume true None) = true /\
  length [300; 3600; 250; 3500; 7] = 5%nat /\
  Forall (fun v => 0 <= v < 65536) [300; 3600; 250; 3500; 7] /\
  LvglPanel.load_calibration
    (fst (LvglPanel.calibrate_touch [300; 3600; 250; 3500; 7] (LvglPanel.mkVolume true None)
            LvglPanel.touchCal0))
    LvglPanel.touchCal0
  = LvglPanel.mkTouchCal [300; 3600; 250; 3500; 7] true.
Proof.
  assert (H1 : LvglPanel.mountable (LvglPanel.mkVolume true None) = true) by reflexivity.
  assert (H2 : length [300; 3600; 250; 3500; 7] = 5%nat) by reflexivity.
  assert (H3 : Forall (fun v => 0 <= v < 65536) [300; 3600; 250; 3500; 7])
    by (repeat constructor; lia).
  split; [exact H1|]. split; [exact H2|]. split; [exact H3|].
  exact (proj2 (calibration_file_round_trip [300; 3600; 250; 3500; 7]
                  (LvglPanel.mkVolume true None) LvglPanel.touchCal0 LvglPanel.touchCal0
                  H1 H2 H3)).
Defined.

(** X14.  What [load_calibration] accepts.  With the file absent, or
    with a content that has no comma (the empty file included), it
    reports that a calibration is needed and leaves [calData] alone; when
    the volume cannot be mounted it changes nothing at all.  It checks
    nothing but the commas: any content made of five comma-free fields
    of at most nine characters, the first one non-empty, is accepted as
    a calibration, each value being what [toInt] makes of its field (zero
    for a field that is not a number), reduced to 16 bits. *)
Theorem load_calibration_checks_commas_only
  (c : LvglPanel.TouchCal) (file : option Str) (data f0 f1 f2 f3 f4 : Str)
  (Hdata : commaFree data)
  (H0 : commaFree f0) (H1 : commaFree f1) (H2 : commaFree f2)
  (H3 : commaFree f3) (H4 : commaFree f4)
  (Hne : f0 <> [])
  (Hshort : Forall (fun f => Arduino.len f <= 9) [f0; f1; f2; f3; f4]) :
  LvglPanel.load_calibration (LvglPanel.mkVolume true None) c
  = LvglPanel.mkTouchCal (LvglPanel.calData c) false /\
  LvglPanel.load_calibration (LvglPanel.mkVolume true (Some data)) c
  = LvglPanel.mkTouchCal (LvglPanel.calData c) false /\
  LvglPanel.load_calibration (LvglPanel.mkVolume false file) c = c /\
  LvglPanel.load_calibration
    (LvglPanel.mkVolume true
       (Some (f0 ++ ","%char :: f1 ++ ","%char :: f2 ++ ","%char :: f3 ++ ","%char :: f4))) c
  = LvglPanel.mkTouchCal
      (map (fun f => LvglPanel.to_uint16 (LvglPanel.toInt f)) [f0; f1; f2; f3; f4]) true.
Proof.
  split; [reflexivity|]. split; [|split; [reflexivity|]].
  - unfold LvglPanel.load_calibration.
    cbn [LvglPanel.mountable LvglPanel.touch_cal_txt]. cbv zeta.
    rewrite (indexOf_miss data Hdata). reflexivity.
  - apply load_calibration_fields; try assumption.
    apply Forall_cons in Hshort as [B0 Hshort]. apply Forall_cons in Hshort as [B1 Hshort].
    apply Forall_cons in Hshort as [B2 Hshort]. apply Forall_cons in Hshort as [B3 Hshort].
    apply Forall_cons in Hshort as [B4 _].
    rewrite !len_app, !len_cons, !len_app, !len_cons, !len_app, !len_cons, !len_app, !len_cons.
    lia.
Qed.

Lemma load_calibration_checks_commas_only_witness :
  commaFree (Arduino.lit "300 3600 250 3500 7") /\
  Forall commaFree [Arduino.lit "x"; []; Arduino.lit "oops"; Arduino.lit " 12"; Arduino.lit "-3"] /\
  Arduino.lit "x" <> [] /\
  Forall (fun f => Arduino.len f <= 9)
    [Arduino.lit "x"; []; Arduino.lit "oops"; Arduino.lit " 12"; Arduino.lit "-3"] /\
  LvglPanel.load_calibration
    (LvglPanel.mkVolume true (Some (Arduino.lit "x,,oops, 12,-3"))) LvglPanel.touchCal0
  = LvglPanel.mkTouchCal [0; 0; 0; 12; 65533] true /\
  LvglPanel.load_calibration
    (LvglPanel.mkVolume true (Some (Arduino.lit "300 3600 250 3500 7"))) LvglPanel.touchCal0
  = LvglPanel.mkTouchCal [0; 0; 0; 0; 0] false.
Proof.
  assert (Hd : commaFree (Arduino.lit "300 3600 250 3500 7")) by (repeat constructor).
  assert (Hf : Forall commaFree
                 [Arduino.lit "x"; []; Arduino.lit "oops"; Arduino.lit " 12"; Arduino.lit "-3"])
    by (repeat constructor).
  assert (Hne : Arduino.lit "x" <> []) by discriminate.
  assert (Hs : Forall (fun f => Arduino.len f <= 9)
                 [Arduino.lit "x"; []; Arduino.lit "oops"; Arduino.lit " 12"; Arduino.lit "-3"])
    by (repeat constructor; vm_compute; discriminate).
  split; [exact Hd|]. split; [exact Hf|]. split; [exact Hne|]. split; [exact Hs|].
  pose proof Hf as Hf'.
  apply Forall_cons in Hf' as [F0 Hf']. apply Forall_cons in Hf' as [F1 Hf'].
  apply Forall_cons in Hf' as [F2 Hf']. apply Forall_cons in Hf' as [F3 Hf'].
  apply Forall_cons in Hf' as [F4 _].
  pose proof (load_calibration_checks_commas_only LvglPanel.touchCal0 None
                (Arduino.lit "300 3600 250 3500 7")
                (Arduino.lit "x") [] (Arduino.lit "oops") (Arduino.lit " 12") (Arduino.lit "-3")
                Hd F0 F1 F2 F3 F4 Hne Hs)
    as (_ & Hb & _ & Ha).
  split; [exact Ha|exact Hb].
Defined.

Section BootFacts.
Import LvglPanel.

Lemma load_calibration_done fs c c' :
  calibration_done (load_calibration fs c) = true -> mountable fs = true ->
  load_calibration fs c' = load_calibration fs c.
Proof.
  unfold load_calibration. intros Hd Hm. rewrite Hm in *.
  destruct (touch_cal_txt fs) as [data|]; [|discriminate Hd].
  cbv zeta in *.
  destruct ((0 <? Arduino.indexOf "," data)
            && (Arduino.indexOf "," data <? Arduino.indexOfFrom "," (Arduino.indexOf "," data + 1) data)
            && _ && _); [reflexivity|discriminate Hd].
Qed.

End BootFacts.

(** X15.  The calibration at the start of [setup].  On a volume that
    mounts, whatever [/touch_cal.txt] holds, [setup] leaves the
    calibration marked as done and the file such that
    [load_calibration] returns from it exactly the calibration in use.
    On a volume that does not mount the calibration is never marked as
    done, although [calibrate_touch] has run, and [my_touchpad_read]
    reports no touch at all. *)
Theorem boot_calibration_matches_file
  (measured : list Z) (fs bad : LvglPanel.Volume) (c' : LvglPanel.TouchCal)
  (touch : option (Z * Z))
  (Hm : LvglPanel.mountable fs = true) (Hbad : LvglPanel.mountable bad = false)
  (Hlen : length measured = 5%nat)
  (Hv : Forall (fun v => 0 <= v < 65536) measured) :
  let r := LvglPanel.bootCalibration measured fs in
  let r' := LvglPanel.bootCalibration measured bad in
  LvglPanel.calibration_done (snd r) = true /\
  LvglPanel.load_calibration (fst r) c' = snd r /\
  LvglPanel.calibration_done (snd r') = false /\
  LvglPanel.calData (snd r') = measured /\
  LvglPanel.my_touchpad_read (snd r') touch = None.
Proof.
  cbv zeta. split; [|split].
  - unfold LvglPanel.bootCalibration. cbv zeta.
    destruct (LvglPanel.calibration_done (LvglPanel.load_calibration fs LvglPanel.touchCal0))
      eqn:E; [exact E|].
    unfold LvglPanel.calibrate_touch. rewrite Hm. reflexivity.
  - unfold LvglPanel.bootCalibration. cbv zeta.
    destruct (LvglPanel.calibration_done (LvglPanel.load_calibration fs LvglPanel.touchCal0))
      eqn:E.
    + cbn [fst snd]. now apply load_calibration_done.
    + unfold LvglPanel.calibrate_touch. rewrite Hm. cbn [fst snd].
      now apply load_calibration_calText.
  - assert (Hl : LvglPanel.load_calibration bad LvglPanel.touchCal0 = LvglPanel.touchCal0)
      by (unfold LvglPanel.load_calibration; now rewrite Hbad).
    unfold LvglPanel.bootCalibration. cbv zeta. rewrite Hl.
    cbn [LvglPanel.calibration_done LvglPanel.touchCal0].
    unfold LvglPanel.calibrate_touch. rewrite Hbad.
    cbn [snd LvglPanel.calibration_done LvglPanel.calData LvglPanel.my_touchpad_read].
    repeat split; reflexivity.
Qed.

Lemma boot_calibration_matches_file_witness :
  LvglPanel.mountable (LvglPanel.mkVolume true (Some (Arduino.lit "1,2,3"))) = true /\
  LvglPanel.mountable (LvglPanel.mkVolume false None) = false /\
  length [300; 3600; 250; 3500; 7] = 5%nat /\
  Forall (fun v => 0 <= v < 65536) [300; 3600; 250; 3500; 7] /\
  LvglPanel.calibration_done
    (snd (LvglPanel.bootCalibration [300; 3600; 250; 3500; 7]
            (LvglPanel.mkVolume true (Some (Arduino.lit "1,2,3"))))) = true.
Proof.
  assert (H1 : LvglPanel.mountable (LvglPanel.mkVolume true (Some (Arduino.lit "1,2,3"))) = true)
    by reflexivity.
  assert (H2 : LvglPanel.mountable (LvglPanel.mkVolume false None) = false) by reflexivity.
  assert (H3 : length [300; 3600; 250; 3500; 7] = 5%nat) by reflexivity.
  assert (H4 : Forall (fun v => 0 <= v < 65536) [300; 3600; 250; 3500; 7])
    by (repeat constructor; lia).
  split; [exact H1|]. split; [exact H2|]. split; [exact H3|]. split; [exact H4|].
  exact (proj1 (boot_calibration_matches_file [300; 3600; 250; 3500; 7]
                  (LvglPanel.mkVolume true (Some (Arduino.lit "1,2,3")))
                  (LvglPanel.mkVolume false None) LvglPanel.touchCal0 None H1 H2 H3 H4)).
Defined.

(** ** The chart and the table of the LVGL sketch *)

(** Every sensor in use returned a reading in every turn. *)
Definition allConnected (n : Z) (cycles : list ((Z -> float) * (Z -> time_t))) : bool :=
  forallb (fun c => forallb (fun i => bool_decide (fst c i <> DEVICE_DISCONNECTED_C)) (seqZ 0 n))
          cycles.

Section LvglViews.
Import Lvgl LvglPanel.

(** The slot [d] places behind the cursor of sensor [j] holds the
    [d]-th latest of its readings. *)
Lemma tracksCh_back td j l d :
  tracksCh td (Z.to_nat j) l -> 0 <= j ->
  1 <= d <= Z.min (Z.of_nat (length l)) MAX_DATA_POINTS ->
  l !! (length l - Z.to_nat d)%nat
  = Some (slot td j ((Z.of_nat (length l) `mod` MAX_DATA_POINTS - d + MAX_DATA_POINTS)
                     %% MAX_DATA_POINTS)).
Proof.
  intros (H1 & H2 & H3 & H4) Hj Hd. unfold MAX_DATA_POINTS in *.
  specialize (H4 (Z.to_nat (d - 1))). rewrite H1 in H4.
  specialize (H4 ltac:(lia)).
  rewrite reverse_lookup in H4 by lia.
  replace (length l - S (Z.to_nat (d - 1)))%nat with (length l - Z.to_nat d)%nat in H4 by lia.
  rewrite H4. unfold slot. f_equal. f_equal. f_equal.
  pose proof (Z.mod_pos_bound (Z.of_nat (length l)) 1000 ltac:(lia)).
  unfold c_rem. rewrite Z.rem_mod_nonneg by lia.
  replace (Z.of_nat (length l) `mod` 1000 - d + 1000)
    with ((Z.of_nat (length l) `mod` 1000 - d) + 1 * 1000) by lia.
  rewrite Z_mod_plus_full, Zminus_mod_idemp_l. f_equal. lia.
Qed.

Lemma concat_singletons {A B} (P : A -> bool) (g : A -> B) (l : list A) :
  Forall (fun a => P a = true) l ->
  concat (map (fun a => if P a then [g a] else []) l) = map g l.
Proof.
  induction 1 as [|a l Ha _ IH]; [reflexivity|].
  cbn [map concat]. rewrite Ha, IH. reflexivity.
Qed.

(** [update_chart] plots the latest readings of a sensor, at most 60,
    oldest first, at the positions 0, 1, 2, ... *)
Lemma chartPoints_tracks td j l :
  tracksCh td (Z.to_nat j) l -> 0 <= j ->
  Forall (fun x => temperature x <> DEVICE_DISCONNECTED_C) l ->
  chartPoints td j
  = imap (fun k x => (Z.of_nat k, c_int (temperature x * Q2Qc (100 # 1))%Qc))
         (drop (length l - 60) l).
Proof.
  intros Htr Hj Hconn. pose proof Htr as (H1 & H2 & _).
  unfold chartPoints. cbv zeta. rewrite H1, H2. unfold MAX_DATA_POINTS in *.
  set (N := Z.of_nat (length l)) in *.
  destruct (Z.ltb_spec 0 (Z.min N 1000)) as [Hpos|Hzero].
  2:{ destruct l; [reflexivity|]. unfold N in Hzero. cbn [length] in Hzero. lia. }
  set (start := if 60 <? Z.min N 1000 then Z.min N 1000 - 60 else 0).
  assert (Hm : Z.min N 1000 - start = Z.min N 60)
    by (unfold start; destruct (Z.ltb_spec 60 (Z.min N 1000)); lia).
  assert (Hs : 0 <= start) by (unfold start; destruct (Z.ltb_spec 60 (Z.min N 1000)); lia).
  rewrite Hm.
  assert (Hslot : forall t : nat, Z.of_nat t < Z.min N 60 ->
            exists x, l !! (length l - 60 + t)%nat = Some x /\
                      slot td j ((N `mod` 1000 - (Z.min N 1000 - (start + Z.of_nat t)) + 1000)
                                 %% 1000) = x).
  { intros t Ht.
    pose proof (tracksCh_back td j l (Z.min N 1000 - (start + Z.of_nat t)) Htr Hj) as Hb.
    unfold MAX_DATA_POINTS in Hb. fold N in Hb. specialize (Hb ltac:(lia)).
    eexists. split; [|reflexivity]. rewrite <- Hb. f_equal. unfold N in *. lia. }
  rewrite concat_singletons.
  - apply list_eq. intros t. rewrite list_lookup_fmap, list_lookup_imap, lookup_drop.
    destruct (decide (Z.of_nat t < Z.min N 60)) as [Ht|Ht].
    + rewrite lookup_seqZ_lt by lia. destruct (Hslot t Ht) as (x & Hx & Hsl).
      rewrite Hx. cbn [fmap option_fmap option_map]. rewrite Hsl.
      f_equal. f_equal. lia.
    + rewrite lookup_seqZ_ge by lia. rewrite lookup_ge_None_2; [reflexivity|].
      unfold N in Ht. lia.
  - apply Forall_forall. intros i Hi. apply elem_of_seqZ in Hi.
    destruct (Hslot (Z.to_nat (i - start)) ltac:(lia)) as (x & Hx & Hsl).
    replace (start + Z.of_nat (Z.to_nat (i - start))) with i in Hsl by lia.
    rewrite Hsl. apply bool_decide_eq_true_2.
    rewrite Forall_forall in Hconn. apply Hconn. eapply list_elem_of_lookup_2. exact Hx.
Qed.

Lemma accepted_connected n j cycles :
  Forall (fun x => temperature x <> DEVICE_DISCONNECTED_C) (accepted n j cycles).
Proof.
  unfold accepted. induction cycles as [|c cycles IH]; [constructor|].
  cbn [map concat]. apply Forall_app. split; [|exact IH].
  unfold storedBy. destruct (bool_decide (0 <= j < n)); cbn [andb]; [|constructor].
  case_bool_decide as Hc; constructor; [exact Hc|constructor].
Qed.

End LvglViews.

Section LvglTableFacts.
Import Lvgl LvglPanel.

(** The row [update_table] makes of one turn of [sensorTask]. *)
Definition rowOf (rows n : Z) (k : nat) (c : (Z -> float) * (Z -> time_t)) : TableRow :=
  {| row := Z.max 1 (rows - 10) + Z.of_nat k;
     timeStr := Libc.pad2 (hour (snd c 0)) ++ Arduino.lit ":" ++ Libc.pad2 (minute (snd c 0));
     cells := map (fun j => Some (fst c j)) (seqZ 0 n) |}.

(** What sensor [j] stores in a turn in which it is connected. *)
Definition readingOf (j : Z) (c : (Z -> float) * (Z -> time_t)) : SensorData :=
  {| temperature := fst c j; timestamp := snd c j |}.

Lemma allConnected_spec n cycles :
  allConnected n cycles = true ->
  forall c, c ∈ cycles -> forall j, 0 <= j < n -> fst c j <> DEVICE_DISCONNECTED_C.
Proof.
  unfold allConnected. rewrite forallb_forall. intros H c Hc j Hj.
  apply list_elem_of_In in Hc. specialize (H c Hc). rewrite forallb_forall in H.
  specialize (H j ltac:(apply list_elem_of_In, elem_of_seqZ; lia)).
  now apply bool_decide_eq_true in H.
Qed.

Lemma accepted_allConnected n j cycles :
  allConnected n cycles = true -> 0 <= j < n ->
  accepted n j cycles = map (readingOf j) cycles.
Proof.
  intros H Hj. pose proof (allConnected_spec n cycles H) as Hc. clear H.
  unfold accepted. induction cycles as [|c cycles IH]; [reflexivity|].
  cbn [map concat]. rewrite IH by (intros c' Hc'; apply Hc; now right).
  unfold storedBy. rewrite bool_decide_eq_true_2 by lia.
  rewrite bool_decide_eq_true_2 by (apply Hc; [left|exact Hj]). reflexivity.
Qed.

Lemma update_table_aligned rows td n cycles :
  sensorCount td = n -> 1 <= n ->
  (forall j, 0 <= j < n -> tracksCh td (Z.to_nat j) (map (readingOf j) cycles)) ->
  (forall c, c ∈ cycles -> forall j, 0 <= j < n -> fst c j <> DEVICE_DISCONNECTED_C) ->
  update_table rows td = imap (rowOf rows n) (drop (length cycles - 10) cycles).
Proof.
  intros Hn Hn1 Htr Hconn. unfold update_table. cbv zeta.
  pose proof (Htr 0 ltac:(lia)) as (H1 & H2 & _). change (Z.to_nat 0) with 0%nat in H1, H2.
  rewrite H1, H2, Hn, length_map. unfold MAX_DATA_POINTS in *.
  set (N := Z.of_nat (length cycles)) in *.
  change (Z.min 10 1000) with 10.
  replace (Z.min (Z.min N 1000) 10) with (Z.min N 10) by lia.
  apply list_eq. intros t. rewrite list_lookup_fmap, list_lookup_imap, lookup_drop.
  destruct (decide (Z.of_nat t < Z.min N 10)) as [Ht|Ht].
  2:{ rewrite lookup_seqZ_ge by lia. rewrite lookup_ge_None_2; [reflexivity|].
      unfold N in Ht. lia. }
  rewrite lookup_seqZ_lt by lia. rewrite Z.add_0_l.
  assert (Hlt : (length cycles - 10 + t < length cycles)%nat) by (unfold N in Ht; lia).
  destruct (lookup_lt_is_Some_2 cycles _ Hlt) as [c Hc]. rewrite Hc.
  cbn [fmap option_fmap option_map]. f_equal.
  assert (Hslot : forall j, 0 <= j < n ->
            slot td j ((N `mod` 1000 - (Z.min N 10 - Z.of_nat t) + 1000) %% 1000)
            = readingOf j c).
  { intros j Hj.
    pose proof (tracksCh_back td j _ (Z.min N 10 - Z.of_nat t) (Htr j Hj) ltac:(lia)) as Hb.
    rewrite length_map in Hb. unfold MAX_DATA_POINTS in Hb. fold N in Hb.
    specialize (Hb ltac:(lia)).
    rewrite list_lookup_fmap in Hb.
    replace (length cycles - Z.to_nat (Z.min N 10 - Z.of_nat t))%nat
      with (length cycles - 10 + t)%nat in Hb by (unfold N in *; lia).
    rewrite Hc in Hb. cbn [fmap option_fmap option_map] in Hb. now injection Hb. }
  unfold rowOf. rewrite (Hslot 0 ltac:(lia)). cbn [readingOf timestamp]. f_equal.
  apply list_eq. intros k. rewrite !list_lookup_fmap.
  destruct (decide (Z.of_nat k < n)) as [Hk|Hk].
  - rewrite lookup_seqZ_lt by lia. cbn [fmap option_fmap option_map]. rewrite Z.add_0_l.
    rewrite (Hslot (Z.of_nat k) ltac:(lia)). cbn [readingOf temperature].
    rewrite bool_decide_eq_true_2; [reflexivity|].
    apply Hconn; [|lia]. eapply list_elem_of_lookup_2. exact Hc.
  - rewrite lookup_seqZ_ge by lia. reflexivity.
Qed.

Lemma runCycles_shape cycles td l :
  0 <= sensorCount td <= MAX_SENSORS -> shaped td -> tracksCh td (Z.to_nat 0) l ->
  sensorCount (runCycles cycles td) = sensorCount td /\ shaped (runCycles cycles td).
Proof.
  revert td l. induction cycles as [|c cycles IH]; intros td l Hn Hsh Htr; [now split|].
  change (runCycles (c :: cycles) td) with (runCycles cycles (acquire c.1 c.2 td)).
  destruct (acquire_tracks c.1 c.2 td 0 l Hn ltac:(lia) Hsh Htr) as (Hsc & Hsh' & Htr').
  destruct (IH _ _ ltac:(rewrite Hsc; exact Hn) Hsh' Htr') as (IH1 & IH2).
  split; [congruence|exact IH2].
Qed.

(** "Clear Data" resets the counts, the cursors and the flags of all ten
    sensors and leaves the slots as they are. *)
Lemma clearData_eq td :
  shaped td ->
  clearData td = {| sensorCount := sensorCount td; data := data td;
                    dataCount := replicate 10 0; currentDataIndex := replicate 10 0;
                    dataOverflow := replicate 10 false |}.
Proof.
  intros (_ & S2 & S3 & S4 & _). destruct td as [n d cnt cur ovf].
  cbn [dataCount currentDataIndex dataOverflow] in *.
  change (Z.to_nat MAX_SENSORS) with 10%nat in *.
  do 10 (destruct cnt as [|? cnt]; [discriminate S2|]). destruct cnt; [|discriminate S2].
  do 10 (destruct cur as [|? cur]; [discriminate S3|]). destruct cur; [|discriminate S3].
  do 10 (destruct ovf as [|? ovf]; [discriminate S4|]). destruct ovf; [|discriminate S4].
  reflexivity.
Qed.

Lemma clearData_tracks td j :
  shaped td -> 0 <= j < MAX_SENSORS ->
  shaped (clearData td) /\ tracksCh (clearData td) (Z.to_nat j) [] /\
  sensorCount (clearData td) = sensorCount td /\ data (clearData td) = data td.
Proof.
  intros Hsh Hj. rewrite (clearData_eq td Hsh). pose proof Hsh as (S1 & _ & _ & _ & S5).
  unfold MAX_SENSORS in *.
  split; [|split; [|split; reflexivity]].
  - unfold shaped. cbn [data dataCount currentDataIndex dataOverflow].
    repeat split; try reflexivity; assumption.
  - unfold tracksCh. cbn [data dataCount currentDataIndex dataOverflow length].
    rewrite !lookup_total_replicate_2 by lia.
    repeat split. intros k Hk. cbn in Hk. lia.
Qed.

End LvglTableFacts.

(** X16.  [update_chart] plots, for each sensor in use, the readings that
    [sensorTask] has stored for it: the latest 60 of them (all when there
    are fewer), oldest first, at the positions 0, 1, 2, ... of the series,
    each as the reading times 100.  This holds however many readings were
    stored, also after the buffer of 1000 slots has wrapped. *)
Theorem lvgl_chart_plots_latest_sixty
  (n j : Z) (cycles : list ((Z -> float) * (Z -> time_t)))
  (Hj : 0 <= j < n) (Hn : n <= Lvgl.MAX_SENSORS) :
  let td := runCycles cycles (Lvgl.tempData0 n) in
  let stored := accepted n j cycles in
  LvglPanel.chartPoints td j
  = imap (fun k x => (Z.of_nat k, c_int (Lvgl.temperature x * Q2Qc (100 # 1))%Qc))
         (drop (length stored - 60) stored).
Proof.
  cbv zeta. apply chartPoints_tracks; [|lia|apply accepted_connected].
  pose proof (runCycles_tracks cycles (Lvgl.tempData0 n) j []) as H.
  rewrite app_nil_l in H. apply H.
  - cbn [Lvgl.sensorCount Lvgl.tempData0]. lia.
  - lia.
  - apply shaped_tempData0.
  - apply tracksCh_tempData0. unfold Lvgl.MAX_SENSORS in *. lia.
Qed.

Lemma lvgl_chart_plots_latest_sixty_witness :
  0 <= 0 < 1 /\ 1 <= Lvgl.MAX_SENSORS /\
  LvglPanel.chartPoints (runCycles demoCycles (Lvgl.tempData0 1)) 0
  = imap (fun k x => (Z.of_nat k, c_int (Lvgl.temperature x * Q2Qc (100 # 1))%Qc))
         (drop (length (accepted 1 0 demoCycles) - 60) (accepted 1 0 demoCycles)).
Proof.
  assert (H1 : 0 <= 0 < 1) by lia.
  assert (H2 : 1 <= Lvgl.MAX_SENSORS) by (unfold Lvgl.MAX_SENSORS; lia).
  split; [exact H1|]. split; [exact H2|].
  exact (lvgl_chart_plots_latest_sixty 1 0 demoCycles H1 H2).
Defined.

(** X17.  As long as no sensor in use has ever been disconnected,
    [update_table] shows the latest ten turns of [sensorTask] (all when
    there are fewer), oldest first, one row per turn: the time at which
    sensor 0 was stored, as hours and minutes, and the reading of every
    sensor in that same turn.  The rows are numbered from
    [max(1, rows - 10)]. *)
Theorem lvgl_table_shows_latest_ten_turns
  (rows n : Z) (cycles : list ((Z -> float) * (Z -> time_t)))
  (Hn : 1 <= n <= 10) (Hall : allConnected n cycles = true) :
  LvglPanel.update_table rows (runCycles cycles (Lvgl.tempData0 n))
  = imap (rowOf rows n) (drop (length cycles - 10) cycles).
Proof.
  assert (Hshape : Lvgl.sensorCount (runCycles cycles (Lvgl.tempData0 n)) = n).
  { apply (runCycles_shape cycles (Lvgl.tempData0 n) []).
    - cbn [Lvgl.sensorCount Lvgl.tempData0]. unfold Lvgl.MAX_SENSORS. lia.
    - apply shaped_tempData0.
    - apply tracksCh_tempData0. unfold Lvgl.MAX_SENSORS. lia. }
  apply update_table_aligned; [exact Hshape|lia| |now apply allConnected_spec].
  intros j Hj. rewrite <- (accepted_allConnected n j cycles Hall Hj).
  pose proof (runCycles_tracks cycles (Lvgl.tempData0 n) j []) as H.
  rewrite app_nil_l in H. apply H.
  - cbn [Lvgl.sensorCount Lvgl.tempData0]. unfold Lvgl.MAX_SENSORS. lia.
  - lia.
  - apply shaped_tempData0.
  - apply tracksCh_tempData0. unfold Lvgl.MAX_SENSORS. lia.
Qed.

(** Twelve turns of two connected sensors, one minute apart. *)
Definition steadyCycles : list ((Z -> float) * (Z -> time_t)) :=
  map (fun k => (fun i : Z => Q2Qc (2000 + k + i # 100), fun _ : Z => 1730600000 + 60 * k))
      (seqZ 0 12).

Lemma lvgl_table_shows_latest_ten_turns_witness :
  1 <= 2 <= 10 /\ allConnected 2 steadyCycles = true /\
  map LvglPanel.row (LvglPanel.update_table 1 (runCycles steadyCycles (Lvgl.tempData0 2)))
  = seqZ 1 10 /\
  LvglPanel.update_table 1 (runCycles steadyCycles (Lvgl.tempData0 2))
  = imap (rowOf 1 2) (drop (length steadyCycles - 10) steadyCycles).
Proof.
  assert (H1 : 1 <= 2 <= 10) by lia.
  assert (H2 : allConnected 2 steadyCycles = true) by (vm_compute; reflexivity).
  split; [exact H1|]. split; [exact H2|].
  pose proof (lvgl_table_shows_latest_ten_turns 1 2 steadyCycles H1 H2) as H.
  split; [|exact H]. rewrite H. vm_compute. reflexivity.
Defined.

Section ChartWidget.
Import Lvgl LvglPanel.

(** Calls that set the points 0, 1, 2, ... in turn replace that many
    points from the front and leave the rest. *)
Lemma set_values_imap {A} (g : A -> Z) (l : list A) (points : list Z) :
  (length l <= length points)%nat ->
  set_values (imap (fun k x => (Z.of_nat k, g x)) l) points
  = map g l ++ drop (length l) points.
Proof.
  induction l as [|x l IH] using rev_ind; intros Hlen; [reflexivity|].
  rewrite length_app in Hlen. cbn [length] in Hlen.
  unfold set_values in *. rewrite imap_app, foldl_app, IH by lia.
  cbn [imap foldl fst snd]. rewrite Nat.add_0_r, Nat2Z.id.
  rewrite map_app, length_app. cbn [map length].
  destruct (lookup_lt_is_Some_2 points (length l) ltac:(lia)) as [p Hp].
  rewrite (drop_S points p (length l) Hp).
  rewrite insert_app_r_alt by (rewrite length_map; lia).
  rewrite length_map, Nat.sub_diag. cbn [insert list_insert].
  rewrite <- app_assoc. cbn [app]. do 3 f_equal. lia.
Qed.

End ChartWidget.

(** X18.  "Clear Data" does not clear the chart.  It resets the counts
    and the cursors and leaves the slots as they are; an [update_chart]
    on the cleared state makes no call, so the series keeps every point
    it had, and an [update_table] on it fills no row.  After further
    turns of [sensorTask], [update_chart] overwrites the first points of
    the series with the readings stored since the button was pressed
    (the latest 60, oldest first, times 100) and leaves the points behind
    them as they were: old points stay on the chart until 60 new
    readings have been stored. *)
Theorem clear_data_leaves_old_chart_points
  (td0 : Lvgl.TempData) (rows n j : Z) (cycles : list ((Z -> float) * (Z -> time_t)))
  (points : list Z)
  (Hsh : shapedb td0 = true) (Hn : Lvgl.sensorCount td0 = n)
  (Hj : 0 <= j < n) (Hn10 : n <= Lvgl.MAX_SENSORS)
  (Hpoints : length points = 60%nat) :
  let cleared := Lvgl.clearData td0 in
  let td := runCycles cycles cleared in
  let stored := accepted n j cycles in
  let fresh := map (fun x => c_int (Lvgl.temperature x * Q2Qc (100 # 1))%Qc)
                   (drop (length stored - 60) stored) in
  Lvgl.data cleared = Lvgl.data td0 /\
  LvglPanel.update_table rows cleared = [] /\
  LvglPanel.set_values (LvglPanel.chartPoints cleared j) points = points /\
  LvglPanel.set_values (LvglPanel.chartPoints td j) points
  = fresh ++ drop (length fresh) points.
Proof.
  cbv zeta. pose proof (shapedb_spec td0 Hsh) as Hshaped.
  destruct (clearData_tracks td0 j Hshaped ltac:(lia)) as (Hs & Htr & Hsc & Hd).
  split; [exact Hd|]. split; [|split].
  - unfold LvglPanel.update_table. cbv zeta. rewrite (clearData_eq td0 Hshaped).
    reflexivity.
  - rewrite (chartPoints_tracks _ j [] Htr ltac:(lia)); [reflexivity|constructor].
  - rewrite (chartPoints_tracks _ j (accepted n j cycles)).
    + rewrite set_values_imap by (rewrite length_drop; lia).
      now rewrite length_map.
    + pose proof (runCycles_tracks cycles (Lvgl.clearData td0) j []) as H.
      rewrite app_nil_l, Hsc, Hn in H. apply H; [lia|lia|exact Hs|exact Htr].
    + lia.
    + apply accepted_connected.
Qed.

(** Five turns of one sensor after a clear, on a series that shows 60
    points of 9.99 degrees. *)
Definition freshCycles : list ((Z -> float) * (Z -> time_t)) :=
  map (fun k => (fun _ : Z => Q2Qc (2000 + k # 100), fun _ : Z => 1730600000 + 60 * k))
      (seqZ 0 5).

Lemma clear_data_leaves_old_chart_points_witness :
  (shapedb (runCycles demoCycles (Lvgl.tempData0 1)) = true /\
   Lvgl.sensorCount (runCycles demoCycles (Lvgl.tempData0 1)) = 1 /\
   0 <= 0 < 1 /\ 1 <= Lvgl.MAX_SENSORS /\ length (replicate 60 999) = 60%nat) /\
  LvglPanel.set_values
    (LvglPanel.chartPoints
       (runCycles freshCycles (Lvgl.clearData (runCycles demoCycles (Lvgl.tempData0 1)))) 0)
    (replicate 60 999)
  = [2000; 2001; 2002; 2003; 2004] ++ replicate 55 999.
Proof.
  assert (H1 : shapedb (runCycles demoCycles (Lvgl.tempData0 1)) = true)
    by (vm_compute; reflexivity).
  assert (H2 : Lvgl.sensorCount (runCycles demoCycles (Lvgl.tempData0 1)) = 1)
    by (vm_compute; reflexivity).
  assert (H3 : 0 <= 0 < 1) by lia.
  assert (H4 : 1 <= Lvgl.MAX_SENSORS) by (unfold Lvgl.MAX_SENSORS; lia).
  assert (H5 : length (replicate 60 999) = 60%nat) by reflexivity.
  split; [repeat split; assumption || lia|].
  etransitivity;
    [exact (proj2 (proj2 (proj2 (clear_data_leaves_old_chart_points
                     (runCycles demoCycles (Lvgl.tempData0 1)) 1 1 0 freshCycles
                     (replicate 60 999) H1 H2 H3 H4 H5))))|].
  vm_compute. reflexivity.
Defined.

(** ** A log line cut short *)

Section CutLineFacts.
Import Arduino Libc.

(** With [-1] for its right bound, which [indexOf] returns when it finds
    nothing, [substring] returns the text from [left] to its end. *)
Lemma substring_minus_one (s : Str) :
  0 < len s < 4294967295 -> substring 0 (-1) s = s.
Proof.
  intros H. unfold substring. cbv zeta.
  change (to_unsigned 0) with 0. change (to_unsigned (-1)) with 4294967295.
  change (4294967295 <? 0) with false. cbv iota.
  destruct (Z.leb_spec (len s) 0); [lia|].
  destruct (Z.ltb_spec (len s) 4294967295); [|lia].
  rewrite Z.sub_0_r. unfold len. rewrite Nat2Z.id. cbn [drop Z.to_nat].
  apply take_ge. lia.
Qed.

Lemma substring_whole (s : Str) :
  0 < len s < 4294967296 -> substring 0 (len s) s = s.
Proof.
  intros H. pose proof (substring_prefix s [] ) as Hp. rewrite app_nil_r in Hp.
  apply Hp. lia.
Qed.

(** [toFloat] on the text of a timestamp stops at the first dash: it
    returns the year. *)
Lemma toFloat_timeText tmv :
  0 <= tm_year tmv + 1900 ->
  toFloat (strftime_ymd_hms tmv) = Q2Qc (inject_Z (tm_year tmv + 1900)).
Proof.
  intros Hy. unfold strftime_ymd_hms, printInt.
  destruct (Z.ltb_spec (tm_year tmv + 1900) 0); [lia|].
  set (rest := lit "-" ++ pad2 (tm_mon tmv + 1) ++ lit "-" ++ pad2 (tm_mday tmv) ++ lit " " ++
               pad2 (tm_hour tmv) ++ lit ":" ++ pad2 (tm_min tmv) ++ lit ":" ++
               pad2 (tm_sec tmv)).
  destruct (scanDigits_printNumber (tm_year tmv + 1900) rest Hy eq_refl) as [k Hscan].
  destruct (printNumber_head (tm_year tmv + 1900) Hy) as (c & s & Hhead & Hc).
  assert (Hm : scanMantissa scanDigits 10 (printNumber (tm_year tmv + 1900) ++ rest)
               = Some ((inject_Z (tm_year tmv + 1900)
                        + inject_Z 0 / inject_Z (10 ^ Z.of_nat 0))%Q, rest)).
  { unfold scanMantissa. rewrite Hscan. reflexivity. }
  assert (Hhex : hexPrefix (printNumber (tm_year tmv + 1900) ++ rest) = None).
  { destruct (printNumber_spec (tm_year tmv + 1900) Hy) as (Hall & _ & _).
    apply hexPrefix_digits; [exact Hall| |reflexivity].
    rewrite Hhead. discriminate. }
  rewrite Hhead in Hm, Hhex |- *. cbn [app] in Hm, Hhex |- *.
  pose proof (toFloat_plain false c _ _ rest Hc Hhex Hm eq_refl) as Hf.
  cbv iota in Hf. rewrite app_nil_l in Hf. rewrite Hf.
  apply Qc_is_canon. simpl this. rewrite !Qred_correct.
  change (inject_Z (10 ^ Z.of_nat 0)) with 1%Q. change (inject_Z 0) with 0%Q. field.
Qed.

End CutLineFacts.

(** X19.  A line of the log that was cut after its timestamp, so that it
    has no comma, is not rejected by [loadData]: the body of its loop
    makes of it an entry with the right timestamp and with one reading,
    the number of the year, because [indexOf] returns -1 and the whole
    line is then parsed once as the time and once as a temperature. *)
Theorem cut_line_reads_year_as_temperature
  (t : time_t) (Ht : 0 <= t < 253402300800) :
  Tft.parseLine (Libc.strftime_ymd_hms (Libc.localtime t))
  = {| Tft.timestamp := t;
       Tft.temperatures := [Q2Qc (inject_Z (Libc.tm_year (Libc.localtime t) + 1900))] |}.
Proof.
  destruct (timeText_props t Ht) as (T1 & T2 & _). cbv zeta in *.
  destruct (localtime_fields t Ht) as (Hy & Hm & Hd & Hh & Hmi & Hs). cbv zeta in *.
  assert (Tc : commaFree (Libc.strftime_ymd_hms (Libc.localtime t)))
    by (eapply Forall_impl; [exact T1|]; now intros x [Hx _]).
  pose proof (toFloat_timeText (Libc.localtime t) ltac:(lia)) as Hf.
  pose proof (sscanf_strftime (Libc.localtime t) ltac:(lia) ltac:(lia) ltac:(lia) ltac:(lia)
                ltac:(lia) ltac:(lia)) as Hscan.
  revert T2 Tc Hf Hscan. generalize (Libc.strftime_ymd_hms (Libc.localtime t)) as line.
  intros line T2 Tc Hf Hscan.
  unfold Tft.parseLine. cbv zeta.
  rewrite (indexOf_miss line Tc), substring_minus_one by lia. rewrite Hscan.
  cbn [Libc.tm_year Libc.tm_mon Libc.tm_mday Libc.tm_hour Libc.tm_min Libc.tm_sec].
  replace (Libc.mkTm (Libc.tm_year (Libc.localtime t) + 1900 - 1900)
             (Libc.tm_mon (Libc.localtime t) + 1 - 1)
             (Libc.tm_mday (Libc.localtime t)) (Libc.tm_hour (Libc.localtime t))
             (Libc.tm_min (Libc.localtime t)) (Libc.tm_sec (Libc.localtime t)))
    with (Libc.localtime t)
    by (destruct (Libc.localtime t);
        cbn [Libc.tm_year Libc.tm_mon Libc.tm_mday Libc.tm_hour Libc.tm_min Libc.tm_sec];
        f_equal; lia).
  rewrite mktime_localtime. f_equal.
  change (-1 + 1) with 0. cbn [Tft.parseTemps].
  destruct (Z.ltb_spec 0 (Arduino.len line)); [|lia].
  assert (Hidx : Arduino.indexOfFrom "," 0 line = -1) by exact (indexOf_miss line Tc).
  rewrite Hidx. change (-1 =? -1) with true. cbv iota.
  rewrite substring_whole by lia. rewrite Hf.
  destruct (Z.ltb_spec (Arduino.len line + 1) (Arduino.len line)); [lia|reflexivity].
Qed.

Lemma cut_line_reads_year_as_temperature_witness :
  0 <= 1730600000 < 253402300800 /\
  Tft.temperatures (Tft.parseLine (Arduino.lit "2024-11-03 02:13:20")) = [Q2Qc (2024 # 1)].
Proof.
  assert (H : 0 <= 1730600000 < 253402300800) by lia.
  split; [exact H|].
  exact (f_equal Tft.temperatures (cut_line_reads_year_as_temperature 1730600000 H)).
Defined.

(** ** Names of the sensors at load time *)

Section NameFacts.

Lemma length_foldl_insert {A} (f : Z -> A) (idx : list Z) (l : list A) :
  length (foldl (fun acc i => <[Z.to_nat i := f i]> acc) l idx) = length l.
Proof.
  revert l. induction idx as [|i idx IH]; intros l; [reflexivity|].
  cbn [foldl]. now rewrite IH, length_insert.
Qed.

Lemma foldl_insert_upto {A} (f : Z -> A) (l : list A) (n k : nat) :
  foldl (fun acc i => <[Z.to_nat i := f i]> acc) l (seqZ 0 (Z.of_nat n)) !! k
  = if decide ((k < n)%nat /\ (k < length l)%nat) then Some (f (Z.of_nat k)) else l !! k.
Proof.
  induction n as [|n IH].
  - cbn [foldl seqZ]. case_decide as H; [lia|reflexivity].
  - rewrite seqZ_S, foldl_app. cbn [foldl]. rewrite Z.add_0_l, Nat2Z.id.
    destruct (decide (k = n)) as [->|Hne].
    + clear IH. destruct (decide (n < length l)%nat) as [Hl|Hl].
      * rewrite list_lookup_insert_eq by (now rewrite length_foldl_insert).
        case_decide as H; [reflexivity|lia].
      * rewrite lookup_ge_None_2 by (rewrite length_insert, length_foldl_insert; lia).
        case_decide as H; [lia|]. symmetry. apply lookup_ge_None_2. lia.
    + rewrite list_lookup_insert_ne by congruence. rewrite IH.
      repeat case_decide; try reflexivity; lia.
Qed.

End NameFacts.

(** X20.  The names [loadSettings] gives the sensors.  For a stored
    sensor count n between 0 and 10, sensor i < n gets the string stored
    under ["sensor_i"], and when that key is missing or holds no string it
    gets the default name ["Sensor "] followed by i + 1; the names of the
    sensors from n on are left as they were. *)
Theorem loaded_sensor_names_default
  (p : gmap string Tft.PrefValue) (cur : Tft.Settings) (i : Z)
  (Hn : 0 <= Tft.getInt "sensor_count" 0 p <= 10)
  (Hl : length (Tft.sensorNames cur) = 10%nat)
  (Hi : 0 <= i < 10) :
  Tft.sensorNames (Tft.loadSettings p cur) !! Z.to_nat i
  = if i <? Tft.getInt "sensor_count" 0 p
    then Some (match p !! Tft.sensorKey i with
               | Some (Tft.PString s) => s
               | _ => Arduino.lit "Sensor " ++ Arduino.printInt (i + 1)
               end)
    else Tft.sensorNames cur !! Z.to_nat i.
Proof.
  unfold Tft.loadSettings. cbv zeta. cbn [Tft.sensorNames].
  set (n := Tft.getInt "sensor_count" 0 p) in *.
  rewrite <- (Z2Nat.id n) at 1 by lia.
  rewrite (foldl_insert_upto
             (fun i => Tft.getString (Tft.sensorKey i)
                         (Arduino.lit "Sensor " ++ Arduino.printInt (i + 1)) p)).
  rewrite Hl. destruct (Z.ltb_spec i n) as [Hlt|Hge].
  - case_decide as H; [|lia]. rewrite Z2Nat.id by lia. reflexivity.
  - case_decide as H; [lia|reflexivity].
Qed.

(** A namespace that holds a sensor count of 3 and the name of sensor 1
    only. *)
Definition partialPrefs : gmap string Tft.PrefValue :=
  <["sensor_1"%string := Tft.PString (Arduino.lit "Boiler")]>
    (<["sensor_count"%string := Tft.PInt 3]> ∅).

Lemma loaded_sensor_names_default_witness :
  0 <= Tft.getInt "sensor_count" 0 partialPrefs <= 10 /\
  length (Tft.sensorNames Tft.settings0) = 10%nat /\ 0 <= 2 < 10 /\
  take 4 (Tft.sensorNames (Tft.loadSettings partialPrefs Tft.settings0))
  = [Arduino.lit "Sensor 1"; Arduino.lit "Boiler"; Arduino.lit "Sensor 3"; []] /\
  Tft.sensorNames (Tft.loadSettings partialPrefs Tft.settings0) !! Z.to_nat 2
  = Some (Arduino.lit "Sensor 3").
Proof.
  assert (H1 : 0 <= Tft.getInt "sensor_count" 0 partialPrefs <= 10)
    by (vm_compute; split; discriminate).
  assert (H2 : length (Tft.sensorNames Tft.settings0) = 10%nat) by reflexivity.
  assert (H3 : 0 <= 2 < 10) by lia.
  split; [exact H1|]. split; [exact H2|]. split; [exact H3|].
  split; [vm_compute; reflexivity|].
  etransitivity; [exact (loaded_sensor_names_default partialPrefs Tft.settings0 2 H1 H2 H3)|].
  vm_compute. reflexivity.
Defined.

(** ** The table of the LVGL sketch, in general *)

Section LvglTableZero.
Import Lvgl LvglPanel.

(** The row number, the time cell and the cell of sensor 0 that
    [update_table] makes of a reading of sensor 0. *)
Definition rowZero (rows : Z) (k : nat) (x : SensorData) : Z * Str * option (option float) :=
  (Z.max 1 (rows - 10) + Z.of_nat k,
   Libc.pad2 (hour (timestamp x)) ++ Arduino.lit ":" ++ Libc.pad2 (minute (timestamp x)),
   Some (Some (temperature x))).

Lemma update_table_sensor_zero rows td l :
  1 <= sensorCount td -> tracksCh td (Z.to_nat 0) l ->
  Forall (fun x => temperature x <> DEVICE_DISCONNECTED_C) l ->
  map (fun r => (row r, timeStr r, cells r !! 0%nat)) (update_table rows td)
  = imap (rowZero rows) (drop (length l - 10) l).
Proof.
  intros Hn Htr Hconn. unfold update_table. cbv zeta.
  pose proof Htr as (H1 & H2 & _). change (Z.to_nat 0) with 0%nat in H1, H2.
  rewrite H1, H2. unfold MAX_DATA_POINTS in *.
  set (N := Z.of_nat (length l)) in *.
  change (Z.min 10 1000) with 10.
  replace (Z.min (Z.min N 1000) 10) with (Z.min N 10) by lia.
  apply list_eq. intros t. rewrite !list_lookup_fmap, list_lookup_imap, lookup_drop.
  destruct (decide (Z.of_nat t < Z.min N 10)) as [Ht|Ht].
  2:{ rewrite lookup_seqZ_ge by lia. rewrite lookup_ge_None_2; [reflexivity|].
      unfold N in Ht. lia. }
  rewrite lookup_seqZ_lt by lia. rewrite Z.add_0_l.
  pose proof (tracksCh_back td 0 l (Z.min N 10 - Z.of_nat t) Htr ltac:(lia)) as Hb.
  unfold MAX_DATA_POINTS in Hb. fold N in Hb. specialize (Hb ltac:(lia)).
  replace (length l - Z.to_nat (Z.min N 10 - Z.of_nat t))%nat
    with (length l - 10 + t)%nat in Hb by (unfold N in *; lia).
  rewrite Hb. cbn [fmap option_fmap option_map row timeStr cells]. f_equal.
  unfold rowZero. f_equal.
  rewrite list_lookup_fmap, lookup_seqZ_lt by lia.
  cbn [fmap option_fmap option_map]. rewrite Z.add_0_l.
  rewrite bool_decide_eq_true_2; [reflexivity|].
  rewrite Forall_forall in Hconn. apply Hconn. eapply list_elem_of_lookup_2. exact Hb.
Qed.

End LvglTableZero.

(** X21.  Whatever the sensors returned, [update_table] follows sensor 0:
    its rows are the latest ten readings stored for sensor 0 (all when
    there are fewer), oldest first, numbered from [max(1, rows - 10)],
    with the hour and minute of that reading in the time cell and its
    value in the first sensor cell; a turn in which sensor 0 was
    disconnected gets no row. *)
Theorem lvgl_table_follows_sensor_zero
  (rows n : Z) (cycles : list ((Z -> float) * (Z -> time_t)))
  (Hn : 1 <= n <= 10) :
  let stored := accepted n 0 cycles in
  map (fun r => (LvglPanel.row r, LvglPanel.timeStr r, LvglPanel.cells r !! 0%nat))
      (LvglPanel.update_table rows (runCycles cycles (Lvgl.tempData0 n)))
  = imap (rowZero rows) (drop (length stored - 10) stored).
Proof.
  cbv zeta. apply update_table_sensor_zero; [| |apply accepted_connected].
  - assert (Hshape : Lvgl.sensorCount (runCycles cycles (Lvgl.tempData0 n)) = n).
    { apply (runCycles_shape cycles (Lvgl.tempData0 n) []).
      - cbn [Lvgl.sensorCount Lvgl.tempData0]. unfold Lvgl.MAX_SENSORS. lia.
      - apply shaped_tempData0.
      - apply tracksCh_tempData0. unfold Lvgl.MAX_SENSORS. lia. }
    lia.
  - pose proof (runCycles_tracks cycles (Lvgl.tempData0 n) 0 []) as H.
    rewrite app_nil_l in H. apply H.
    + cbn [Lvgl.sensorCount Lvgl.tempData0]. unfold Lvgl.MAX_SENSORS. lia.
    + lia.
    + apply shaped_tempData0.
    + apply tracksCh_tempData0. unfold Lvgl.MAX_SENSORS. lia.
Qed.

Lemma lvgl_table_follows_sensor_zero_witness :
  1 <= 1 <= 10 /\
  map LvglPanel.timeStr (LvglPanel.update_table 1 (runCycles demoCycles (Lvgl.tempData0 1)))
  = [Arduino.lit "02:13"].
Proof.
  assert (H1 : 1 <= 1 <= 10) by lia.
  split; [exact H1|].
  pose proof (f_equal (map (fun x => snd (fst x)))
                (lvgl_table_follows_sensor_zero 1 1 demoCycles H1)) as H.
  cbv zeta in H. rewrite map_map in H. cbn [fst snd] in H.
  etransitivity; [exact H|]. vm_compute. reflexivity.
Defined.
